(** * finance_app: a shallow embedding of the data-access layer, the
    transaction normaliser and the report aggregations.

    Python floats are IEEE binary64 values, so they are modelled by Rocq's
    primitive floats; sheets, caches and the HTTP providers are explicit
    state that the functions thread through a small state-and-exception
    monad. What the code leaves to its libraries is a parameter of the
    embedding: the parsers of Python and pandas, the order in which numpy
    and pandas add floats, the responses of the providers and the
    failures of the spreadsheet API that the code catches. *)

From Stdlib Require Import ZArith Floats String Ascii List Bool Lia Sorted Permutation.
From stdpp Require Import gmap strings list pretty.

Set Default Proof Using "Type".

(** ** Python values *)

(** The values that reach the code from JSON bodies and sheet cells. *)
#[warnings="-register-all"]
Inductive pyval : Type :=
| PyNone
| PyBool (b : bool)
| PyInt (z : Z)
| PyFloat (f : float)
| PyStr (s : string)
| PyList (items : list pyval)
| PyDict (entries : list (string * pyval)).

(** [type(x).__name__], as it appears in an AttributeError message. *)
Definition type_name (x : pyval) : string :=
  match x with
  | PyNone => "NoneType"
  | PyBool _ => "bool"
  | PyInt _ => "int"
  | PyFloat _ => "float"
  | PyStr _ => "str"
  | PyList _ => "list"
  | PyDict _ => "dict"
  end.

Fixpoint assoc_get {A : Type} (k : string) (kvs : list (string * A)) : option A :=
  match kvs with
  | [] => None
  | (k', v) :: rest => if String.eqb k k' then Some v else assoc_get k rest
  end.

(** [float(n)] for an int: round to nearest even, OverflowError ([None])
    when the rounded value is not finite. *)
Definition int_to_float (z : Z) : option float :=
  let f := SF2Prim (binary_normalize prec emax z 0 false) in
  if PrimFloat.is_infinity f then None else Some f.

Definition nl : string := String "010" EmptyString.

(** ** Dates *)

Record date : Type := mk_date { year : nat; month : nat; day : nat }.

#[global] Instance date_eq_dec : EqDecision date.
Proof. solve_decision. Defined.

Definition zfill (width : nat) (s : string) : string :=
  String.concat "" (replicate (width - String.length s) "0") +:+ s.

(** [d.isoformat()]: YYYY-MM-DD. *)
Definition isoformat (d : date) : string :=
  zfill 4 (pretty (year d)) +:+ "-" +:+ zfill 2 (pretty (month d))
    +:+ "-" +:+ zfill 2 (pretty (day d)).

(** A pandas Timestamp: a calendar date and the nanoseconds into the day. *)
Record timestamp : Type := mk_ts { ts_date : date; ts_nanos : N }.

(** ** Data frames *)

(** The integer dtypes that [pd.to_numeric] gives a column. *)
Inductive int_kind : Type := I64 | U64.

(** Arithmetic in a 64-bit integer dtype wraps around. *)
Definition wrap (k : int_kind) (z : Z) : Z :=
  match k with
  | I64 => ((z + 2 ^ 63) mod 2 ^ 64 - 2 ^ 63)%Z
  | U64 => (z mod 2 ^ 64)%Z
  end.

(** [float(n)] for a numpy integer: the nearest float, ties to even; a
    64-bit integer never overflows. *)
Definition float_of_int64 (z : Z) : float :=
  SF2Prim (binary_normalize prec emax z 0 false).

(** A pandas column with its dtype: object (str), int64 or uint64,
    float64, or datetime64 ([None] is NaT). *)
Inductive column : Type :=
| ColObj (vals : list string)
| ColInt (kind : int_kind) (vals : list Z)
| ColFloat (vals : list float)
| ColTime (vals : list (option timestamp)).

Definition col_len (c : column) : nat :=
  match c with
  | ColObj l => length l
  | ColInt _ l => length l
  | ColFloat l => length l
  | ColTime l => length l
  end.

(** A frame is its row count and its labelled columns, in order. *)
Record DataFrame : Type := mk_df {
  index : nat;
  columns : list (string * column)
}.

(** [pd.DataFrame()] *)
Definition empty_frame : DataFrame := mk_df 0 [].

(** [df.empty]: some axis has length 0. *)
Definition df_empty (df : DataFrame) : bool :=
  (index df =? 0)%nat || (length (columns df) =? 0)%nat.

(** ** Sheets *)

(** The spreadsheet is a store: a cell holds the value last written to it
    and reading it returns that value. A call to the spreadsheet API
    raises for an unknown worksheet title and for a row that cannot be
    sent. The lookup of a rate, whose failure the code catches, raises
    when the externals say so; every other call succeeds. *)

Abbreviation row := (list pyval) (only parsing).
Abbreviation worksheet := (list (list pyval)) (only parsing).

(** Value of the cell in 1-based column [col] of a row; an absent cell
    reads as [None]. *)
Definition row_cell (r : row) (col : nat) : pyval :=
  default PyNone (r !! (col - 1)%nat).

Definition cell_matches (v : pyval) (query : string) : bool :=
  match v with PyStr s => String.eqb s query | _ => false end.

Fixpoint find_from (n : nat) (w : worksheet) (query : string) (in_column : nat)
  : option nat :=
  match w with
  | [] => None
  | r :: rest =>
      if cell_matches (row_cell r in_column) query then Some n
      else find_from (S n) rest query in_column
  end.

(** [worksheet.find(query, in_column=c)]: the 1-based row of the first
    cell of that column that holds the string [query]. *)
Definition ws_find (w : worksheet) (query : string) (in_column : nat) : option nat :=
  find_from 1 w query in_column.

(** [worksheet.cell(r, c).value] *)
Definition ws_cell (w : worksheet) (r c : nat) : pyval :=
  match w !! (r - 1)%nat with
  | Some rw => row_cell rw c
  | None => PyNone
  end.

(** [worksheet.row_values(1)] *)
Definition ws_row_values1 (w : worksheet) : row := default [] (head w).

(** [worksheet.append_row(values)]: the new row goes below the last one. *)
Definition ws_append_row (w : worksheet) (values : row) : worksheet := w ++ [values].

(** [worksheet.clear()] *)
Definition ws_clear (w : worksheet) : worksheet := [].

(** Rows are sent to the spreadsheet as JSON, and the encoder of the HTTP
    client refuses NaN and the infinities. *)
Definition json_ok (v : pyval) : bool :=
  match v with
  | PyFloat f => is_finite f
  | _ => true
  end.

(** ** HTTP *)

Record response : Type := mk_response {
  status_code : Z;
  text : string;
  (** what [resp.json()] does: the parsed body, or the message of the
      decoding error it raises *)
  json : string + pyval
}.

(** [requests.get] either raises (timeout, connection error) or returns. *)
Inductive get_outcome : Type :=
| GetRaises (msg : string)
| GetReturns (resp : response).

(** What the code takes from outside the repository. *)
Record externals : Type := mk_externals {
  (** [float(s)] for a str; [None] is ValueError *)
  float_of_str : string -> option float;
  (** [str(x)], as an f-string interpolates a parsed JSON value *)
  py_str : pyval -> string;
  (** the text [get_all_values] shows for a cell *)
  cell_text : pyval -> string;
  (** outcome of the n-th [requests.get] of the process, by URL *)
  http_get : nat -> string -> get_outcome;
  (** whether the spreadsheet API raises in the lookup of a date in the
      Rates sheet ([find], [cell]) that is made after n requests *)
  lookup_raises : nat -> string -> bool;
  (** [Series.sum()] of a float64 column: the sum as numpy adds it up,
      NaN entries counting as 0.0 *)
  float_sum : list float -> float;
  (** the sum of the float64 values of one group, in row order, as
      [groupby(...).sum()] and [pivot_table(aggfunc="sum")] add them up,
      NaN entries left out *)
  group_float_sum : list float -> float
}.

(** ** The process state *)

Record world : Type := mk_world {
  (** the spreadsheet: worksheets by title *)
  book : gmap string worksheet;
  (** [st.cache_data] stores, one per cached function; the underscore
      argument [_sheet_id] is not part of the key *)
  rate_cache : gmap string (option float);
  header_cache : gmap string row;
  df_cache : gmap string DataFrame;
  (** [date.today()] *)
  today : date;
  (** URLs requested so far *)
  requests_log : list string
}.

Definition set_book (f : gmap string worksheet -> gmap string worksheet) (w : world) : world :=
  mk_world (f (book w)) (rate_cache w) (header_cache w) (df_cache w)
           (today w) (requests_log w).

Definition set_rate_cache (c : gmap string (option float)) (w : world) : world :=
  mk_world (book w) c (header_cache w) (df_cache w) (today w) (requests_log w).

Definition set_header_cache (c : gmap string row) (w : world) : world :=
  mk_world (book w) (rate_cache w) c (df_cache w) (today w) (requests_log w).

Definition set_df_cache (c : gmap string DataFrame) (w : world) : world :=
  mk_world (book w) (rate_cache w) (header_cache w) c (today w) (requests_log w).

Definition log_request (url : string) (w : world) : world :=
  mk_world (book w) (rate_cache w) (header_cache w) (df_cache w)
           (today w) (requests_log w ++ [url]).

(** ** State and exceptions *)

Inductive result (A : Type) : Type :=
| Ok (a : A)
| Raise (e : string).
Arguments Ok {A} a.
Arguments Raise {A} e.

Definition M (A : Type) : Type := world -> result A * world.

Definition ret {A : Type} (a : A) : M A := fun w => (Ok a, w).

Definition raise {A : Type} (e : string) : M A := fun w => (Raise e, w).

Definition bind {A B : Type} (c : M A) (k : A -> M B) : M B :=
  fun w =>
    match c w with
    | (Ok a, w') => k a w'
    | (Raise e, w') => (Raise e, w')
    end.

(** [try: c except Exception as e: h(str(e))] *)
Definition try_except {A : Type} (c : M A) (h : string -> M A) : M A :=
  fun w =>
    match c w with
    | (Ok a, w') => (Ok a, w')
    | (Raise e, w') => h e w'
    end.

Definition get_world : M world := fun w => (Ok w, w).

Definition modify (f : world -> world) : M unit := fun w => (Ok tt, f w).

Declare Scope py_scope.
Delimit Scope py_scope with py.
Notation "x <- c ;; k" := (bind c (fun x => k))
  (at level 100, c at next level, right associativity) : py_scope.
Notation "c ;;; k" := (bind c (fun _ => k))
  (at level 100, right associativity) : py_scope.
Open Scope py_scope.

(** ** Data access layer (utils.py) *)

Section DataAccess.

Variable X : externals.

(** [float(x)]; [None] stands for the TypeError, ValueError or
    OverflowError it raises. *)
Definition py_float (x : pyval) : option float :=
  match x with
  | PyFloat f => Some f
  | PyInt z => int_to_float z
  | PyBool b => Some (if b then 1%float else 0%float)
  | PyStr s => float_of_str X s
  | PyNone | PyList _ | PyDict _ => None
  end.

Definition safe_float (x : pyval) (default : float) : float :=
  match py_float x with
  | Some f => f
  | None => default
  end.

(** [st.cache_data.clear()] empties the store of every cached function. *)
Definition invalidate_all_data_caches : M unit :=
  modify (fun w => mk_world (book w) ∅ ∅ ∅ (today w) (requests_log w)).

(** [book.worksheet(name)]; raises WorksheetNotFound for an unknown title. *)
Definition book_worksheet (name : string) : M worksheet :=
  w <- get_world ;;
  match book w !! name with
  | Some s => ret s
  | None => raise name
  end.

(** [ws(book, title).append_row(values)]; raises when the row cannot be
    encoded, and then nothing is written. *)
Definition append_row (title : string) (values : row) : M unit :=
  sheet <- book_worksheet title ;;
  if forallb json_ok values then
    modify (set_book (<[title := ws_append_row sheet values]>))
  else raise "Out of range float values are not JSON compliant".

Definition requests_get (url : string) : M response :=
  fun w =>
    match http_get X (length (requests_log w)) url with
    | GetRaises msg => (Raise msg, log_request url w)
    | GetReturns r => (Ok r, log_request url w)
    end.

Definition resp_json (r : response) : M pyval :=
  match json r with
  | inl msg => raise msg
  | inr v => ret v
  end.

(** [data.get(key)]; AttributeError when [data] is not a dict. *)
Definition data_get (data : pyval) (key : string) : M pyval :=
  match data with
  | PyDict kvs => ret (default PyNone (assoc_get key kvs))
  | _ => raise ("'" +:+ type_name data +:+ "' object has no attribute 'get'")
  end.

(** [rates["BDT"]] once [isinstance(rates, dict) and "BDT" in rates]. *)
Definition rates_bdt (rates : pyval) : option pyval :=
  match rates with
  | PyDict kvs => assoc_get "BDT" kvs
  | _ => None
  end.

(** [existing != headers] is decided cell by cell: a row equals the
    header list when every cell is that header string. *)
Fixpoint row_eqb (existing : row) (headers : list string) : bool :=
  match existing, headers with
  | [], [] => true
  | v :: vs, h :: hs => cell_matches v h && row_eqb vs hs
  | _, _ => false
  end.

Definition headers_row (headers : list string) : row := PyStr <$> headers.

(** Cached for 120 s under the worksheet title. *)
Definition _read_header_row (ws_title : string) : M row :=
  w <- get_world ;;
  match header_cache w !! ws_title with
  | Some hit => ret hit
  | None =>
      sheet <- book_worksheet ws_title ;;
      let v := ws_row_values1 sheet in
      modify (fun w => set_header_cache (<[ws_title := v]> (header_cache w)) w) ;;;
      ret v
  end.

(** [worksheet] is the handle of the sheet titled [title]. *)
Definition ensure_headers (title : string) (headers : list string) : M unit :=
  existing <- try_except (_read_header_row title)
                (fun _ => sheet <- book_worksheet title ;; ret (ws_row_values1 sheet)) ;;
  if negb (row_eqb existing headers) then
    sheet <- book_worksheet title ;;
    modify (set_book (<[title := ws_clear sheet]>)) ;;;
    append_row title (headers_row headers) ;;;
    invalidate_all_data_caches
  else ret tt.

(** *** Cached sheet reads *)

Definition value_text (v : pyval) : string :=
  match v with
  | PyStr s => s
  | PyNone => ""
  | _ => cell_text X v
  end.

(** [worksheet.get_all_values()]: the used range as text, every row
    padded to the widest one. *)
Definition get_all_values (sheet : worksheet) : list (list string) :=
  let width := foldr Nat.max 0 (length <$> sheet) in
  (fun r : row => (value_text <$> r) ++ replicate (width - length r) "") <$> sheet.

(** [pd.DataFrame(rows, columns=headers)] for rows as wide as the headers. *)
Definition frame_of_rows (rows : list (list string)) (headers : list string) : DataFrame :=
  mk_df (length rows)
    (imap (fun j h => (h, ColObj ((fun r : list string => default "" (r !! j)) <$> rows)))
          headers).

(** Cached for 15 s under the worksheet title. *)
Definition read_df_cached (worksheet_title : string) : M DataFrame :=
  w <- get_world ;;
  match df_cache w !! worksheet_title with
  | Some hit => ret hit
  | None =>
      sheet <- book_worksheet worksheet_title ;;
      let values := get_all_values sheet in
      let df :=
        match values with
        | headers :: ((_ :: _) as rows) => frame_of_rows rows headers
        | _ => empty_frame
        end in
      modify (fun w => set_df_cache (<[worksheet_title := df]> (df_cache w)) w) ;;;
      ret df
  end.

Definition read_df (title : string) : M DataFrame := read_df_cached title.

(** *** FX rate fetch *)

(** Provider 1: Frankfurter (historical). *)
Definition _fetch_eur_to_bdt_rate_frankfurter (d : date) : M float :=
  let d_str := isoformat d in
  let url := "https://api.frankfurter.app/" +:+ d_str in
  resp <- requests_get (url +:+ "?from=EUR&to=BDT") ;;
  if negb (status_code resp =? 200)%Z then
    raise ("Frankfurter HTTP " +:+ pretty (status_code resp) +:+ ": " +:+ text resp)
  else
    data <- resp_json resp ;;
    rates <- data_get data "rates" ;;
    match rates_bdt rates with
    | None => raise ("Frankfurter missing BDT: " +:+ py_str X data)
    | Some v =>
        let rate := safe_float v 0 in
        if (rate <=? 0)%float then
          raise ("Frankfurter invalid rate: " +:+ py_str X data)
        else ret rate
    end.

Definition erapi_today_only : string :=
  "open.er-api.com fallback supports only today's rate".

(** Provider 2: fallback only for today's rate. *)
Definition _fetch_eur_to_bdt_rate_erapi (d : date) : M float :=
  w <- get_world ;;
  if negb (bool_decide (d = today w)) then raise erapi_today_only
  else
    let url := "https://open.er-api.com/v6/latest/EUR" in
    resp <- requests_get url ;;
    if negb (status_code resp =? 200)%Z then
      raise ("ER-API HTTP " +:+ pretty (status_code resp) +:+ ": " +:+ text resp)
    else
      data <- resp_json resp ;;
      rates <- data_get data "rates" ;;
      match rates_bdt rates with
      | None => raise ("ER-API missing BDT: " +:+ py_str X data)
      | Some v =>
          let rate := safe_float v 0 in
          if (rate <=? 0)%float then
            raise ("ER-API invalid rate: " +:+ py_str X data)
          else ret rate
      end.

Definition _fetch_eur_to_bdt_rate (d : date) : M float :=
  try_except (_fetch_eur_to_bdt_rate_frankfurter d) (fun e1 =>
    let errors := ["Frankfurter failed: " +:+ e1] in
    try_except (_fetch_eur_to_bdt_rate_erapi d) (fun e2 =>
      let errors := errors ++ ["ER-API failed: " +:+ e2] in
      raise ("All FX providers failed." +:+ nl +:+ String.concat nl errors))).

(** *** Rates: lookup *)

(** What the [try] block of [_get_rate_from_sheet_cached] returns when
    the API calls go through: find the date in column A and read the
    rate from column B. *)
Definition rate_in_sheet (rates_ws : worksheet) (d_str : string) : option float :=
  match ws_find rates_ws d_str 1 with
  | None => None
  | Some cell_row =>
      let rate_val := ws_cell rates_ws cell_row 2 in
      let rate := safe_float rate_val 0 in
      if (0 <? rate)%float then Some rate else None
  end.

(** The [try] block: [find] and [cell] are calls to the spreadsheet API,
    which can fail. *)
Definition rates_lookup (rates_ws : worksheet) (d_str : string) : M (option float) :=
  w <- get_world ;;
  if lookup_raises X (length (requests_log w)) d_str then raise "APIError"
  else ret (rate_in_sheet rates_ws d_str).

(** Cached for 300 s under [d_str]; a [None] result is cached as well,
    also the one of the [except] branch. *)
Definition _get_rate_from_sheet_cached (d_str : string) : M (option float) :=
  w <- get_world ;;
  match rate_cache w !! d_str with
  | Some hit => ret hit
  | None =>
      rates_ws <- book_worksheet "Rates" ;;
      v <- try_except (rates_lookup rates_ws d_str) (fun _ => ret None) ;;
      modify (fun w => set_rate_cache (<[d_str := v]> (rate_cache w)) w) ;;;
      ret v
  end.

(** Date-locked EUR->BDT rate: the stored rate if there is one, else a
    fetched rate, which is stored. *)
Definition get_rate_for_date (d : date) : M float :=
  let d_str := isoformat d in
  existing <- _get_rate_from_sheet_cached d_str ;;
  match existing with
  | Some r => ret r
  | None =>
      rate <- _fetch_eur_to_bdt_rate d ;;
      append_row "Rates" [PyStr d_str; PyFloat rate] ;;;
      invalidate_all_data_caches ;;;
      ret rate
  end.

End DataAccess.

(** ** Entry page: rate lookup, conversion and save (pages/1_Entry.py) *)

Record entry_form : Type := mk_entry_form {
  entry_type : string;
  entry_category : string;
  entry_date : date;
  entry_remarks : string;
  (** the number input has [min_value=0.0] *)
  entry_amount_eur : float;
  (** whether the user pressed the save button in this run *)
  save_clicked : bool
}.

Section Entry.

Variable X : externals.

(** Instant rate lookup and conversion: [(rate, amount_bdt)]. *)
Definition rate_and_conversion (f : entry_form) : M (option float * float) :=
  try_except
    (rate <- get_rate_for_date X (entry_date f) ;;
     ret (Some rate, (entry_amount_eur f * rate)%float))
    (fun _ => ret (None, 0%float)).

(** The save button; [tx_id] is what [make_tx_id()] returns and [now] the
    timestamp of the click. The result is the row appended, if any. *)
Definition save_entry (tx_id now : string) (f : entry_form) : M (option row) :=
  ra <- rate_and_conversion f ;;
  let rate := fst ra in
  let amount_bdt := snd ra in
  let amount_eur := entry_amount_eur f in
  let save_disabled :=
    match rate with None => true | Some _ => false end
    || (amount_eur <=? 0)%float in
  if save_clicked f && negb save_disabled then
    match rate with
    | None => ret None
    | Some r =>
        let new_row :=
          [PyStr tx_id; PyStr (isoformat (entry_date f)); PyStr (entry_type f);
           PyStr (entry_category f); PyStr (entry_remarks f);
           PyFloat amount_eur; PyFloat r; PyFloat amount_bdt; PyStr now] in
        append_row "Transactions" new_row ;;;
        invalidate_all_data_caches ;;;
        ret (Some new_row)
    end
  else ret None.

End Entry.

(** ** Transaction normaliser (utils.py) *)

(** The conversions of pandas that the normaliser calls. *)
Record pandas : Type := mk_pandas {
  (** [pd.to_datetime(col, errors="coerce")] on a column of strs, which
      takes the format from the column: the error it raises all the same
      (a column that mixes UTC offsets), if any *)
  to_datetime_error : list string -> option string;
  (** and else the timestamp it gives a cell of the column; [None] is the
      NaT of a cell it cannot parse *)
  parse_datetime : list string -> string -> option timestamp;
  (** [pd.to_numeric(col, errors="coerce")] on a column of strs: the
      integer dtype of the result when every cell writes an integer that
      fits it, [None] when the result is float64 *)
  int_dtype : list string -> option int_kind;
  (** the integer that a cell of an integer column writes *)
  parse_int : string -> Z;
  (** the float that a cell of a float64 column writes; [None] is the NaN
      of a cell that cannot be parsed *)
  parse_numeric : string -> option float;
  (** the same conversions applied to a column that already has another
      dtype: nanoseconds to timestamps, timestamps to their int64 view *)
  datetime_of_int : Z -> option timestamp;
  datetime_of_float : float -> option timestamp;
  int_of_time : option timestamp -> Z;
  (** [astype(str)] on a float and on a timestamp *)
  str_of_float : float -> string;
  str_of_time : option timestamp -> string
}.

Definition required_cols : list string :=
  ["id"; "date"; "type"; "category"; "remarks";
   "amount_eur"; "rate_eur_bdt"; "amount_bdt"; "created_at"].

Definition amount_cols : list string := ["amount_eur"; "rate_eur_bdt"; "amount_bdt"].

Definition text_cols : list string := ["id"; "type"; "category"; "remarks"; "created_at"].

Fixpoint assoc_set {A : Type} (k : string) (v : A) (kvs : list (string * A))
  : list (string * A) :=
  match kvs with
  | [] => [(k, v)]
  | (k', v') :: rest =>
      if String.eqb k k' then (k, v) :: rest else (k', v') :: assoc_set k v rest
  end.

(** [col in df.columns] *)
Definition df_has (df : DataFrame) (col : string) : bool :=
  match assoc_get col (columns df) with Some _ => true | None => false end.

(** [df[col]]; KeyError for an unknown label. *)
Definition df_get (df : DataFrame) (col : string) : result column :=
  match assoc_get col (columns df) with
  | Some c => Ok c
  | None => Raise ("'" +:+ col +:+ "'")
  end.

(** [df[col] = series]: an existing column is replaced in place, a new
    one goes last. *)
Definition df_set (df : DataFrame) (col : string) (c : column) : DataFrame :=
  mk_df (index df) (assoc_set col c (columns df)).

(** [df[col] = s] for a scalar str: broadcast over the rows. *)
Definition df_set_scalar (df : DataFrame) (col : string) (s : string) : DataFrame :=
  df_set df col (ColObj (replicate (index df) s)).

Definition and_then {A B : Type} (r : result A) (k : A -> result B) : result B :=
  match r with
  | Ok a => k a
  | Raise e => Raise e
  end.

Notation "x <~ r ;; k" := (and_then r (fun x => k))
  (at level 100, r at next level, right associativity) : py_scope.

Section Normalize.

Variable P : pandas.

(** The error that [pd.to_datetime(series, errors="coerce")] raises, if
    any. *)
Definition datetime_error (c : column) : option string :=
  match c with
  | ColObj l => to_datetime_error P l
  | _ => None
  end.

(** The datetime column that it returns otherwise. *)
Definition datetime_values (c : column) : column :=
  match c with
  | ColObj l => ColTime (parse_datetime P l <$> l)
  | ColInt _ l => ColTime (datetime_of_int P <$> l)
  | ColFloat l => ColTime (datetime_of_float P <$> l)
  | ColTime l => ColTime l
  end.

(** [pd.to_datetime(series, errors="coerce")] *)
Definition to_datetime (c : column) : result column :=
  match datetime_error c with
  | Some e => Raise e
  | None => Ok (datetime_values c)
  end.

(** [pd.to_numeric(series, errors="coerce")]: a column of strs becomes an
    integer column when every cell writes an integer, and a float64
    column, with NaN for what cannot be parsed, otherwise; a numeric
    column is returned as it is. *)
Definition to_numeric (c : column) : column :=
  match c with
  | ColObj l =>
      match int_dtype P l with
      | Some k => ColInt k (parse_int P <$> l)
      | None => ColFloat ((fun s => default nan (parse_numeric P s)) <$> l)
      end
  | ColInt k l => ColInt k l
  | ColFloat l => ColFloat l
  | ColTime l => ColInt I64 (int_of_time P <$> l)
  end.

(** [.fillna(0.0)]: an integer column has no NaN to fill. *)
Definition fillna0 (c : column) : column :=
  match c with
  | ColFloat l => ColFloat ((fun x => if is_nan x then 0%float else x) <$> l)
  | _ => c
  end.

(** [.astype(str)] *)
Definition astype_str (c : column) : column :=
  match c with
  | ColObj l => ColObj l
  | ColInt _ l => ColObj (pretty <$> l)
  | ColFloat l => ColObj (str_of_float P <$> l)
  | ColTime l => ColObj (str_of_time P <$> l)
  end.

(** [for col in cols: df[col] = f(df[col])] *)
Fixpoint convert_cols (f : column -> column) (cols : list string) (df : DataFrame)
  : result DataFrame :=
  match cols with
  | [] => Ok df
  | col :: rest =>
      c <~ df_get df col ;;
      convert_cols f rest (df_set df col (f c))
  end.

(** [for col in required_cols: if col not in df.columns: df[col] = ""] *)
Definition add_missing (cols : list string) (df : DataFrame) : DataFrame :=
  foldl (fun df col => if df_has df col then df else df_set_scalar df col "") df cols.

Definition normalize_transactions_df (tx_df : DataFrame) : result DataFrame :=
  if df_empty tx_df then Ok tx_df
  else
    let tx_df := add_missing required_cols tx_df in
    date_col <~ df_get tx_df "date" ;;
    date_col <~ to_datetime date_col ;;
    let tx_df := df_set tx_df "date" date_col in
    tx_df <~ convert_cols (fun c => fillna0 (to_numeric c)) amount_cols tx_df ;;
    convert_cols astype_str text_cols tx_df.

End Normalize.

(** *** Columns by label *)

Definition col_of (df : DataFrame) (k : string) : option column :=
  assoc_get k (columns df).

(** A well-formed frame: the labels are distinct, so that [df[col]] is a
    Series, and every column has one entry per row. *)
Definition wf_frame (df : DataFrame) : Prop :=
  NoDup (fst <$> columns df)
  /\ forall k c, col_of df k = Some c -> col_len c = index df.

Section NormalizedColumns.

Variable P : pandas.

(** The column of empty strings that stands in for a missing one. *)
Definition blank (n : nat) : column := ColObj (replicate n "").

(** The column that the normaliser starts from: the one of the input or,
    when the label is missing, the column of empty strings. *)
Definition input_col (df : DataFrame) (k : string) : column :=
  default (blank (index df)) (col_of df k).

(** The float that the normaliser makes of a cell of a float64 amount
    column: the number the cell writes, 0.0 when it writes none. *)
Definition amount_of_cell (s : string) : float :=
  match parse_numeric P s with
  | Some x => if is_nan x then 0%float else x
  | None => 0%float
  end.

(** What the normaliser makes of each label, when the conversion of the
    dates returns. *)
Definition normalized_col (df : DataFrame) (k : string) : option column :=
  if bool_decide (k = "date") then Some (datetime_values P (input_col df k))
  else if bool_decide (k ∈ amount_cols) then Some (fillna0 (to_numeric P (input_col df k)))
  else if bool_decide (k ∈ text_cols) then Some (astype_str P (input_col df k))
  else col_of df k.

End NormalizedColumns.

(** ** Sorting *)

Section InsertionSort.

Context {A : Type}.
Variable before : A -> A -> bool.

Fixpoint insert_by (x : A) (l : list A) : list A :=
  match l with
  | [] => [x]
  | y :: rest => if before x y then x :: y :: rest else y :: insert_by x rest
  end.

Definition sort_by (l : list A) : list A := foldr insert_by [] l.

End InsertionSort.

(** ** Aggregations of the report pages *)

(** [series == value] *)
Definition col_eq_str (c : column) (v : string) : list bool :=
  match c with
  | ColObj l => (fun s => String.eqb s v) <$> l
  | ColInt _ l => (fun _ => false) <$> l
  | ColFloat l => (fun _ => false) <$> l
  | ColTime l => (fun _ => false) <$> l
  end.

(** Selection by a boolean mask. *)
Fixpoint mask_list {A : Type} (mask : list bool) (l : list A) : list A :=
  match mask, l with
  | b :: mask', x :: l' => if b then x :: mask_list mask' l' else mask_list mask' l'
  | _, _ => []
  end.

Definition col_mask (mask : list bool) (c : column) : column :=
  match c with
  | ColObj l => ColObj (mask_list mask l)
  | ColInt k l => ColInt k (mask_list mask l)
  | ColFloat l => ColFloat (mask_list mask l)
  | ColTime l => ColTime (mask_list mask l)
  end.

(** [df.loc[mask, col]] *)
Definition df_loc (df : DataFrame) (mask : list bool) (col : string) : result column :=
  c <~ df_get df col ;; Ok (col_mask mask c).

(** [df[mask]] *)
Definition df_filter (df : DataFrame) (mask : list bool) : DataFrame :=
  mk_df (length (List.filter id (firstn (index df) mask)))
        ((fun kc : string * column => (kc.1, col_mask mask kc.2)) <$> columns df).

(** The sum of a 64-bit integer column: exact, up to wrap-around. *)
Definition int_sum (k : int_kind) (l : list Z) : Z := wrap k (foldr Z.add 0%Z l).

(** What a sum returns: a numpy float, a numpy integer or, for an object
    column, a Python object. *)
Inductive scalar : Type :=
| NpFloat (f : float)
| NpInt (z : Z)
| PyObject (v : pyval).

Section Summaries.

Variable X : externals.

(** [Series.sum()]: numbers are added in their dtype, strings
    concatenated (the empty object column sums to the int 0), timestamps
    cannot be summed. *)
Definition series_sum (c : column) : result scalar :=
  match c with
  | ColFloat l => Ok (NpFloat (float_sum X l))
  | ColInt k l => Ok (NpInt (int_sum k l))
  | ColObj [] => Ok (PyObject (PyInt 0))
  | ColObj l => Ok (PyObject (PyStr (String.concat "" l)))
  | ColTime _ => Raise "datetime64 type does not support sum operations"
  end.

(** [float(x)] for what a sum returned. *)
Definition float_of_scalar (s : scalar) : option float :=
  match s with
  | NpFloat f => Some f
  | NpInt z => Some (float_of_int64 z)
  | PyObject v => py_float X v
  end.

(** [float(df.loc[df["type"] == t, col].sum())] *)
Definition sum_where (df : DataFrame) (t col : string) : result float :=
  ty <~ df_get df "type" ;;
  sel <~ df_loc df (col_eq_str ty t) col ;;
  s <~ series_sum sel ;;
  match float_of_scalar s with
  | Some f => Ok f
  | None => Raise "could not convert to float"
  end.

(** *** Monthly report: summary (pages/2_Monthly_Report.py) *)

Record summary : Type := mk_summary {
  income_eur : float; expense_eur : float; debt_add_eur : float; debt_pay_eur : float;
  income_bdt : float; expense_bdt : float; debt_add_bdt : float; debt_pay_bdt : float;
  net_eur : float; net_bdt : float; debt_net_eur : float; debt_net_bdt : float
}.

(** [m] holds the transactions of the selected month. *)
Definition monthly_summary (m : DataFrame) : result summary :=
  income_eur <~ sum_where m "Income" "amount_eur" ;;
  expense_eur <~ sum_where m "Expense" "amount_eur" ;;
  debt_add_eur <~ sum_where m "Debt" "amount_eur" ;;
  debt_pay_eur <~ sum_where m "Debt Payment" "amount_eur" ;;
  income_bdt <~ sum_where m "Income" "amount_bdt" ;;
  expense_bdt <~ sum_where m "Expense" "amount_bdt" ;;
  debt_add_bdt <~ sum_where m "Debt" "amount_bdt" ;;
  debt_pay_bdt <~ sum_where m "Debt Payment" "amount_bdt" ;;
  let net_eur := (income_eur - expense_eur)%float in
  let net_bdt := (income_bdt - expense_bdt)%float in
  let debt_net_eur := (debt_add_eur - debt_pay_eur)%float in
  let debt_net_bdt := (debt_add_bdt - debt_pay_bdt)%float in
  Ok (mk_summary income_eur expense_eur debt_add_eur debt_pay_eur
                 income_bdt expense_bdt debt_add_bdt debt_pay_bdt
                 net_eur net_bdt debt_net_eur debt_net_bdt).

(** *** Entry page: top status (pages/1_Entry.py) *)

Record top_status : Type := mk_top_status {
  top_income_eur : float; top_expense_eur : float; top_debt_eur : float;
  top_income_bdt : float; top_expense_bdt : float; top_debt_bdt : float;
  savings_eur : float; savings_bdt : float
}.

Definition entry_top_status (tx_df : DataFrame) : result top_status :=
  sums <~
    (if df_empty tx_df then Ok (0, 0, 0, 0, 0, 0)%float
     else
       income_eur <~ sum_where tx_df "Income" "amount_eur" ;;
       expense_eur <~ sum_where tx_df "Expense" "amount_eur" ;;
       debt_add_eur <~ sum_where tx_df "Debt" "amount_eur" ;;
       debt_pay_eur <~ sum_where tx_df "Debt Payment" "amount_eur" ;;
       let debt_eur := (debt_add_eur - debt_pay_eur)%float in
       income_bdt <~ sum_where tx_df "Income" "amount_bdt" ;;
       expense_bdt <~ sum_where tx_df "Expense" "amount_bdt" ;;
       debt_add_bdt <~ sum_where tx_df "Debt" "amount_bdt" ;;
       debt_pay_bdt <~ sum_where tx_df "Debt Payment" "amount_bdt" ;;
       let debt_bdt := (debt_add_bdt - debt_pay_bdt)%float in
       Ok (income_eur, expense_eur, debt_eur, income_bdt, expense_bdt, debt_bdt)) ;;
  let '(income_eur, expense_eur, debt_eur, income_bdt, expense_bdt, debt_bdt) := sums in
  Ok (mk_top_status income_eur expense_eur debt_eur income_bdt expense_bdt debt_bdt
                    (income_eur - expense_eur)%float (income_bdt - expense_bdt)%float).

End Summaries.

(** *** The summary, row by row *)

(** The amounts of the transactions of type [t], top down; a transaction
    is the pair of its type and its amount. *)
Definition amounts_of_type {A : Type} (t : string) (txs : list (string * A)) : list A :=
  snd <$> List.filter (fun x : string * A => String.eqb x.1 t) txs.

(** The sum of the amounts of the transactions of one type, as a float:
    [ty] holds the types of the transactions and [amounts], a numeric
    column, their amounts. *)
Definition total_of (X : externals) (t : string) (ty : list string) (amounts : column)
  : float :=
  match amounts with
  | ColFloat l => float_sum X (amounts_of_type t (zip ty l))
  | ColInt k l => float_of_int64 (int_sum k (amounts_of_type t (zip ty l)))
  | _ => 0%float
  end.

(** A column of numbers. *)
Definition is_numeric (c : column) : bool :=
  match c with
  | ColFloat _ | ColInt _ _ => true
  | _ => false
  end.

(** ** Insights page (pages/3_Insights_and_Categories.py) *)

(** [x.strftime("%Y-%m")], or the empty string when that raises. The
    timestamps of pandas lie between the years 1677 and 2262, where [%Y]
    has four digits. *)
Definition to_month_str (x : option timestamp) : string :=
  match x with
  | Some t => zfill 4 (pretty (year (ts_date t))) +:+ "-" +:+ zfill 2 (pretty (month (ts_date t)))
  | None => ""
  end.

(** [tx_df["month"] = tx_df["date"].apply(to_month_str)]; an element that
    is not a timestamp has no [strftime]. *)
Definition add_month (tx_df : DataFrame) : result DataFrame :=
  d <~ df_get tx_df "date" ;;
  let months :=
    match d with
    | ColTime l => to_month_str <$> l
    | ColObj l => (fun _ => "") <$> l
    | ColInt _ l => (fun _ => "") <$> l
    | ColFloat l => (fun _ => "") <$> l
    end in
  Ok (df_set tx_df "month" (ColObj months)).

(** A pivoted table: the row labels and the labelled columns. *)
Record pivot : Type := mk_pivot {
  pv_index : list string;
  pv_columns : list (string * column)
}.

(** The rows whose two keys are [k1] and [k2]. *)
Definition group_mask (keys1 keys2 : list string) (k1 k2 : string) : list bool :=
  zip_with andb ((fun s => String.eqb s k1) <$> keys1)
                ((fun s => String.eqb s k2) <$> keys2).

(** The values of those rows. *)
Definition group_vals {A : Type} (keys1 keys2 : list string) (vals : list A) (k1 k2 : string)
  : list A :=
  mask_list (group_mask keys1 keys2 k1 k2) vals.

Definition is_some {A : Type} (o : option A) : bool :=
  match o with Some _ => true | None => false end.

Section Pivot.

Variable X : externals.

(** The aggregated value of a group of floats; [None] when the group has
    no row or when its sum is NaN (such a group is dropped before the
    unstack). *)
Definition group_agg (keys1 keys2 : list string) (vals : list float) (k1 k2 : string)
  : option float :=
  match group_vals keys1 keys2 vals k1 k2 with
  | [] => None
  | vs => let s := group_float_sum X vs in if is_nan s then None else Some s
  end.

(** The aggregated value of a group of integers; [None] when the group
    has no row. *)
Definition group_agg_int (k : int_kind) (keys1 keys2 : list string) (vals : list Z)
    (k1 k2 : string) : option Z :=
  match group_vals keys1 keys2 vals k1 k2 with
  | [] => None
  | vs => Some (int_sum k vs)
  end.

(** The labels of the two axes of the table: the keys of the groups that
    have a value, sorted. *)
Definition pivot_axes {A : Type} (agg : string -> string -> option A)
    (keys1 keys2 : list string) : list string * list string :=
  let groups := remove_dups (zip keys1 keys2) in
  let live := List.filter (fun g : string * string => is_some (agg g.1 g.2)) groups in
  (sort_by String.leb (remove_dups (fst <$> live)),
   sort_by String.leb (remove_dups (snd <$> live))).

(** [df.pivot_table(index=, columns=, values=, aggfunc="sum", fill_value=)
    .sort_index()] for string keys and numeric values, the dtypes of a
    normalised frame; other dtypes are not modelled. A table of integers
    in which no cell is missing keeps the integer dtype; one that needs
    the float [fill_value] becomes float64, as in pandas 2 (earlier
    versions cast a filled table of whole numbers back to integers, which
    leaves the value of every cell as it is). *)
Definition pivot_table_sum (df : DataFrame) (idx cols values : string) (fill_value : float)
  : result pivot :=
  i <~ df_get df idx ;;
  c <~ df_get df cols ;;
  v <~ df_get df values ;;
  match i, c, v with
  | ColObj keys1, ColObj keys2, ColFloat vals =>
      let agg := group_agg keys1 keys2 vals in
      let '(rows, labels) := pivot_axes agg keys1 keys2 in
      Ok (mk_pivot rows
            ((fun t => (t, ColFloat ((fun m => default fill_value (agg m t)) <$> rows)))
               <$> labels))
  | ColObj keys1, ColObj keys2, ColInt k vals =>
      let agg := group_agg_int k keys1 keys2 vals in
      let '(rows, labels) := pivot_axes agg keys1 keys2 in
      if forallb (fun t => forallb (fun m => is_some (agg m t)) rows) labels then
        Ok (mk_pivot rows
              ((fun t => (t, ColInt k ((fun m => default 0%Z (agg m t)) <$> rows)))
                 <$> labels))
      else
        Ok (mk_pivot rows
              ((fun t => (t, ColFloat ((fun m => match agg m t with
                                                 | Some z => float_of_int64 z
                                                 | None => fill_value
                                                 end) <$> rows)))
                 <$> labels))
  | _, _, _ => Raise "dtype not modelled"
  end.

Definition pv_has (p : pivot) (col : string) : bool :=
  is_some (assoc_get col (pv_columns p)).

Definition pv_get (p : pivot) (col : string) : result column :=
  match assoc_get col (pv_columns p) with
  | Some c => Ok c
  | None => Raise ("'" +:+ col +:+ "'")
  end.

(** [table[col] = v] for a float: broadcast over the rows. *)
Definition pv_set_scalar (p : pivot) (col : string) (v : float) : pivot :=
  mk_pivot (pv_index p)
           (assoc_set col (ColFloat (replicate (length (pv_index p)) v)) (pv_columns p)).

(** Income vs Expense by month: the table behind the bar chart. *)
Definition monthly_income_expense (tx_df : DataFrame) (value_col : string) : result pivot :=
  monthly <~ pivot_table_sum tx_df "month" "type" value_col 0 ;;
  let monthly :=
    foldl (fun p col => if pv_has p col then p else pv_set_scalar p col 0)
          monthly ["Income"; "Expense"] in
  income <~ pv_get monthly "Income" ;;
  expense <~ pv_get monthly "Expense" ;;
  Ok (mk_pivot (pv_index monthly) [("Income", income); ("Expense", expense)]).

(** The order of [sort_values(ascending=False)] on floats: larger values
    first, NaN last. Which of two equal values comes first is left open
    by pandas; here the sort is an insertion sort. *)
Definition value_before (x y : float) : bool :=
  is_nan y || (negb (is_nan x) && (y <=? x)%float).

(** [groupby(key)[value].sum()]: one entry per key, in the order of the
    keys. *)
Definition groupby_sum {A B : Type} (total : list A -> B) (keys : list string)
    (vals : list A) : list (string * B) :=
  (fun k => (k, total (mask_list ((fun s => String.eqb s k) <$> keys) vals)))
    <$> sort_by String.leb (remove_dups keys).

(** A series of sums: its labels with its values, in their dtype. *)
Inductive sums : Type :=
| FloatSums (entries : list (string * float))
| IntSums (kind : int_kind) (entries : list (string * Z)).

(** Expense by category for the selected month. *)
Definition expense_by_category (tx_df : DataFrame) (sel_month value_col : string)
  : result sums :=
  mo <~ df_get tx_df "month" ;;
  ty <~ df_get tx_df "type" ;;
  let mask := zip_with andb (col_eq_str mo sel_month) (col_eq_str ty "Expense") in
  let m_exp := df_filter tx_df mask in
  cat <~ df_get m_exp "category" ;;
  v <~ df_get m_exp value_col ;;
  match cat, v with
  | ColObj cats, ColFloat vals =>
      let by_cat := groupby_sum (group_float_sum X) cats vals in
      Ok (FloatSums (sort_by (fun a b => value_before a.2 b.2) by_cat))
  | ColObj cats, ColInt k vals =>
      let by_cat := groupby_sum (int_sum k) cats vals in
      Ok (IntSums k (sort_by (fun a b => (b.2 <=? a.2)%Z) by_cat))
  | _, _ => Raise "dtype not modelled"
  end.

End Pivot.

(** *** The category breakdown, row by row *)

Record itx (A : Type) : Type := mk_itx {
  i_month : string; i_type : string; i_category : string; i_value : A
}.
Arguments mk_itx {A} _ _ _ _.
Arguments i_month {A} _.
Arguments i_type {A} _.
Arguments i_category {A} _.
Arguments i_value {A} _.

Fixpoint itx_rows {A : Type} (mo ty cats : list string) (vals : list A) : list (itx A) :=
  match mo, ty, cats, vals with
  | m :: mo', t :: ty', c :: cats', v :: vals' =>
      mk_itx m t c v :: itx_rows mo' ty' cats' vals'
  | _, _, _, _ => []
  end.

(** The expenses of a month. *)
Definition month_expenses {A : Type} (sel_month : string) (rows : list (itx A))
  : list (itx A) :=
  List.filter (fun r => String.eqb (i_month r) sel_month && String.eqb (i_type r) "Expense")
              rows.

(** The values of one category, top down. *)
Definition category_values {A : Type} (c : string) (rows : list (itx A)) : list A :=
  i_value <$> List.filter (fun r => String.eqb (i_category r) c) rows.

(** ** Predicates and names of the statements *)

(** The rows of the Rates sheet that carry a given date in column A. *)
Definition rows_for (rows : worksheet) (d_str : string) : worksheet :=
  List.filter (fun r => cell_matches (row_cell r 1) d_str) rows.

Definition frankfurter_url (d : date) : string :=
  "https://api.frankfurter.app/" +:+ isoformat d +:+ "?from=EUR&to=BDT".

(** The header row as [ensure_headers] reads it: from the header cache
    when it has an entry for the sheet, else from the sheet itself. *)
Definition header_seen (w : world) (title : string) : option row :=
  match header_cache w !! title with
  | Some hit => Some hit
  | None => ws_row_values1 <$> book w !! title
  end.

(** The header cache agrees with the sheets. *)
Definition header_cache_consistent (w : world) : Prop :=
  forall title h,
    header_cache w !! title = Some h ->
    ws_row_values1 <$> book w !! title = Some h.

Section Invariants.

Variable X : externals.

(** The rate cache agrees with the Rates sheet: every entry is what a
    lookup in the sheet gives now. *)
Definition rate_cache_consistent (w : world) : Prop :=
  forall k v,
    rate_cache w !! k = Some v ->
    exists rows, book w !! "Rates" = Some rows /\ rate_in_sheet X rows k = v.

(** Every rate in the cache is positive. *)
Definition rate_cache_positive (w : world) : Prop :=
  forall k r, rate_cache w !! k = Some (Some r) -> (0 <? r)%float = true.

End Invariants.

(** ** Sample data *)

Definition rates_header : row := [PyStr "date"; PyStr "eur_bdt_rate"].

Definition feb7 : date := mk_date 2026 2 7.
Definition feb8 : date := mk_date 2026 2 8.

(** A 200 response whose body is [{"rates": {"BDT": v}}]. *)
Definition rates_response (v : pyval) : get_outcome :=
  GetReturns (mk_response 200 "" (inr (PyDict [("rates", PyDict [("BDT", v)])]))).

Definition http_500 : get_outcome :=
  GetReturns (mk_response 500 "Internal Server Error" (inl "Expecting value")).

(** [float("nan")] is NaN; no other string is needed below. *)
Definition float_of_str_nan (s : string) : option float :=
  if String.eqb s "nan" then Some nan else None.

(** A stand-in for the sums of numpy and pandas: the numbers are added
    from the top, NaN left out. The sums of the sample amounts are exact,
    so that no other order of addition gives another value. *)
Definition sum_from_top (l : list float) : float :=
  foldl (fun acc x => (acc + (if is_nan x then 0 else x))%float) 0%float l.

(** The lookups in the Rates sheet go through. *)
Definition sample_externals (net : nat -> string -> get_outcome) : externals :=
  mk_externals float_of_str_nan (fun _ => "{...}") (fun _ => "") net
               (fun _ _ => false) sum_from_top sum_from_top.

(** The same, with a spreadsheet API that fails as long as no provider
    has been asked. *)
Definition flaky_externals (net : nat -> string -> get_outcome) : externals :=
  mk_externals float_of_str_nan (fun _ => "{...}") (fun _ => "") net
               (fun n _ => Nat.eqb n 0) sum_from_top sum_from_top.

(** A fresh process: empty caches, no request made yet. *)
Definition fresh_world (rates : worksheet) (clock : date) : world :=
  mk_world {["Rates" := rates]} ∅ ∅ ∅ clock [].

(** The primary provider is down; the live rate of the secondary moves
    between two requests. *)
Definition net_drift (n : nat) (url : string) : get_outcome :=
  if String.prefix "https://api.frankfurter.app/" url then http_500
  else if (n <? 2)%nat then rates_response (PyFloat 130) else rates_response (PyFloat 131).

(** The Rates sheet has a row for 2026-02-07 whose rate cell is empty. *)
Definition rates_gap : worksheet := [rates_header; [PyStr "2026-02-07"]].

Definition tx_header : row :=
  headers_row ["id"; "date"; "type"; "category"; "remarks";
               "amount_eur"; "rate_eur_bdt"; "amount_bdt"; "created_at"].

(** The integers that the sample sheets write. *)
Definition sample_int (s : string) : option Z :=
  if String.eqb s "100" then Some 100%Z
  else if String.eqb s "40" then Some 40%Z
  else if String.eqb s "120" then Some 120%Z
  else if String.eqb s "12000" then Some 12000%Z
  else if String.eqb s "4800" then Some 4800%Z else None.

(** A stand-in for the parsers of pandas: ISO dates of February 2026 and
    a few amounts; a column whose first date has a UTC offset is taken to
    mix offsets. *)
Definition sample_pandas : pandas :=
  mk_pandas
    (fun l => match l with
              | s :: _ => if String.eqb s "2026-02-07T09:00:00+01:00"
                          then Some "Mixed timezones detected" else None
              | [] => None
              end)
    (fun _ s => if String.eqb s "2026-02-07" then Some (mk_ts feb7 0)
                else if String.eqb s "2026-02-08" then Some (mk_ts feb8 0) else None)
    (fun l => if forallb (fun s => is_some (sample_int s)) l then Some I64 else None)
    (fun s => default 0%Z (sample_int s))
    (fun s => if String.eqb s "2.5" then Some 2.5%float
              else (fun z => float_of_int64 z) <$> sample_int s)
    (fun _ => None) (fun _ => None) (fun _ => 0%Z) (fun _ => "") (fun _ => "").

(** A Transactions sheet that holds its header row and nothing else is
    read as [pd.DataFrame()]. *)
Definition header_only_world : world :=
  mk_world {["Transactions" := [tx_header]]} ∅ ∅ ∅ feb7 [].

(** Two rows as read from the sheet: the second has a date and an amount
    that do not parse, and the sheet lacks the remarks column. *)
Definition raw_two_rows : DataFrame :=
  mk_df 2
    [("id", ColObj ["TX-1"; "TX-2"]);
     ("date", ColObj ["2026-02-07"; "soon"]);
     ("type", ColObj ["Income"; "Expense"]);
     ("category", ColObj ["Salary"; "Food"]);
     ("amount_eur", ColObj ["100"; "n/a"]);
     ("rate_eur_bdt", ColObj ["120"; "120"]);
     ("amount_bdt", ColObj ["12000"; "4800"]);
     ("created_at", ColObj ["2026-02-07T09:00:00"; "2026-02-07T09:05:00"])].

(** The month of the spec: an Income of 100 and an Expense of 40, as
    normalised from cells that write integers. *)
Definition month_100_40 : DataFrame :=
  mk_df 2
    [("id", ColObj ["TX-1"; "TX-2"]);
     ("date", ColTime [Some (mk_ts feb7 0); Some (mk_ts feb8 0)]);
     ("type", ColObj ["Income"; "Expense"]);
     ("category", ColObj ["Salary"; "Food"]);
     ("remarks", ColObj [""; ""]);
     ("amount_eur", ColInt I64 [100; 40]%Z);
     ("rate_eur_bdt", ColInt I64 [120; 120]%Z);
     ("amount_bdt", ColInt I64 [12000; 4800]%Z);
     ("created_at", ColObj ["2026-02-07T09:00:00"; "2026-02-08T09:00:00"]);
     ("month", ColObj ["2026-02"; "2026-02"])].

(** A month with two incomes and two expenses, a debt and a payment; the
    amounts in EUR are floats, those in BDT integers. *)
Definition month_mixed : DataFrame :=
  mk_df 6
    [("type", ColObj ["Income"; "Expense"; "Income"; "Expense"; "Debt"; "Debt Payment"]);
     ("amount_eur", ColFloat [100; 40; 50.5; 2.25; 500; 200]%float);
     ("amount_bdt", ColInt I64 [12000; 4800; 6060; 270; 60000; 24000]%Z)].

(** Transactions of two months, normalised and with their month; the
    amounts in EUR are floats, those in BDT integers. *)
Definition insights_sample : DataFrame :=
  mk_df 6
    [("date", ColTime [Some (mk_ts feb7 0); Some (mk_ts feb7 0); Some (mk_ts feb8 0);
                       Some (mk_ts feb8 0); Some (mk_ts (mk_date 2026 3 1) 0); None]);
     ("type", ColObj ["Income"; "Expense"; "Expense"; "Expense"; "Expense"; "Debt"]);
     ("category", ColObj ["Salary"; "Food"; "Rent"; "Food"; "Food"; "Loan Taken"]);
     ("amount_eur", ColFloat [100; 40; 55; 2.5; 9; 500]%float);
     ("amount_bdt", ColInt I64 [12000; 4800; 6600; 300; 1080; 60000]%Z);
     ("month", ColObj ["2026-02"; "2026-02"; "2026-02"; "2026-02"; "2026-03"; ""])].

(** ** Seeding the categories (utils.py) *)

Definition category_defaults : list (string * string) :=
  [("Salary", "Income"); ("Freelance", "Income"); ("Rent", "Expense");
   ("Food", "Expense"); ("Transport", "Expense"); ("Bills", "Expense");
   ("Shopping", "Expense"); ("General", "Other"); ("Loan Taken", "Debt");
   ("Loan Repayment", "Debt Payment")].

(** [for x in items: body(x)] *)
Fixpoint for_each {A : Type} (items : list A) (body : A -> M unit) : M unit :=
  match items with
  | [] => ret tt
  | x :: rest => body x ;;; for_each rest body
  end.

Section CategoryDefaults.

Variable X : externals.

Definition get_or_create_category_sheet_defaults : M unit :=
  book_worksheet "Categories" ;;;
  df <- read_df X "Categories" ;;
  if df_empty df then
    for_each category_defaults
      (fun nt => append_row "Categories" [PyStr nt.1; PyStr nt.2]) ;;;
    invalidate_all_data_caches
  else ret tt.

End CategoryDefaults.

(** ** Names of the statements about the caches *)

Definition erapi_url : string := "https://open.er-api.com/v6/latest/EUR".

Section FrameOfSheet.

Variable X : externals.

(** A row as [get_all_values] returns it: the text of its cells, padded
    with empty strings to the width of the sheet. *)
Definition pad_row (width : nat) (r : list pyval) : list string :=
  (value_text X <$> r) ++ replicate (width - length r) "".

(** The frame that an uncached [read_df] makes of a sheet. *)
Definition sheet_frame (sheet : worksheet) : DataFrame :=
  match get_all_values X sheet with
  | headers :: ((_ :: _) as rows) => frame_of_rows rows headers
  | _ => empty_frame
  end.

(** The frame cache agrees with the sheets. *)
Definition df_cache_consistent (w : world) : Prop :=
  forall title df,
    df_cache w !! title = Some df ->
    exists sheet, book w !! title = Some sheet /\ df = sheet_frame sheet.

(** Every cache agrees with the sheets. *)
Definition caches_consistent (w : world) : Prop :=
  rate_cache_consistent X w /\ header_cache_consistent w /\ df_cache_consistent w.

(** Every rate in the cache is the one that the Rates sheet holds for its
    date. A cached [None] says nothing: the lookup caches it also when
    the spreadsheet API has failed. *)
Definition rate_cache_sound (w : world) : Prop :=
  forall k r,
    rate_cache w !! k = Some (Some r) ->
    exists rows, book w !! "Rates" = Some rows /\ rate_in_sheet X rows k = Some r.

(** The caches hold nothing that the sheets do not hold. *)
Definition caches_sound (w : world) : Prop :=
  rate_cache_sound w /\ header_cache_consistent w /\ df_cache_consistent w.

End FrameOfSheet.

(** The labels of a frame, in column order. *)
Definition df_labels (df : DataFrame) : list string := fst <$> columns df.

(** ** Option lists of the pages *)

(** [series.unique().tolist()]: the distinct values, in the order of
    their first appearance. *)
Fixpoint unique (l : list string) : list string :=
  match l with
  | [] => []
  | x :: rest => x :: List.filter (fun y => negb (String.eqb y x)) (unique rest)
  end.

Section PageOptions.

Variable P : pandas.

(** [series.dropna().astype(str).tolist()] *)
Definition dropna_astype_str (c : column) : list string :=
  match c with
  | ColObj l => l
  | ColInt _ l => pretty <$> l
  | ColFloat l => str_of_float P <$> List.filter (fun x => negb (is_nan x)) l
  | ColTime l => str_of_time P <$> List.filter is_some l
  end.

(** Entry page: the options of the category selectbox. *)
Definition category_options (cat_df : DataFrame) : result (list string) :=
  if negb (df_empty cat_df) && df_has cat_df "category_name" then
    c <~ df_get cat_df "category_name" ;;
    Ok (sort_by String.leb (unique (dropna_astype_str c)))
  else Ok ["General"].

Definition default_category (categories : list string) : string :=
  match categories with
  | c :: _ => c
  | [] => "General"
  end.

End PageOptions.

(** Both report pages: the months that can be selected, latest first.
    The month column is the one [add_month] made, a column of strings. *)
Definition months_raw (tx_df : DataFrame) : result (list string) :=
  mo <~ df_get tx_df "month" ;;
  match mo with
  | ColObj l =>
      Ok (sort_by (fun a b => String.leb b a)
            (List.filter (fun m => negb (String.eqb m "")) (unique l)))
  | _ => Raise "dtype not modelled"
  end.

(** ** Insights page: category creation *)

Inductive category_outcome : Type :=
| CategoryEmpty    (* "Category name cannot be empty." *)
| CategoryExists   (* "Category already exists." *)
| CategoryAdded.   (* "Category added" *)

Definition lift {A : Type} (r : result A) : M A :=
  match r with
  | Ok a => ret a
  | Raise e => raise e
  end.

Section CategoryCreation.

Variable P : pandas.

(** [str.strip()] *)
Variable strip : string -> string.

(** The names in the Categories frame, stripped. *)
Definition existing_categories (cat_df : DataFrame) : result (gset string) :=
  if negb (df_empty cat_df) && df_has cat_df "category_name" then
    c <~ df_get cat_df "category_name" ;;
    Ok (list_to_set (strip <$> dropna_astype_str P c))
  else Ok ∅.

(** The form of the page, submitted with [new_cat] and [cat_type];
    [cat_df] is the Categories frame that the run has read. *)
Definition create_category (cat_df : DataFrame) (new_cat cat_type : string)
  : M category_outcome :=
  existing <- lift (existing_categories cat_df) ;;
  let name := strip new_cat in
  if String.eqb name "" then ret CategoryEmpty
  else if bool_decide (name ∈ existing) then ret CategoryExists
  else
    append_row "Categories" [PyStr name; PyStr cat_type] ;;;
    ret CategoryAdded.

End CategoryCreation.

(** ** Transaction ids (utils.py) *)

(** [datetime.now()], to the second. *)
Record datetime : Type := mk_datetime {
  dt_date : date; dt_hour : nat; dt_minute : nat; dt_second : nat
}.

(** [now.strftime("%Y%m%d-%H%M%S")] *)
Definition strftime_stamp (now : datetime) : string :=
  zfill 4 (pretty (year (dt_date now))) +:+ zfill 2 (pretty (month (dt_date now)))
    +:+ zfill 2 (pretty (day (dt_date now))) +:+ "-"
    +:+ zfill 2 (pretty (dt_hour now)) +:+ zfill 2 (pretty (dt_minute now))
    +:+ zfill 2 (pretty (dt_second now)).

Definition hex_digit (n : N) : ascii :=
  default "0"%char (list_ascii_of_string "0123456789abcdef" !! N.to_nat n).

(** [bytes.hex()]: two lowercase hexadecimal digits per byte. *)
Fixpoint bytes_hex (bs : list Byte.byte) : string :=
  match bs with
  | [] => ""
  | b :: rest =>
      String (hex_digit (Byte.to_N b / 16)) (String (hex_digit (Byte.to_N b mod 16))
        (bytes_hex rest))
  end.

(** [str.upper()] on ASCII text. *)
Definition upper_char (c : ascii) : ascii :=
  let n := N_of_ascii c in
  if ((97 <=? n) && (n <=? 122))%N then ascii_of_N (n - 32) else c.

Fixpoint str_upper (s : string) : string :=
  match s with
  | EmptyString => EmptyString
  | String c rest => String (upper_char c) (str_upper rest)
  end.

(** [make_tx_id()] at the time [now], with the two random bytes that
    [secrets.token_hex(2)] draws. *)
Definition make_tx_id (now : datetime) (b1 b2 : Byte.byte) : string :=
  let stamp := strftime_stamp now in
  let rand := str_upper (bytes_hex [b1; b2]) in
  "TX-" +:+ stamp +:+ "-" +:+ rand.

(** The fields of a [datetime] are in their ranges. *)
Definition valid_datetime (now : datetime) : Prop :=
  (1 <= Z.of_nat (year (dt_date now)) <= 9999)%Z
  /\ (1 <= month (dt_date now) <= 12)%nat
  /\ (1 <= day (dt_date now) <= 31)%nat
  /\ (dt_hour now < 24)%nat /\ (dt_minute now < 60)%nat /\ (dt_second now < 60)%nat.

(** The number that a string of decimal digits writes. *)
Definition digits_value (s : string) : nat :=
  foldl (fun acc c => (10 * acc + (nat_of_ascii c - 48))%nat) 0%nat (list_ascii_of_string s).

(** The number that a string of uppercase hexadecimal digits writes. *)
Definition hex_value (s : string) : N :=
  foldl (fun acc c =>
           let n := N_of_ascii c in
           (16 * acc + (if (65 <=? n) then n - 55 else n - 48))%N)
        0%N (list_ascii_of_string s).

(** ** Entry page: start-up (pages/1_Entry.py) *)

Definition TX_HEADERS : list string :=
  ["id"; "date"; "type"; "category"; "remarks";
   "amount_eur"; "rate_eur_bdt"; "amount_bdt"; "created_at"].

Definition CAT_HEADERS : list string := ["category_name"; "type"].

Definition RATE_HEADERS : list string := ["date"; "eur_bdt_rate"].

Section EntryStartup.

Variable X : externals.

(** Open + ensure base sheets. *)
Definition entry_startup : M unit :=
  ensure_headers "Transactions" TX_HEADERS ;;;
  ensure_headers "Categories" CAT_HEADERS ;;;
  ensure_headers "Rates" RATE_HEADERS ;;;
  get_or_create_category_sheet_defaults X.

End EntryStartup.

(** ** Insights page: the month by type tables *)

Section MonthTypeTables.

Variable X : externals.

(** The pivot of the values by month and type, with 0.0 for an absent
    group, reduced to the two chart columns [a] and [b]: the table of
    [monthly_income_expense] for any pair of types. *)
Definition month_type_table (df : DataFrame) (value_col a b : string) : result pivot :=
  t <~ pivot_table_sum X df "month" "type" value_col 0 ;;
  let t := foldl (fun p col => if pv_has p col then p else pv_set_scalar p col 0) t [a; b] in
  ca <~ pv_get t a ;;
  cb <~ pv_get t b ;;
  Ok (mk_pivot (pv_index t) [(a, ca); (b, cb)]).

(** [series.isin(values)] *)
Definition col_isin (c : column) (values : list string) : list bool :=
  match c with
  | ColObj l => (fun s => bool_decide (s ∈ values)) <$> l
  | ColInt _ l => (fun _ => false) <$> l
  | ColFloat l => (fun _ => false) <$> l
  | ColTime l => (fun _ => false) <$> l
  end.

(** Monthly debt added vs paid: [None] stands for the note that there
    are no debt entries yet. *)
Definition monthly_debt (tx_df : DataFrame) (value_col : string) : result (option pivot) :=
  ty <~ df_get tx_df "type" ;;
  let md := df_filter tx_df (col_isin ty ["Debt"; "Debt Payment"]) in
  md <~ add_month md ;;
  mo <~ df_get md "month" ;;
  match mo with
  | ColObj months =>
      let md := df_filter md ((fun s => negb (String.eqb s "")) <$> months) in
      if df_empty md then Ok None
      else
        md_sum <~ month_type_table md value_col "Debt" "Debt Payment" ;;
        Ok (Some md_sum)
  | _ => Raise "dtype not modelled"
  end.

(** The value of a cell of a table of floats: the sum of the amounts of
    its group, 0.0 when there is none or when the sum is NaN. *)
Definition cell_value (amounts : list float) : float :=
  match amounts with
  | [] => 0%float
  | _ => if is_nan (group_float_sum X amounts) then 0%float else group_float_sum X amounts
  end.

End MonthTypeTables.

(** The amounts of the rows of month [m] and type [t], top down. *)
Definition amounts_of {A : Type} (mo ty : list string) (vals : list A) (m t : string)
  : list A :=
  snd <$> List.filter (fun r : string * string * A =>
                         String.eqb r.1.1 m && String.eqb r.1.2 t)
                      (zip (zip mo ty) vals).

(** The value of a cell of a table of integers, as a float: the sum of
    the amounts of its group, 0.0 when there is none. *)
Definition cell_value_int (k : int_kind) (amounts : list Z) : float :=
  match amounts with
  | [] => 0%float
  | _ => float_of_int64 (int_sum k amounts)
  end.

(** The cells of a numeric column as floats. *)
Definition col_floats (c : column) : list float :=
  match c with
  | ColFloat l => l
  | ColInt _ l => float_of_int64 <$> l
  | _ => []
  end.

(** The float value of the cell of month [m] and type [t] in the table
    of the value column [v]. *)
Definition table_cell (X : externals) (mo ty : list string) (v : column) (m t : string)
  : float :=
  match v with
  | ColFloat vals => cell_value X (amounts_of mo ty vals m t)
  | ColInt k vals => cell_value_int k (amounts_of mo ty vals m t)
  | _ => 0%float
  end.

(** The group of month [m] and type [t] has a value: it has rows and, for
    floats, their sum is a number. *)
Definition has_value (X : externals) (mo ty : list string) (v : column) (m t : string)
  : Prop :=
  match v with
  | ColFloat vals =>
      amounts_of mo ty vals m t <> []
      /\ is_nan (group_float_sum X (amounts_of mo ty vals m t)) = false
  | ColInt _ vals => amounts_of mo ty vals m t <> []
  | _ => False
  end.

(** The types of the debt table. *)
Definition is_debt (t : string) : bool := bool_decide (t ∈ ["Debt"; "Debt Payment"]).

(** ** Monthly report: the rows of the selected month *)

(** Order of two instants: by year, month and day, then by the time of
    day. *)
Definition ts_compare (a b : timestamp) : comparison :=
  match Nat.compare (year (ts_date a)) (year (ts_date b)) with
  | Eq =>
      match Nat.compare (month (ts_date a)) (month (ts_date b)) with
      | Eq =>
          match Nat.compare (day (ts_date a)) (day (ts_date b)) with
          | Eq => N.compare (ts_nanos a) (ts_nanos b)
          | c => c
          end
      | c => c
      end
  | c => c
  end.

(** The order of [sort_values("date", ascending=False)]: later instants
    first, NaT last. Which of two equal instants comes first is left
    open by pandas; here the sort is an insertion sort. *)
Definition date_desc (x y : option timestamp) : bool :=
  match x, y with
  | _, None => true
  | None, Some _ => false
  | Some a, Some b => match ts_compare a b with Lt => false | _ => true end
  end.

(** [series.iloc[order]] *)
Definition col_take (order : list nat) (c : column) : column :=
  match c with
  | ColObj l => ColObj (omap (fun i => l !! i) order)
  | ColInt k l => ColInt k (omap (fun i => l !! i) order)
  | ColFloat l => ColFloat (omap (fun i => l !! i) order)
  | ColTime l => ColTime (omap (fun i => l !! i) order)
  end.

(** [df.sort_values("date", ascending=False)] *)
Definition sort_values_date_desc (df : DataFrame) : result DataFrame :=
  d <~ df_get df "date" ;;
  match d with
  | ColTime l =>
      let order :=
        snd <$> sort_by (fun a b : option timestamp * nat => date_desc a.1 b.1)
                        (zip l (seq 0 (length l))) in
      Ok (mk_df (index df)
            ((fun kc : string * column => (kc.1, col_take order kc.2)) <$> columns df))
  | _ => Raise "dtype not modelled"
  end.

(** [tx_df[tx_df["month"] == sel_month].copy().sort_values("date",
    ascending=False)] *)
Definition month_rows (tx_df : DataFrame) (sel_month : string) : result DataFrame :=
  mo <~ df_get tx_df "month" ;;
  sort_values_date_desc (df_filter tx_df (col_eq_str mo sel_month)).

(** ** Both report pages: month labels *)

Section MonthLabels.

(** [pd.to_datetime(ym, format="%Y-%m").strftime("%B %Y")]; [None] when
    it raises. *)
Variable strftime_month_year : string -> option string.

(** YYYY-MM -> February 2026; the input itself when it is no month. *)
Definition month_label (ym : string) : string :=
  match strftime_month_year ym with
  | Some label => label
  | None => ym
  end.

(** [{month_label(m): m for m in months_raw}]: a later month with the
    same label takes the place of the earlier one. *)
Definition month_map (months : list string) : list (string * string) :=
  foldl (fun d m => assoc_set (month_label m) m d) [] months.

(** [list(month_map.keys())] *)
Definition month_labels (months : list string) : list string :=
  fst <$> month_map months.

(** [month_map[selected_label]]; KeyError for an unknown label. *)
Definition selected_month (months : list string) (selected_label : string)
  : result string :=
  match assoc_get selected_label (month_map months) with
  | Some m => Ok m
  | None => Raise ("'" +:+ selected_label +:+ "'")
  end.

End MonthLabels.

(** ** More sample data *)

(** A [strip] for text whose only whitespace is the space. *)
Definition strip_spaces (s : string) : string :=
  let not_space := fun c : ascii => negb (Ascii.eqb c " ") in
  let drop := fix drop (l : list ascii) : list ascii :=
    match l with
    | c :: rest => if not_space c then l else drop rest
    | [] => []
    end in
  string_of_list_ascii (rev (drop (rev (drop (list_ascii_of_string s))))).

(** The secondary provider answers with 119.5; the primary is down. *)
Definition net_fallback (n : nat) (url : string) : get_outcome :=
  if String.prefix "https://api.frankfurter.app/" url then http_500
  else rates_response (PyFloat 119.5).

(** A book with the three sheets: Transactions holds its header row,
    Categories one category, Rates one rate. *)
Definition sample_book : gmap string worksheet :=
  {[ "Transactions" := [tx_header];
     "Categories" := [headers_row CAT_HEADERS; [PyStr "Rent"; PyStr "Expense"]];
     "Rates" := [rates_header; [PyStr "2026-02-07"; PyFloat 120]] ]}.

Definition sample_world : world := mk_world sample_book ∅ ∅ ∅ feb8 [].

(** Debts of two months: 500 and 50.5 taken and 200 paid in February,
    100 taken in March. *)
Definition debt_sample : DataFrame :=
  mk_df 4
    [("date", ColTime [Some (mk_ts feb7 0); Some (mk_ts feb8 0);
                       Some (mk_ts (mk_date 2026 3 1) 0); Some (mk_ts feb8 0)]);
     ("type", ColObj ["Debt"; "Debt Payment"; "Debt"; "Debt"]);
     ("amount_eur", ColFloat [500; 200; 100; 50.5]%float)].

(** Labels for the months of 2026 that the samples use. *)
Definition sample_month_label (ym : string) : option string :=
  if String.eqb ym "2026-02" then Some "February 2026"
  else if String.eqb ym "2026-03" then Some "March 2026" else None.

(** The Categories frame of [sample_book]. *)
Definition sample_categories : DataFrame :=
  mk_df 1 [("category_name", ColObj ["Rent"]); ("type", ColObj ["Expense"])].

(** * Properties *)

(** ** Binary64 order *)

(** The comparisons of primitive floats are specified by [SFcompare] on
    their unpacked form; the facts below are the ones the code relies
    on when it tests [rate > 0], [rate <= 0] or sorts by value. *)

Lemma SFcompare_antisym (a b : spec_float) :
  SFcompare b a = option_map CompOpp (SFcompare a b).
Proof.
  destruct a as [sa|sa| |sa ma ea], b as [sb|sb| |sb mb eb];
    try destruct sa; try destruct sb; try reflexivity; simpl;
    rewrite (Z.compare_antisym ea eb);
    destruct (ea ?= eb)%Z; simpl; try reflexivity;
    change (Pos.compare_cont Eq mb ma) with (Pos.compare mb ma);
    change (Pos.compare_cont Eq ma mb) with (Pos.compare ma mb);
    rewrite (Pos.compare_antisym ma mb);
    destruct (ma ?= mb)%positive; reflexivity.
Qed.

Lemma is_nan_false_compare (x y : float) :
  is_nan x = false -> is_nan y = false ->
  exists c, SFcompare (Prim2SF x) (Prim2SF y) = Some c.
Proof.
  unfold is_nan. rewrite !negb_false_iff, !FloatAxioms.eqb_spec. unfold SFeqb.
  destruct (Prim2SF x), (Prim2SF y); simpl; try discriminate; eauto.
Qed.

(** [0 < r] excludes [r <= 0]. *)
Lemma ltb_not_leb (x y : float) :
  (x <? y)%float = true -> (y <=? x)%float = false.
Proof.
  rewrite ltb_spec, leb_spec. unfold SFltb, SFleb.
  rewrite (SFcompare_antisym (Prim2SF x) (Prim2SF y)).
  destruct (SFcompare (Prim2SF x) (Prim2SF y)) as [[]|]; simpl; congruence.
Qed.

(** Two numbers are always comparable; only NaN is not. *)
Lemma leb_total (x y : float) :
  is_nan x = false -> is_nan y = false ->
  (x <=? y)%float = true \/ (y <=? x)%float = true.
Proof.
  intros Hx Hy. destruct (is_nan_false_compare x y Hx Hy) as [c Hc].
  rewrite !leb_spec. unfold SFleb.
  rewrite (SFcompare_antisym (Prim2SF x) (Prim2SF y)), Hc.
  destruct c; simpl; auto.
Qed.

(** A number that is not [<=] another is greater. *)
Lemma not_leb_ltb (x y : float) :
  is_nan x = false -> is_nan y = false ->
  (x <=? y)%float = false -> (y <? x)%float = true.
Proof.
  intros Hx Hy. destruct (is_nan_false_compare x y Hx Hy) as [c Hc].
  rewrite ltb_spec, leb_spec. unfold SFltb, SFleb.
  rewrite (SFcompare_antisym (Prim2SF x) (Prim2SF y)), Hc.
  destruct c; simpl; congruence.
Qed.

Lemma is_finite_not_nan (x : float) : is_finite x = true -> is_nan x = false.
Proof.
  unfold is_finite. rewrite negb_true_iff, orb_false_iff. now intros [H _].
Qed.

(** Floats that [==] tells apart are different values. *)
Lemma eqb_false_neq (x y : float) :
  (x =? x)%float = true -> (x =? y)%float = false -> x <> y.
Proof. intros Hx Hxy <-. congruence. Qed.

(** ** Facts about the sheet primitives *)

Lemma cell_matches_refl (s : string) : cell_matches (PyStr s) s = true.
Proof. simpl. apply String.eqb_refl. Qed.

Lemma row_eqb_eq (existing : row) (headers : list string) :
  row_eqb existing headers = true <-> existing = headers_row headers.
Proof.
  revert headers. induction existing as [|v vs IH]; intros [|h hs]; simpl;
    try (split; [discriminate | intros E; inversion E]); [tauto |].
  rewrite andb_true_iff, IH. split.
  - intros [Hv ->]. destruct v; try discriminate.
    apply String.eqb_eq in Hv. now subst.
  - intros E. injection E as -> ->. split; [apply String.eqb_refl | reflexivity].
Qed.

Lemma find_from_app_Some n (rows extra : worksheet) q c i :
  find_from n rows q c = Some i ->
  find_from n (rows ++ extra) q c = Some i /\ (n <= i < n + length rows)%nat.
Proof.
  revert n. induction rows as [|r rows IH]; intros n; simpl; [discriminate |].
  destruct (cell_matches (row_cell r c) q).
  - intros [= <-]. split; [reflexivity | lia].
  - intros H. destruct (IH _ H) as [-> ?]. split; [reflexivity | lia].
Qed.

Lemma find_from_app_None n (rows extra : worksheet) q c :
  find_from n rows q c = None ->
  find_from n (rows ++ extra) q c = find_from (n + length rows) extra q c.
Proof.
  revert n. induction rows as [|r rows IH]; intros n; simpl.
  - intros _. f_equal. lia.
  - destruct (cell_matches (row_cell r c) q); [discriminate |].
    intros H. rewrite (IH _ H). f_equal. lia.
Qed.

Lemma ws_cell_app_l (rows extra : worksheet) i c :
  (1 <= i <= length rows)%nat -> ws_cell (rows ++ extra) i c = ws_cell rows i c.
Proof.
  intros Hi. unfold ws_cell. rewrite lookup_app_l by lia. reflexivity.
Qed.

Lemma ws_cell_app_last (rows : worksheet) (r : row) c :
  ws_cell (rows ++ [r]) (1 + length rows) c = row_cell r c.
Proof.
  unfold ws_cell. replace (1 + length rows - 1)%nat with (length rows + 0)%nat by lia.
  rewrite lookup_app_r by lia.
  replace (length rows + 0 - length rows)%nat with 0%nat by lia. reflexivity.
Qed.

Section RateStoreFacts.

Variable X : externals.

(** A row found for a date keeps deciding the lookup, whatever is appended
    below it: appending never overwrites. *)
Lemma rate_in_sheet_app (rows extra : worksheet) d_str i :
  ws_find rows d_str 1 = Some i ->
  rate_in_sheet X (rows ++ extra) d_str = rate_in_sheet X rows d_str.
Proof.
  intros Hf. unfold rate_in_sheet, ws_find in *.
  destruct (find_from_app_Some _ _ extra _ _ _ Hf) as [-> Hi].
  rewrite Hf, ws_cell_app_l by lia. reflexivity.
Qed.

(** The row that [get_rate_for_date] appends is the one found next time,
    provided the date had no row before and the rate is positive. *)
Lemma rate_in_sheet_appended (rows : worksheet) d_str (r : float) :
  ws_find rows d_str 1 = None ->
  (0 <? r)%float = true ->
  rate_in_sheet X (ws_append_row rows [PyStr d_str; PyFloat r]) d_str = Some r.
Proof.
  intros Hf Hr. unfold rate_in_sheet, ws_find, ws_append_row in *.
  rewrite (find_from_app_None _ _ _ _ _ Hf). cbn [find_from].
  change (row_cell [PyStr d_str; PyFloat r] 1) with (PyStr d_str).
  rewrite cell_matches_refl, ws_cell_app_last.
  change (row_cell [PyStr d_str; PyFloat r] 2) with (PyFloat r).
  unfold safe_float. simpl. now rewrite Hr.
Qed.

(** A first row whose rate is zero or negative counts as no row. *)
Lemma rate_in_sheet_rejects_nonpositive (rows : worksheet) d_str i :
  ws_find rows d_str 1 = Some i ->
  (safe_float X (ws_cell rows i 2) 0 <=? 0)%float = true ->
  rate_in_sheet X rows d_str = None.
Proof.
  intros Hf Hle. unfold rate_in_sheet. rewrite Hf.
  destruct (0 <? _)%float eqn:E; [|reflexivity].
  apply ltb_not_leb in E. congruence.
Qed.

Lemma rate_in_sheet_positive (rows : worksheet) d_str (r : float) :
  rate_in_sheet X rows d_str = Some r -> (0 <? r)%float = true.
Proof.
  unfold rate_in_sheet. destruct (ws_find rows d_str 1); [|discriminate].
  destruct (0 <? _)%float eqn:E; [|discriminate]. now intros [= <-].
Qed.

Lemma cached_lookup_cases d_str w res w' :
  _get_rate_from_sheet_cached X d_str w = (res, w') ->
  (exists v, rate_cache w !! d_str = Some v /\ res = Ok v /\ w' = w) \/
  (rate_cache w !! d_str = None /\ book w !! "Rates" = None
     /\ res = Raise "Rates" /\ w' = w) \/
  (exists rows v, rate_cache w !! d_str = None /\ book w !! "Rates" = Some rows
     /\ v = (if lookup_raises X (length (requests_log w)) d_str then None
             else rate_in_sheet X rows d_str)
     /\ res = Ok v
     /\ w' = set_rate_cache (<[d_str := v]> (rate_cache w)) w).
Proof.
  unfold _get_rate_from_sheet_cached, rates_lookup, try_except, bind, get_world,
    book_worksheet, ret, raise, modify.
  destruct (rate_cache w !! d_str) as [v|] eqn:Hc.
  - intros [= <- <-]. left. eauto.
  - unfold bind, get_world. destruct (book w !! "Rates") as [rows|] eqn:Hb; simpl.
    + destruct (lookup_raises X (length (requests_log w)) d_str);
        intros [= <- <-]; right; right; exists rows; eexists; repeat split; eauto.
    + intros [= <- <-]. right; left. auto.
Qed.

End RateStoreFacts.

(** ** The provider chain *)

Ltac run_py :=
  repeat (progress unfold bind, ret, raise, get_world, modify, try_except,
            requests_get, resp_json, data_get, book_worksheet, append_row in * );
  cbv beta in *.

Ltac split_py := repeat (simplify_eq; run_py; try case_match); simplify_eq.

Section ProviderFacts.

Variable X : externals.

(** The primary provider makes exactly one request and touches nothing
    else. *)
Lemma frankfurter_world d w res w' :
  _fetch_eur_to_bdt_rate_frankfurter X d w = (res, w') ->
  w' = log_request (frankfurter_url d) w.
Proof.
  unfold _fetch_eur_to_bdt_rate_frankfurter, frankfurter_url. run_py.
  intros H. split_py; reflexivity.
Qed.

Lemma frankfurter_rate d w r w' :
  _fetch_eur_to_bdt_rate_frankfurter X d w = (Ok r, w') ->
  (r <=? 0)%float = false.
Proof.
  unfold _fetch_eur_to_bdt_rate_frankfurter. run_py.
  intros H. split_py; assumption.
Qed.

Lemma erapi_rate d w r w' :
  _fetch_eur_to_bdt_rate_erapi X d w = (Ok r, w') ->
  (r <=? 0)%float = false.
Proof.
  unfold _fetch_eur_to_bdt_rate_erapi. run_py.
  intros H. split_py; assumption.
Qed.

(** The secondary provider refuses any date but today before it makes a
    request. *)
Lemma erapi_not_today d w :
  d <> today w ->
  _fetch_eur_to_bdt_rate_erapi X d w = (Raise erapi_today_only, w).
Proof.
  intros Hd. unfold _fetch_eur_to_bdt_rate_erapi. run_py.
  now rewrite bool_decide_eq_false_2.
Qed.

(** A fetch only adds to the request log. *)
Lemma erapi_frame d w res w' :
  _fetch_eur_to_bdt_rate_erapi X d w = (res, w') ->
  book w' = book w /\ today w' = today w.
Proof.
  unfold _fetch_eur_to_bdt_rate_erapi. run_py.
  intros H. split_py; auto.
Qed.

Lemma fetch_frame d w res w' :
  _fetch_eur_to_bdt_rate X d w = (res, w') ->
  book w' = book w /\ today w' = today w.
Proof.
  unfold _fetch_eur_to_bdt_rate, try_except.
  destruct (_fetch_eur_to_bdt_rate_frankfurter X d w) as [[r|e1] w1] eqn:H1;
    apply frankfurter_world in H1; subst w1.
  - intros [= <- <-]. auto.
  - destruct (_fetch_eur_to_bdt_rate_erapi X d _) as [[r|e2] w2] eqn:H2;
      apply erapi_frame in H2; unfold raise; intros [= <- <-]; exact H2.
Qed.

Lemma fetch_rate d w r w' :
  _fetch_eur_to_bdt_rate X d w = (Ok r, w') ->
  (r <=? 0)%float = false.
Proof.
  unfold _fetch_eur_to_bdt_rate, try_except.
  destruct (_fetch_eur_to_bdt_rate_frankfurter X d w) as [[r1|e1] w1] eqn:H1.
  - intros [= <- <-]. eapply frankfurter_rate, H1.
  - destruct (_fetch_eur_to_bdt_rate_erapi X d w1) as [[r2|e2] w2] eqn:H2.
    + intros [= <- <-]. eapply erapi_rate, H2.
    + unfold raise. discriminate.
Qed.

(** C2. For a date that is not today, once the primary provider has failed
    with reason [e1], the secondary provider fails at once with the reason
    that it only supports today's rate, without making a request, and the
    fetch raises one error that lists both reasons. *)
Theorem fetch_not_today_combined_error d w e1 w1 :
  d <> today w ->
  _fetch_eur_to_bdt_rate_frankfurter X d w = (Raise e1, w1) ->
  _fetch_eur_to_bdt_rate_erapi X d w1 = (Raise erapi_today_only, w1)
  /\ w1 = log_request (frankfurter_url d) w
  /\ _fetch_eur_to_bdt_rate X d w =
       (Raise ("All FX providers failed." +:+ nl
               +:+ "Frankfurter failed: " +:+ e1 +:+ nl
               +:+ "ER-API failed: open.er-api.com fallback supports only today's rate"),
        w1).
Proof.
  intros Hd H1.
  assert (Hw : w1 = log_request (frankfurter_url d) w) by (eapply frankfurter_world, H1).
  assert (H2 : _fetch_eur_to_bdt_rate_erapi X d w1 = (Raise erapi_today_only, w1)).
  { apply erapi_not_today. now subst w1. }
  repeat split; [exact H2 | exact Hw |].
  unfold _fetch_eur_to_bdt_rate, try_except. rewrite H1, H2. reflexivity.
Qed.

End ProviderFacts.

(** ** Rate resolution, step by step *)

Section DateLockFacts.

Variable X : externals.

(** The control flow of [get_rate_for_date], with the monad unfolded. *)
Lemma get_rate_for_date_eq d w :
  get_rate_for_date X d w =
  match _get_rate_from_sheet_cached X (isoformat d) w with
  | (Ok (Some r), wc) => (Ok r, wc)
  | (Ok None, wc) =>
      match _fetch_eur_to_bdt_rate X d wc with
      | (Ok rate, wf) =>
          match book wf !! "Rates" with
          | Some rates_ws =>
              if is_finite rate then
                (Ok rate,
                 mk_world
                   (<["Rates" := ws_append_row rates_ws [PyStr (isoformat d); PyFloat rate]]>
                      (book wf))
                   ∅ ∅ ∅ (today wf) (requests_log wf))
              else (Raise "Out of range float values are not JSON compliant", wf)
          | None => (Raise "Rates", wf)
          end
      | (Raise e, wf) => (Raise e, wf)
      end
  | (Raise e, wc) => (Raise e, wc)
  end.
Proof.
  unfold get_rate_for_date, invalidate_all_data_caches, bind at 1.
  destruct (_get_rate_from_sheet_cached X (isoformat d) w) as [[[r|]|e] wc];
    try reflexivity.
  unfold bind at 1.
  destruct (_fetch_eur_to_bdt_rate X d wc) as [[rate|e] wf]; [|reflexivity].
  run_py. destruct (book wf !! "Rates"); [|reflexivity].
  cbn [forallb json_ok]. rewrite andb_true_r. destruct (is_finite rate); reflexivity.
Qed.

End DateLockFacts.

Section CacheInvariant.

Variable X : externals.

(** A process starts with empty caches, which agree with any book. *)
Lemma rate_cache_consistent_init bk clock log :
  rate_cache_consistent X (mk_world bk ∅ ∅ ∅ clock log).
Proof. intros k v Hk. cbn in Hk. now rewrite lookup_empty in Hk. Qed.

Lemma rate_cache_positive_init bk clock log :
  rate_cache_positive (mk_world bk ∅ ∅ ∅ clock log).
Proof. intros k v Hk. cbn in Hk. now rewrite lookup_empty in Hk. Qed.

(** A cache that agrees with the sheet holds positive rates only. *)
Lemma rate_cache_consistent_positive w :
  rate_cache_consistent X w -> rate_cache_positive w.
Proof.
  intros Hcons k r Hk. destruct (Hcons _ _ Hk) as (rows & _ & Hr).
  eapply rate_in_sheet_positive, Hr.
Qed.

(** A fetch leaves the caches alone. *)
Lemma fetch_caches d w res w' :
  _fetch_eur_to_bdt_rate X d w = (res, w') ->
  rate_cache w' = rate_cache w.
Proof.
  unfold _fetch_eur_to_bdt_rate, _fetch_eur_to_bdt_rate_frankfurter,
    _fetch_eur_to_bdt_rate_erapi. intros Hf. run_py. split_py; reflexivity.
Qed.

(** The cache keeps holding positive rates only. *)
Lemma get_rate_for_date_keeps_positive d w res w1 :
  rate_cache_positive w ->
  get_rate_for_date X d w = (res, w1) ->
  rate_cache_positive w1.
Proof.
  intros Hpos. rewrite get_rate_for_date_eq.
  destruct (_get_rate_from_sheet_cached X (isoformat d) w) as [[existing|e] wc] eqn:Hc.
  - assert (Hwc : rate_cache_positive wc).
    { apply cached_lookup_cases in Hc.
      destruct Hc as [(v & _ & _ & ->) | [(_ & _ & ? & _) | (rows & v & _ & Hb & Hv & _ & ->)]];
        [assumption | discriminate |].
      intros k r. cbn. rewrite lookup_insert. case_decide; [|apply Hpos].
      subst v. destruct (lookup_raises X _ _); [discriminate|].
      intros [= Hr]. eapply rate_in_sheet_positive, Hr. }
    destruct existing as [r|]; [now intros [= <- <-] |].
    destruct (_fetch_eur_to_bdt_rate X d wc) as [[rate|e] wf] eqn:Hf.
    + assert (Hwf : rate_cache_positive wf).
      { intros k r. rewrite (fetch_caches _ _ _ _ Hf). apply Hwc. }
      destruct (book wf !! "Rates"); [destruct (is_finite rate) |]; intros [= <- <-];
        try exact Hwf. apply rate_cache_positive_init.
    + intros [= <- <-]. intros k r. rewrite (fetch_caches _ _ _ _ Hf). apply Hwc.
  - intros [= <- <-]. apply cached_lookup_cases in Hc.
    destruct Hc as [(v & _ & ? & _) | [(_ & _ & _ & ->) | (rows & v & _ & _ & _ & ? & _)]];
      [discriminate | assumption | discriminate].
Qed.

(** C3. With a cache that holds positive rates only, as every cache
    filled by the lookup does, a rate that [get_rate_for_date] returns is
    strictly positive. A stored rate is returned only if [rate > 0]; a
    fetched rate has passed [rate <= 0] and has been written to the
    sheet, which a NaN cannot be. *)
Theorem get_rate_for_date_positive d w r w1 :
  rate_cache_positive w ->
  get_rate_for_date X d w = (Ok r, w1) ->
  (0 <? r)%float = true.
Proof.
  intros Hpos. rewrite get_rate_for_date_eq.
  destruct (_get_rate_from_sheet_cached X (isoformat d) w) as [[existing|e] wc] eqn:Hc;
    [|discriminate].
  destruct existing as [r0|].
  - intros [= -> <-]. apply cached_lookup_cases in Hc.
    destruct Hc as [(v & Hhit & Hv & _)
                   | [(_ & _ & ? & _) | (rows & v & _ & _ & Hl & Hv & _)]];
      [| discriminate |]; injection Hv as Hv.
    + subst v. eapply Hpos, Hhit.
    + subst v. revert Hv. destruct (lookup_raises X _ _); [discriminate|].
      intros Hv. eapply rate_in_sheet_positive. symmetry. exact Hv.
  - destruct (_fetch_eur_to_bdt_rate X d wc) as [[rate|e] wf] eqn:Hf; [|discriminate].
    destruct (book wf !! "Rates"); [|discriminate].
    destruct (is_finite rate) eqn:Hfin; [|discriminate]. intros [= <- <-].
    apply not_leb_ltb; [now apply is_finite_not_nan | reflexivity |].
    eapply fetch_rate, Hf.
Qed.

End CacheInvariant.

(** ** Rate resolution at work *)

Lemma pair_eta_fst {A B : Type} (p : A * B) (a : A) : fst p = a -> p = (a, snd p).
Proof. destruct p; simpl; congruence. Qed.

(** C1. The rate of a date is not locked when the first row for the date
    holds no positive rate: the lookup takes the row for a date without a
    rate, so the first call returns the 130.0 it fetched and the second
    131.0, and the sheet ends with three rows for the date. *)
Lemma get_rate_for_date_not_locked :
  let X := sample_externals net_drift in
  let w := fresh_world rates_gap feb7 in
  let w1 := snd (get_rate_for_date X feb7 w) in
  let w2 := snd (get_rate_for_date X feb7 w1) in
  get_rate_for_date X feb7 w = (Ok 130%float, w1)
  /\ get_rate_for_date X feb7 w1 = (Ok 131%float, w2)
  /\ 130%float <> 131%float
  /\ (fun rows => rows_for rows "2026-02-07") <$> book w2 !! "Rates"
     = Some [[PyStr "2026-02-07"];
             [PyStr "2026-02-07"; PyFloat 130];
             [PyStr "2026-02-07"; PyFloat 131]].
Proof.
  cbv zeta. split; [|split; [|split]].
  - apply pair_eta_fst. vm_compute. reflexivity.
  - apply pair_eta_fst. vm_compute. reflexivity.
  - apply eqb_false_neq; reflexivity.
  - vm_compute. reflexivity.
Qed.

(** A lookup that fails is taken for a date without a rate as well: the
    sheet holds 120.0 for 2026-02-07, the call returns the 119.5 it
    fetched and appends a second row for the date. *)
Example get_rate_for_date_after_failed_lookup :
  let X := flaky_externals net_fallback in
  let rates := [rates_header; [PyStr "2026-02-07"; PyFloat 120]] in
  let w := fresh_world rates feb7 in
  rate_in_sheet X rates "2026-02-07" = Some 120%float
  /\ fst (get_rate_for_date X feb7 w) = Ok 119.5%float
  /\ book (snd (get_rate_for_date X feb7 w)) !! "Rates"
     = Some (rates ++ [[PyStr "2026-02-07"; PyFloat 119.5]]).
Proof. cbv zeta. repeat split; vm_compute; reflexivity. Qed.

(** The scenario of the spec: HTTP 500 for 2026-02-07 on 2026-02-08. *)
Lemma fetch_not_today_combined_error_witness :
  let X := sample_externals (fun _ _ => http_500) in
  let w := fresh_world [rates_header] feb8 in
  _fetch_eur_to_bdt_rate X feb7 w =
    (Raise ("All FX providers failed." +:+ nl
            +:+ "Frankfurter failed: Frankfurter HTTP 500: Internal Server Error" +:+ nl
            +:+ "ER-API failed: open.er-api.com fallback supports only today's rate"),
     log_request (frankfurter_url feb7) w).
Proof.
  cbv zeta.
  destruct (fetch_not_today_combined_error (sample_externals (fun _ _ => http_500))
              feb7 (fresh_world [rates_header] feb8)
              "Frankfurter HTTP 500: Internal Server Error"
              (log_request (frankfurter_url feb7) (fresh_world [rates_header] feb8)))
    as (_ & _ & H).
  - vm_compute. discriminate.
  - reflexivity.
  - exact H.
Defined.

(** The stored rate 120.0 is returned, and it is positive. *)
Lemma get_rate_for_date_positive_witness :
  let X := sample_externals (fun _ _ => http_500) in
  let w := fresh_world [rates_header; [PyStr "2026-02-07"; PyFloat 120]] feb8 in
  fst (get_rate_for_date X feb7 w) = Ok 120%float /\ (0 <? 120)%float = true.
Proof.
  cbv zeta. split; [vm_compute; reflexivity |].
  apply (get_rate_for_date_positive (sample_externals (fun _ _ => http_500)) feb7
           (fresh_world [rates_header; [PyStr "2026-02-07"; PyFloat 120]] feb8) 120
           (snd (get_rate_for_date (sample_externals (fun _ _ => http_500)) feb7
                   (fresh_world [rates_header; [PyStr "2026-02-07"; PyFloat 120]] feb8)))).
  - apply rate_cache_positive_init.
  - apply pair_eta_fst. vm_compute. reflexivity.
Defined.

(** A rate of zero from the primary provider is refused there, and the
    fetch falls back to the secondary, whose rate it returns. *)
Example zero_rate_triggers_fallback :
  let net := fun (n : nat) (url : string) =>
    if String.prefix "https://api.frankfurter.app/" url then rates_response (PyInt 0)
    else rates_response (PyFloat 119.5) in
  let r := _fetch_eur_to_bdt_rate (sample_externals net) feb7 (fresh_world [rates_header] feb7) in
  fst r = Ok 119.5%float
  /\ requests_log (snd r) = [frankfurter_url feb7; "https://open.er-api.com/v6/latest/EUR"].
Proof. cbv zeta. split; vm_compute; reflexivity. Qed.

(** A provider body [{"rates": {"BDT": "nan"}}] gets past the provider
    guard, since [rate <= 0] is false for NaN: the fetch returns NaN. The
    row cannot be written, so [get_rate_for_date] raises and the sheet
    stays as it was. *)
Example nan_rate_is_fetched_but_not_returned :
  let X := sample_externals (fun _ _ => rates_response (PyStr "nan")) in
  let w := fresh_world [rates_header] feb7 in
  fst (_fetch_eur_to_bdt_rate X feb7 w) = Ok nan
  /\ fst (get_rate_for_date X feb7 w)
     = Raise "Out of range float values are not JSON compliant"
  /\ book (snd (get_rate_for_date X feb7 w)) !! "Rates" = Some [rates_header].
Proof. cbv zeta. repeat split; vm_compute; reflexivity. Qed.

(** ** Header check *)

Lemma header_seen_actual w title sheet :
  header_cache_consistent w ->
  book w !! title = Some sheet ->
  header_seen w title = Some (ws_row_values1 sheet).
Proof.
  intros Hcons Hb. unfold header_seen.
  destruct (header_cache w !! title) as [h|] eqn:E.
  - apply Hcons in E. rewrite Hb in E. cbn in E. congruence.
  - now rewrite Hb.
Qed.

Lemma json_ok_headers (headers : list string) :
  forallb json_ok (headers_row headers) = true.
Proof. induction headers as [|h hs IH]; [reflexivity | exact IH]. Qed.

Lemma read_header_row_seen w title sheet :
  book w !! title = Some sheet ->
  exists existing,
    header_seen w title = Some existing
    /\ _read_header_row title w =
         (Ok existing, set_header_cache (<[title := existing]> (header_cache w)) w).
Proof.
  intros Hb. unfold header_seen, _read_header_row. run_py.
  destruct (header_cache w !! title) as [h|] eqn:E.
  - exists h. split; [reflexivity |]. rewrite insert_id by exact E.
    destruct w; reflexivity.
  - rewrite Hb. exists (ws_row_values1 sheet). split; reflexivity.
Qed.

(** A matching header: nothing but the header cache changes. *)
Lemma ensure_headers_match title headers w sheet existing :
  book w !! title = Some sheet ->
  header_seen w title = Some existing ->
  existing = headers_row headers ->
  ensure_headers title headers w =
    (Ok tt, set_header_cache (<[title := existing]> (header_cache w)) w).
Proof.
  intros Hb Hseen Heq.
  destruct (read_header_row_seen w title sheet Hb) as (existing' & Hseen' & Hread).
  assert (existing' = existing) as -> by congruence.
  unfold ensure_headers, try_except, bind at 1. rewrite Hread.
  apply row_eqb_eq in Heq. now rewrite Heq.
Qed.

(** A mismatching header: the sheet is cleared, the headers are written
    and all caches are emptied. *)
Lemma ensure_headers_mismatch title headers w sheet existing :
  book w !! title = Some sheet ->
  header_seen w title = Some existing ->
  existing <> headers_row headers ->
  ensure_headers title headers w =
    (Ok tt, mk_world (<[title := [headers_row headers]]> (book w)) ∅ ∅ ∅
                     (today w) (requests_log w)).
Proof.
  intros Hb Hseen Hne.
  destruct (read_header_row_seen w title sheet Hb) as (existing' & Hseen' & Hread).
  assert (existing' = existing) as -> by congruence.
  unfold ensure_headers, try_except, bind at 1. rewrite Hread.
  destruct (row_eqb existing headers) eqn:E; [now apply row_eqb_eq in E |].
  cbn [negb]. unfold invalidate_all_data_caches. run_py.
  cbn [book set_header_cache set_book].
  rewrite Hb, lookup_insert_eq, json_ok_headers. cbn. now rewrite insert_insert_eq.
Qed.

(** C8. When the header row that [ensure_headers] reads for an existing
    sheet equals the expected headers, the book, the rate cache and the
    frame cache are left as they were (the header just read is all that
    is remembered). Only when it differs is the sheet cleared and given
    the expected headers as its single row, and every cache emptied. *)
Theorem ensure_headers_frame title headers w sheet :
  book w !! title = Some sheet ->
  exists existing w',
    header_seen w title = Some existing
    /\ ensure_headers title headers w = (Ok tt, w')
    /\ today w' = today w /\ requests_log w' = requests_log w
    /\ (existing = headers_row headers ->
          book w' = book w /\ rate_cache w' = rate_cache w /\ df_cache w' = df_cache w
          /\ header_cache w' = <[title := existing]> (header_cache w))
    /\ (existing <> headers_row headers ->
          book w' = <[title := [headers_row headers]]> (book w)
          /\ rate_cache w' = ∅ /\ header_cache w' = ∅ /\ df_cache w' = ∅).
Proof.
  intros Hb. destruct (read_header_row_seen w title sheet Hb) as (existing & Hseen & _).
  exists existing. destruct (row_eqb existing headers) eqn:E.
  - apply row_eqb_eq in E.
    rewrite (ensure_headers_match title headers w sheet existing Hb Hseen E).
    eexists. split; [exact Hseen |]. split; [reflexivity |].
    cbn. repeat split; auto; contradiction.
  - assert (Hne : existing <> headers_row headers).
    { intros Heq. apply row_eqb_eq in Heq. congruence. }
    rewrite (ensure_headers_mismatch title headers w sheet existing Hb Hseen Hne).
    eexists. split; [exact Hseen |]. split; [reflexivity |].
    cbn. repeat split; auto; contradiction.
Qed.

Lemma ensure_headers_frame_witness :
  let w := fresh_world [rates_header; [PyStr "2026-02-07"; PyFloat 130]] feb7 in
  exists existing w',
    header_seen w "Rates" = Some existing
    /\ ensure_headers "Rates" ["date"; "eur_bdt_rate"] w = (Ok tt, w')
    /\ today w' = today w /\ requests_log w' = requests_log w
    /\ (existing = headers_row ["date"; "eur_bdt_rate"] ->
          book w' = book w /\ rate_cache w' = rate_cache w /\ df_cache w' = df_cache w
          /\ header_cache w' = <["Rates" := existing]> (header_cache w))
    /\ (existing <> headers_row ["date"; "eur_bdt_rate"] ->
          book w' = <["Rates" := [headers_row ["date"; "eur_bdt_rate"]]]> (book w)
          /\ rate_cache w' = ∅ /\ header_cache w' = ∅ /\ df_cache w' = ∅).
Proof.
  cbv zeta. eapply ensure_headers_frame. reflexivity.
Defined.

(** With a header cache that agrees with the sheets, the header read is
    the first row of the sheet: a sheet whose first row is the expected
    header row keeps all its rows. *)
Lemma ensure_headers_keeps_rows title headers w sheet :
  header_cache_consistent w ->
  book w !! title = Some sheet ->
  ws_row_values1 sheet = headers_row headers ->
  book (snd (ensure_headers title headers w)) = book w.
Proof.
  intros Hcons Hb Hrow.
  rewrite (ensure_headers_match title headers w sheet (ws_row_values1 sheet) Hb);
    [reflexivity | now apply header_seen_actual | exact Hrow].
Qed.

(** A mismatching sheet loses its data rows: nothing but the headers is
    left. *)
Example ensure_headers_rewrites :
  let w := fresh_world [[PyStr "date"]; [PyStr "2026-02-07"; PyFloat 130]] feb7 in
  book (snd (ensure_headers "Rates" ["date"; "eur_bdt_rate"] w)) !! "Rates"
  = Some [rates_header].
Proof. vm_compute. reflexivity. Qed.

(** ** Entry page: the saved row *)

Section EntryFacts.

Variable X : externals.

(** C4. Every row that the save button appends holds, next to the amount
    [a] and the rate [r] that [get_rate_for_date] returned, the binary64
    product [a * r] as the multiplication gave it: no rounding step
    stands between the product and the sheet. The amount is positive,
    since the button is disabled otherwise. *)
Theorem save_entry_stores_product tx_id now f w new_row w' :
  save_entry X tx_id now f w = (Ok (Some new_row), w') ->
  exists r w1 sheet,
    get_rate_for_date X (entry_date f) w = (Ok r, w1)
    /\ row_cell new_row 6 = PyFloat (entry_amount_eur f)
    /\ row_cell new_row 7 = PyFloat r
    /\ row_cell new_row 8 = PyFloat (entry_amount_eur f * r)%float
    /\ (entry_amount_eur f <=? 0)%float = false
    /\ book w1 !! "Transactions" = Some sheet
    /\ book w' = <["Transactions" := sheet ++ [new_row]]> (book w1).
Proof.
  unfold save_entry, rate_and_conversion, invalidate_all_data_caches.
  unfold bind at 1, try_except, bind at 1.
  destruct (get_rate_for_date X (entry_date f) w) as [[r|e] w1] eqn:Hrate.
  - unfold ret at 1. cbn [fst snd orb].
    destruct (save_clicked f); cbn [andb]; [|discriminate].
    destruct (entry_amount_eur f <=? 0)%float eqn:Ha; cbn [negb]; [discriminate |].
    run_py. destruct (book w1 !! "Transactions") as [sheet|] eqn:Hb; [|discriminate].
    destruct (forallb json_ok _) eqn:Hj; [|discriminate].
    intros [= <- <-]. exists r, w1, sheet. repeat split; auto.
  - unfold ret at 1. cbn [fst snd orb]. rewrite andb_false_r. discriminate.
Qed.

End EntryFacts.

(** The scenario of the spec: 100.0 EUR on 2026-02-07 at the stored rate
    120.0 is saved with 12000.0 BDT. *)
Lemma save_entry_stores_product_witness :
  let X := sample_externals (fun _ _ => http_500) in
  let w := mk_world {[ "Rates" := [rates_header; [PyStr "2026-02-07"; PyFloat 120]];
                       "Transactions" := [tx_header] ]} ∅ ∅ ∅ feb8 [] in
  let f := mk_entry_form "Income" "Salary" feb7 "" 100 true in
  exists new_row,
    fst (save_entry X "TX-20260208-101500-9F3A" "2026-02-08T10:15:00" f w) = Ok (Some new_row)
    /\ row_cell new_row 6 = PyFloat 100
    /\ row_cell new_row 7 = PyFloat 120
    /\ row_cell new_row 8 = PyFloat 12000.
Proof.
  cbv zeta.
  set (X := sample_externals (fun _ _ => http_500)).
  set (w := mk_world _ _ _ _ _ _).
  set (f := mk_entry_form _ _ _ _ _ _).
  destruct (save_entry X "TX-20260208-101500-9F3A" "2026-02-08T10:15:00" f w)
    as [res w'] eqn:E.
  assert (Hres : res = Ok (Some [PyStr "TX-20260208-101500-9F3A"; PyStr "2026-02-07";
                                 PyStr "Income"; PyStr "Salary"; PyStr "";
                                 PyFloat 100; PyFloat 120; PyFloat 12000;
                                 PyStr "2026-02-08T10:15:00"])).
  { apply (f_equal fst) in E. cbn [fst] in E. rewrite <- E. vm_compute. reflexivity. }
  subst res.
  destruct (save_entry_stores_product X _ _ f w _ w' E)
    as (r & w1 & sheet & Hr & H6 & H7 & H8 & _).
  eexists. split; [reflexivity |]. split; [exact H6 |]. split; reflexivity.
Defined.

(** ** Transaction normaliser *)

Lemma assoc_get_set {A : Type} (k k' : string) (v : A) (l : list (string * A)) :
  assoc_get k' (assoc_set k v l) = if String.eqb k' k then Some v else assoc_get k' l.
Proof.
  induction l as [|[k0 v0] l IH]; simpl; [reflexivity |].
  destruct (String.eqb_spec k k0) as [->|Hk]; simpl.
  - destruct (String.eqb_spec k' k0); reflexivity.
  - rewrite IH. destruct (String.eqb_spec k' k0) as [->|]; [|reflexivity].
    destruct (String.eqb_spec k0 k); congruence.
Qed.

Lemma col_of_set df k c k' :
  col_of (df_set df k c) k' = if String.eqb k' k then Some c else col_of df k'.
Proof. apply assoc_get_set. Qed.

Section NormalizeFacts.

Variable P : pandas.

Lemma add_missing_index cols df : index (add_missing cols df) = index df.
Proof.
  revert df. induction cols as [|c cs IH]; intros df; [reflexivity |].
  unfold add_missing in *. simpl. rewrite IH. now destruct (df_has df c).
Qed.

Lemma add_missing_col cols df k :
  col_of (add_missing cols df) k =
  match col_of df k with
  | Some c => Some c
  | None => if bool_decide (k ∈ cols) then Some (blank (index df)) else None
  end.
Proof.
  revert df. induction cols as [|c cs IH]; intros df.
  - simpl. now destruct (col_of df k).
  - change (add_missing (c :: cs) df)
      with (add_missing cs (if df_has df c then df else df_set_scalar df c "")).
    rewrite IH. unfold df_has. fold (col_of df c).
    destruct (col_of df c) as [cc|] eqn:Ec.
    + destruct (col_of df k) eqn:Ek; [reflexivity |].
      assert (k <> c) by congruence.
      rewrite (bool_decide_ext (k ∈ c :: cs) (k ∈ cs)); [reflexivity |].
      rewrite elem_of_cons. tauto.
    + unfold df_set_scalar. rewrite col_of_set. cbn [index df_set].
      destruct (String.eqb_spec k c) as [->|Hk].
      * rewrite Ec. rewrite bool_decide_eq_true_2 by apply list_elem_of_here. reflexivity.
      * destruct (col_of df k) eqn:Ek; [reflexivity |].
        rewrite (bool_decide_ext (k ∈ c :: cs) (k ∈ cs)); [reflexivity |].
        rewrite elem_of_cons. tauto.
Qed.

Lemma convert_cols_spec (f : column -> column) cols df :
  NoDup cols ->
  (forall c, c ∈ cols -> is_Some (col_of df c)) ->
  exists out,
    convert_cols f cols df = Ok out
    /\ index out = index df
    /\ forall k, col_of out k =
                 if bool_decide (k ∈ cols) then f <$> col_of df k else col_of df k.
Proof.
  revert df. induction cols as [|c cs IH]; intros df Hnd Hall.
  - exists df. repeat split; auto.
  - apply NoDup_cons in Hnd as [Hc Hnd].
    destruct (Hall c) as [cc Hcc]; [apply list_elem_of_here |].
    cbn [convert_cols]. unfold df_get. fold (col_of df c). rewrite Hcc. cbn [and_then].
    destruct (IH (df_set df c (f cc)) Hnd) as (out & Hout & Hidx & Hcols).
    { intros c' Hc'. rewrite col_of_set. destruct (String.eqb c' c); [eauto |].
      apply Hall. now apply list_elem_of_further. }
    exists out. split; [exact Hout |]. split; [exact Hidx |].
    intros k. rewrite Hcols, col_of_set.
    destruct (String.eqb_spec k c) as [->|Hk].
    + rewrite bool_decide_eq_false_2 by exact Hc.
      rewrite bool_decide_eq_true_2 by apply list_elem_of_here. now rewrite Hcc.
    + rewrite (bool_decide_ext (k ∈ c :: cs) (k ∈ cs)); [reflexivity |].
      rewrite elem_of_cons. tauto.
Qed.

Lemma NoDup_amount_cols : NoDup amount_cols.
Proof. compute_done. Qed.

Lemma NoDup_text_cols : NoDup text_cols.
Proof. compute_done. Qed.

(** The normaliser as a function on labelled columns: on a frame that is
    not empty it raises what the conversion of the dates raises, and
    otherwise returns, every label holding the converted input. *)
Lemma normalize_columns df :
  df_empty df = false ->
  match datetime_error P (input_col df "date") with
  | Some e => normalize_transactions_df P df = Raise e
  | None =>
      exists out,
        normalize_transactions_df P df = Ok out
        /\ index out = index df
        /\ forall k, col_of out k = normalized_col P df k
  end.
Proof.
  intros Hne.
  set (df0 := add_missing required_cols df).
  assert (H0 : forall k, k ∈ required_cols -> col_of df0 k = Some (input_col df k)).
  { intros k Hk. unfold df0, input_col. rewrite add_missing_col.
    destruct (col_of df k); [reflexivity |]. now rewrite bool_decide_eq_true_2. }
  assert (H0' : forall k, k ∉ required_cols -> col_of df0 k = col_of df k).
  { intros k Hk. unfold df0. rewrite add_missing_col.
    destruct (col_of df k); [reflexivity |]. now rewrite bool_decide_eq_false_2. }
  assert (Hrun : normalize_transactions_df P df =
    match datetime_error P (input_col df "date") with
    | Some e => Raise e
    | None =>
        tx_df <~ convert_cols (fun c => fillna0 (to_numeric P c)) amount_cols
                   (df_set df0 "date" (datetime_values P (input_col df "date"))) ;;
        convert_cols (astype_str P) text_cols tx_df
    end).
  { unfold normalize_transactions_df. rewrite Hne. fold df0.
    unfold df_get at 1. fold (col_of df0 "date"). rewrite (H0 "date") by compute_done.
    cbn [and_then]. unfold to_datetime.
    destruct (datetime_error P (input_col df "date")); reflexivity. }
  rewrite Hrun. clear Hrun.
  destruct (datetime_error P (input_col df "date")) as [e|]; [reflexivity |].
  set (df1 := df_set df0 "date" (datetime_values P (input_col df "date"))).
  assert (Hi1 : index df1 = index df0) by reflexivity.
  assert (H1 : forall k, col_of df1 k =
                         if bool_decide (k ∈ ["date"]) then datetime_values P <$> col_of df0 k
                         else col_of df0 k).
  { intros k. unfold df1. rewrite col_of_set.
    destruct (String.eqb_spec k "date") as [->|Hk].
    - rewrite bool_decide_eq_true_2 by apply list_elem_of_here.
      now rewrite (H0 "date") by compute_done.
    - rewrite bool_decide_eq_false_2; [reflexivity |].
      now rewrite list_elem_of_singleton. }
  destruct (convert_cols_spec (fun c => fillna0 (to_numeric P c)) amount_cols df1)
    as (df2 & -> & Hi2 & H2).
  { apply NoDup_amount_cols. }
  { intros c Hc. rewrite H1.
    rewrite bool_decide_eq_false_2.
    - rewrite H0; [eauto |]. revert Hc. unfold amount_cols, required_cols.
      rewrite !elem_of_cons. tauto.
    - rewrite list_elem_of_singleton. intros ->. revert Hc. compute_done. }
  cbn [and_then].
  destruct (convert_cols_spec (astype_str P) text_cols df2) as (df3 & -> & Hi3 & H3).
  { apply NoDup_text_cols. }
  { intros c Hc. rewrite H2, H1.
    assert (Hreq : c ∈ required_cols).
    { revert Hc. unfold text_cols, required_cols. rewrite !elem_of_cons. tauto. }
    rewrite (H0 c Hreq). destruct (bool_decide (c ∈ amount_cols));
      destruct (bool_decide (c ∈ ["date"])); cbn; eauto. }
  exists df3. split; [reflexivity |]. split.
  { rewrite Hi3, Hi2, Hi1. apply add_missing_index. }
  intros k. rewrite H3, H2, H1. unfold normalized_col.
  rewrite (bool_decide_ext (k ∈ ["date"]) (k = "date")) by apply list_elem_of_singleton.
  destruct (decide (k ∈ required_cols)) as [Hreq|Hreq].
  - rewrite (H0 k Hreq).
    revert Hreq. unfold required_cols, text_cols, amount_cols. rewrite !elem_of_cons.
    intros Hreq.
    repeat (destruct Hreq as [->|Hreq]; [vm_compute bool_decide; reflexivity |]).
    now apply elem_of_nil in Hreq.
  - rewrite (H0' k Hreq).
    assert (Hd : k <> "date").
    { intros ->. apply Hreq. compute_done. }
    assert (Ha : k ∉ amount_cols).
    { intros Hin. apply Hreq. revert Hin. unfold amount_cols, required_cols.
      rewrite !elem_of_cons. tauto. }
    assert (Ht : k ∉ text_cols).
    { intros Hin. apply Hreq. revert Hin. unfold text_cols, required_cols.
      rewrite !elem_of_cons. tauto. }
    rewrite !bool_decide_eq_false_2 by assumption. reflexivity.
Qed.

(** What a result of the normaliser on a frame that is not empty tells:
    the conversion of the dates returned, and every label holds the
    converted input. *)
Lemma normalize_columns_ok df out :
  df_empty df = false ->
  normalize_transactions_df P df = Ok out ->
  datetime_error P (input_col df "date") = None
  /\ index out = index df
  /\ forall k, col_of out k = normalized_col P df k.
Proof.
  intros Hne Hout. pose proof (normalize_columns df Hne) as H.
  destruct (datetime_error P (input_col df "date")) as [e|]; [congruence |].
  destruct H as (out' & Hout' & Hidx & Hcols).
  assert (out' = out) as -> by congruence. auto.
Qed.

(** The conversion of the dates is all that can make the normaliser
    raise. *)
Lemma normalize_returns df :
  df_empty df = false ->
  datetime_error P (input_col df "date") = None ->
  exists out,
    normalize_transactions_df P df = Ok out
    /\ index out = index df
    /\ forall k, col_of out k = normalized_col P df k.
Proof.
  intros Hne He. pose proof (normalize_columns df Hne) as H. now rewrite He in H.
Qed.

End NormalizeFacts.

Section NormalizeClaims.

Variable P : pandas.

Lemma normalized_col_date df :
  normalized_col P df "date" = Some (datetime_values P (input_col df "date")).
Proof. reflexivity. Qed.

Lemma normalized_col_amount df k :
  k ∈ amount_cols ->
  normalized_col P df k = Some (fillna0 (to_numeric P (input_col df k))).
Proof.
  unfold amount_cols. rewrite !elem_of_cons.
  intros [->|[->|[->|H]]]; [reflexivity .. | now apply elem_of_nil in H].
Qed.

Lemma normalized_col_text df k :
  k ∈ text_cols ->
  normalized_col P df k = Some (astype_str P (input_col df k)).
Proof.
  unfold text_cols. rewrite !elem_of_cons.
  intros [->|[->|[->|[->|[->|H]]]]]; [reflexivity .. | now apply elem_of_nil in H].
Qed.

Lemma normalized_col_other df k :
  k ∉ required_cols -> normalized_col P df k = col_of df k.
Proof.
  intros Hk. unfold normalized_col.
  rewrite !bool_decide_eq_false_2; [reflexivity | | |]; intros H; apply Hk.
  - revert H. unfold text_cols, required_cols. rewrite !elem_of_cons. tauto.
  - revert H. unfold amount_cols, required_cols. rewrite !elem_of_cons. tauto.
  - subst k. compute_done.
Qed.

Lemma input_col_len df k : wf_frame df -> col_len (input_col df k) = index df.
Proof.
  intros [_ Hlen]. unfold input_col. destruct (col_of df k) as [c|] eqn:E; simpl.
  - exact (Hlen k c E).
  - apply length_replicate.
Qed.

Lemma fillna0_no_nan (l : list float) :
  Forall (fun x => is_nan x = false) ((fun x => if is_nan x then 0%float else x) <$> l).
Proof.
  induction l as [|x l IH]; [constructor |]. cbn [fmap list_fmap]. constructor; [|exact IH].
  destruct (is_nan x) eqn:E; [reflexivity | exact E].
Qed.

Lemma fillna0_parse (l : list string) :
  (fun x : float => if is_nan x then 0%float else x)
    <$> ((fun s => default nan (parse_numeric P s)) <$> l)
  = amount_of_cell P <$> l.
Proof.
  rewrite <- list_fmap_compose. apply list_fmap_ext. intros i s _. cbn.
  unfold amount_of_cell. now destruct (parse_numeric P s).
Qed.

(** C5, as the code has it. Take a frame that is not empty (with distinct
    labels and columns as long as the index) and on whose date column the
    conversion of the dates returns. The normaliser returns, with the
    same number of rows, and in its result: all nine required columns
    exist; the date column is a datetime column that holds for each row
    what the conversion makes of the input string, NaT where it cannot be
    parsed; each amount column is a column of numbers, either an integer
    column that holds the integers the input strings write, when pandas
    reads the whole column as integers, or a float column without NaN
    that holds the number each input string writes and 0.0 where it
    writes none; the five text columns are string columns that hold the
    input strings; a column that the input lacks is converted from a
    column of empty strings; other columns are untouched. *)
Theorem normalize_nonempty_frame df :
  df_empty df = false ->
  wf_frame df ->
  datetime_error P (input_col df "date") = None ->
  exists out,
    normalize_transactions_df P df = Ok out
    /\ index out = index df
    /\ (forall k, k ∈ required_cols -> is_Some (col_of out k))
    /\ (exists ts,
          col_of out "date" = Some (ColTime ts) /\ length ts = index df
          /\ forall l, input_col df "date" = ColObj l -> ts = parse_datetime P l <$> l)
    /\ (forall k, k ∈ amount_cols ->
          (exists kd zs,
              col_of out k = Some (ColInt kd zs) /\ length zs = index df
              /\ forall l, input_col df k = ColObj l ->
                   int_dtype P l = Some kd /\ zs = parse_int P <$> l)
          \/ (exists fs,
                col_of out k = Some (ColFloat fs) /\ length fs = index df
                /\ Forall (fun x => is_nan x = false) fs
                /\ forall l, input_col df k = ColObj l ->
                     int_dtype P l = None /\ fs = amount_of_cell P <$> l))
    /\ (forall k, k ∈ text_cols ->
          exists ss,
            col_of out k = Some (ColObj ss) /\ length ss = index df
            /\ forall l, input_col df k = ColObj l -> ss = l)
    /\ (forall k, col_of df k = None -> input_col df k = blank (index df))
    /\ (forall k, k ∉ required_cols -> col_of out k = col_of df k).
Proof.
  intros Hne Hwf Hdate.
  destruct (normalize_returns P df Hne Hdate) as (out & Hout & Hidx & Hcols).
  exists out. split; [exact Hout |]. split; [exact Hidx |].
  split; [|split; [|split; [|split; [|split]]]].
  - intros k Hk. rewrite Hcols. revert Hk. unfold required_cols. rewrite !elem_of_cons.
    intros Hk. repeat (destruct Hk as [->|Hk]; [cbn; eauto |]). now apply elem_of_nil in Hk.
  - rewrite Hcols, normalized_col_date.
    pose proof (input_col_len df "date" Hwf) as Hlen.
    destruct (input_col df "date") as [l|kd l|l|l]; cbn in *.
    + eexists. split; [reflexivity |]. split; [now rewrite length_fmap |].
      now intros l' [= <-].
    + eexists. split; [reflexivity |]. split; [now rewrite length_fmap | discriminate].
    + eexists. split; [reflexivity |]. split; [now rewrite length_fmap | discriminate].
    + eexists. split; [reflexivity |]. split; [assumption | discriminate].
  - intros k Hk. rewrite Hcols, normalized_col_amount by exact Hk.
    pose proof (input_col_len df k Hwf) as Hlen.
    destruct (input_col df k) as [l|kd l|l|l]; cbn [to_numeric fillna0 col_len] in *.
    + destruct (int_dtype P l) as [kd|] eqn:Ed; cbn [fillna0].
      * left. eexists _, _. split; [reflexivity |]. split; [now rewrite length_fmap |].
        intros l' [= <-]. auto.
      * right. rewrite fillna0_parse. eexists. split; [reflexivity |].
        split; [now rewrite length_fmap |]. split.
        { rewrite <- fillna0_parse. apply fillna0_no_nan. }
        intros l' [= <-]. auto.
    + left. eexists _, _. split; [reflexivity |]. split; [assumption | discriminate].
    + right. eexists. split; [reflexivity |]. split; [now rewrite length_fmap |].
      split; [apply fillna0_no_nan | discriminate].
    + left. eexists _, _. split; [reflexivity |]. split; [now rewrite length_fmap |].
      discriminate.
  - intros k Hk. rewrite Hcols, normalized_col_text by exact Hk.
    pose proof (input_col_len df k Hwf) as Hlen.
    destruct (input_col df k) as [l|kd l|l|l]; cbn in *.
    + eexists. split; [reflexivity |]. split; [assumption |]. now intros l' [= <-].
    + eexists. split; [reflexivity |]. split; [now rewrite length_fmap | discriminate].
    + eexists. split; [reflexivity |]. split; [now rewrite length_fmap | discriminate].
    + eexists. split; [reflexivity |]. split; [now rewrite length_fmap | discriminate].
  - intros k Hk. unfold input_col. now rewrite Hk.
  - intros k Hk. rewrite Hcols. now apply normalized_col_other.
Qed.

(** C10. An empty frame is returned as it is: no column is added and no
    conversion applied, so a required column that the input lacks is
    still missing from the output. *)
Theorem normalize_empty_unchanged df :
  df_empty df = true ->
  normalize_transactions_df P df = Ok df
  /\ forall out k,
       normalize_transactions_df P df = Ok out ->
       col_of df k = None -> col_of out k = None.
Proof.
  intros He. unfold normalize_transactions_df. rewrite He. split; [reflexivity |].
  now intros out k [= <-].
Qed.

End NormalizeClaims.

(** C5 fails as stated on the empty table: the sheet with only its header
    row is read as the empty frame, which the normaliser returns without
    any of the nine columns. *)
Lemma normalize_empty_lacks_columns :
  fst (read_df (sample_externals (fun _ _ => http_500)) "Transactions" header_only_world)
    = Ok empty_frame
  /\ normalize_transactions_df sample_pandas empty_frame = Ok empty_frame
  /\ Forall (fun k => col_of empty_frame k = None) required_cols.
Proof.
  split; [vm_compute; reflexivity |]. split; [reflexivity |].
  unfold required_cols. repeat constructor.
Qed.

Lemma normalize_empty_unchanged_witness :
  normalize_transactions_df sample_pandas empty_frame = Ok empty_frame
  /\ forall out k,
       normalize_transactions_df sample_pandas empty_frame = Ok out ->
       col_of empty_frame k = None -> col_of out k = None.
Proof. apply (normalize_empty_unchanged sample_pandas empty_frame). reflexivity. Defined.

Lemma wf_raw_two_rows : wf_frame raw_two_rows.
Proof.
  split; [compute_done |]. intros k c. unfold col_of, raw_two_rows. cbn [columns assoc_get].
  repeat (destruct (String.eqb k _); [intros [= <-]; reflexivity |]). discriminate.
Defined.

Example normalize_raw_two_rows :
  normalize_transactions_df sample_pandas raw_two_rows =
  Ok (mk_df 2
        [("id", ColObj ["TX-1"; "TX-2"]);
         ("date", ColTime [Some (mk_ts feb7 0); None]);
         ("type", ColObj ["Income"; "Expense"]);
         ("category", ColObj ["Salary"; "Food"]);
         ("amount_eur", ColFloat [100%float; 0%float]);
         ("rate_eur_bdt", ColInt I64 [120%Z; 120%Z]);
         ("amount_bdt", ColInt I64 [12000%Z; 4800%Z]);
         ("created_at", ColObj ["2026-02-07T09:00:00"; "2026-02-07T09:05:00"]);
         ("remarks", ColObj [""; ""])]).
Proof. vm_compute. reflexivity. Qed.

(** When the conversion of the dates raises, the normaliser raises. *)
Example normalize_raises_with_to_datetime :
  normalize_transactions_df sample_pandas
    (mk_df 2 [("date", ColObj ["2026-02-07T09:00:00+01:00"; "2026-02-08T09:00:00+02:00"])])
  = Raise "Mixed timezones detected".
Proof. vm_compute. reflexivity. Qed.

(** The two raw rows: the date and the amount that do not parse become
    NaT and 0.0, the amounts that write integers stay integers, and the
    missing remarks are empty strings. *)
Lemma normalize_nonempty_frame_witness :
  exists out,
    normalize_transactions_df sample_pandas raw_two_rows = Ok out
    /\ index out = 2%nat
    /\ col_of out "date" = Some (ColTime [Some (mk_ts feb7 0); None])
    /\ col_of out "amount_eur" = Some (ColFloat [100; 0]%float)
    /\ col_of out "amount_bdt" = Some (ColInt I64 [12000; 4800]%Z)
    /\ col_of out "remarks" = Some (ColObj [""; ""]).
Proof.
  destruct (normalize_nonempty_frame sample_pandas raw_two_rows eq_refl wf_raw_two_rows
              eq_refl)
    as (out & Hout & Hidx & _).
  exists out. split; [exact Hout |]. split; [exact Hidx |].
  vm_compute in Hout. injection Hout as <-. repeat split.
Defined.

(** ** Insertion sort *)

Section InsertionSortFacts.

Context {A : Type}.
Variable before : A -> A -> bool.
Hypothesis before_total : forall x y, before x y = true \/ before y x = true.

Lemma insert_by_perm x l : Permutation (x :: l) (insert_by before x l).
Proof.
  induction l as [|y l IH]; simpl; [reflexivity |].
  destruct (before x y); [reflexivity |].
  rewrite perm_swap. now apply perm_skip.
Qed.

Lemma sort_by_perm l : Permutation l (sort_by before l).
Proof.
  induction l as [|x l IH]; simpl; [reflexivity |].
  rewrite <- insert_by_perm. now apply perm_skip.
Qed.

Lemma insert_by_hd x y l :
  before y x = true -> HdRel (fun a b => before a b = true) y l ->
  HdRel (fun a b => before a b = true) y (insert_by before x l).
Proof.
  intros Hyx Hl. destruct l as [|z l]; simpl; [now constructor |].
  destruct (before x z); constructor; [assumption |].
  now inversion Hl.
Qed.

Lemma insert_by_sorted x l :
  Sorted (fun a b => before a b = true) l ->
  Sorted (fun a b => before a b = true) (insert_by before x l).
Proof using before_total.
  induction 1 as [|y l Hs IH Hhd]; simpl; [repeat constructor |].
  destruct (before x y) eqn:E.
  - constructor; [now constructor |]. now constructor.
  - constructor; [exact IH |]. apply insert_by_hd; [|exact Hhd].
    destruct (before_total x y); congruence.
Qed.

Lemma sort_by_sorted l : Sorted (fun a b => before a b = true) (sort_by before l).
Proof using before_total.
  induction l as [|x l IH]; simpl; [constructor | now apply insert_by_sorted].
Qed.

End InsertionSortFacts.

(** ** Monthly summary *)

(** Selecting by the mask of a type is selecting the rows of that type. *)
Lemma mask_amounts_of_type {A : Type} (t : string) (ty : list string) (vals : list A) :
  mask_list ((fun s => String.eqb s t) <$> ty) vals = amounts_of_type t (zip ty vals).
Proof.
  unfold amounts_of_type. revert vals.
  induction ty as [|s ty IH]; intros [|v vals]; try reflexivity.
  cbn. destruct (String.eqb s t); cbn; now rewrite IH.
Qed.

Lemma mask_list_none {A : Type} (ty : list string) (t : string) (l : list A) :
  t ∉ ty -> mask_list ((fun s => String.eqb s t) <$> ty) l = [].
Proof.
  revert l. induction ty as [|s ty IH]; intros l Ht; [reflexivity |].
  apply not_elem_of_cons in Ht as [Hs Ht]. destruct l as [|x l]; [reflexivity |].
  cbn. destruct (String.eqb_spec s t); [congruence | now apply IH].
Qed.

Section SummaryFacts.

Variable X : externals.

(** On a typed frame the masked sum of a numeric column is the total of
    the rows of the type. *)
Lemma sum_where_total df t col ty c :
  col_of df "type" = Some (ColObj ty) ->
  col_of df col = Some c ->
  is_numeric c = true ->
  sum_where X df t col = Ok (total_of X t ty c).
Proof.
  intros Hty Hcol Hnum. unfold sum_where, df_loc, df_get.
  fold (col_of df "type") (col_of df col). rewrite Hty. cbn [and_then]. rewrite Hcol.
  cbn [and_then col_eq_str].
  destruct c as [l|k l|l|l]; try discriminate; cbn; now rewrite mask_amounts_of_type.
Qed.

(** C6. For the frame [m] of a month, with its type column and its two
    amount columns, which are columns of numbers, the summary returns;
    income, expense, debt added and debt paid are the sums of the amounts
    of the transactions of type Income, Expense, Debt and Debt Payment,
    in EUR and in BDT, each sum taken in the dtype of its column and then
    made a float; net is income minus expense and debt-net is debt added
    minus debt paid. A month that holds exactly an Income of 100 and an
    Expense of 40 has net 60. *)
Theorem monthly_summary_sums m ty eur bdt :
  col_of m "type" = Some (ColObj ty) ->
  col_of m "amount_eur" = Some eur ->
  col_of m "amount_bdt" = Some bdt ->
  is_numeric eur = true -> is_numeric bdt = true ->
  exists s,
    monthly_summary X m = Ok s
    /\ income_eur s = total_of X "Income" ty eur
    /\ expense_eur s = total_of X "Expense" ty eur
    /\ debt_add_eur s = total_of X "Debt" ty eur
    /\ debt_pay_eur s = total_of X "Debt Payment" ty eur
    /\ income_bdt s = total_of X "Income" ty bdt
    /\ expense_bdt s = total_of X "Expense" ty bdt
    /\ debt_add_bdt s = total_of X "Debt" ty bdt
    /\ debt_pay_bdt s = total_of X "Debt Payment" ty bdt
    /\ net_eur s = (income_eur s - expense_eur s)%float
    /\ net_bdt s = (income_bdt s - expense_bdt s)%float
    /\ debt_net_eur s = (debt_add_eur s - debt_pay_eur s)%float
    /\ debt_net_bdt s = (debt_add_bdt s - debt_pay_bdt s)%float
    /\ (ty = ["Income"; "Expense"] -> eur = ColInt I64 [100; 40]%Z ->
          net_eur s = 60%float)
    /\ (ty = ["Income"; "Expense"] -> eur = ColFloat [100; 40]%float ->
          float_sum X [100%float] = 100%float -> float_sum X [40%float] = 40%float ->
          net_eur s = 60%float).
Proof.
  intros Hty Heur Hbdt Hne Hnb. unfold monthly_summary.
  rewrite !(sum_where_total m _ "amount_eur" ty eur Hty Heur Hne).
  rewrite !(sum_where_total m _ "amount_bdt" ty bdt Hty Hbdt Hnb).
  cbn [and_then]. eexists. split; [reflexivity |]. cbn [income_eur expense_eur debt_add_eur
    debt_pay_eur income_bdt expense_bdt debt_add_bdt debt_pay_bdt net_eur net_bdt
    debt_net_eur debt_net_bdt].
  repeat (split; [reflexivity |]). split.
  - intros -> ->. vm_compute. reflexivity.
  - intros -> -> H100 H40. cbn [total_of amounts_of_type zip zip_with List.filter].
    cbn. rewrite H100, H40. vm_compute. reflexivity.
Qed.

End SummaryFacts.

(** A month with two incomes and two expenses, and the month of the
    spec. *)
Lemma monthly_summary_sums_witness :
  let X := sample_externals (fun _ _ => http_500) in
  (exists s,
     monthly_summary X month_mixed = Ok s
     /\ income_eur s = 150.5%float /\ expense_eur s = 42.25%float
     /\ net_eur s = 108.25%float
     /\ income_bdt s = 18060%float /\ expense_bdt s = 5070%float
     /\ net_bdt s = 12990%float
     /\ debt_net_eur s = 300%float /\ debt_net_bdt s = 36000%float)
  /\ exists s, monthly_summary X month_100_40 = Ok s /\ net_eur s = 60%float.
Proof.
  cbv zeta. split.
  - destruct (monthly_summary_sums (sample_externals (fun _ _ => http_500)) month_mixed
                ["Income"; "Expense"; "Income"; "Expense"; "Debt"; "Debt Payment"]
                (ColFloat [100; 40; 50.5; 2.25; 500; 200]%float)
                (ColInt I64 [12000; 4800; 6060; 270; 60000; 24000]%Z)
                eq_refl eq_refl eq_refl eq_refl eq_refl)
      as (s & Hs & Hie & Hee & Hde & Hpe & Hib & Heb & Hdb & Hpb & Hne & Hnb & Hdne & Hdnb & _).
    exists s. split; [exact Hs |].
    rewrite Hne, Hnb, Hdne, Hdnb, Hie, Hee, Hde, Hpe, Hib, Heb, Hdb, Hpb.
    repeat split; vm_compute; reflexivity.
  - destruct (monthly_summary_sums (sample_externals (fun _ _ => http_500)) month_100_40
                ["Income"; "Expense"] (ColInt I64 [100; 40]%Z) (ColInt I64 [12000; 4800]%Z)
                eq_refl eq_refl eq_refl eq_refl eq_refl)
      as (s & Hs & _ & _ & _ & _ & _ & _ & _ & _ & _ & _ & _ & _ & Hint & _).
    exists s. split; [exact Hs |]. now apply Hint.
Defined.

(** ** Insights page *)

Example expense_by_category_sample :
  expense_by_category (sample_externals (fun _ _ => http_500))
    insights_sample "2026-02" "amount_eur"
  = Ok (FloatSums [("Rent", 55%float); ("Food", 42.5%float)]).
Proof. vm_compute. reflexivity. Qed.

(** The table of the float amounts needs the fill value; so does the one
    of the integer amounts, which thereby becomes a table of floats. *)
Example monthly_income_expense_sample :
  let X := sample_externals (fun _ _ => http_500) in
  monthly_income_expense X insights_sample "amount_eur"
  = Ok (mk_pivot [""; "2026-02"; "2026-03"]
                 [("Income", ColFloat [0; 100; 0]%float);
                  ("Expense", ColFloat [0; 97.5; 9]%float)])
  /\ monthly_income_expense X insights_sample "amount_bdt"
     = Ok (mk_pivot [""; "2026-02"; "2026-03"]
                    [("Income", ColFloat [0; 12000; 0]%float);
                     ("Expense", ColFloat [0; 11700; 1080]%float)]).
Proof. cbv zeta. split; vm_compute; reflexivity. Qed.

(** A table of integers in which no cell is missing stays one. *)
Example monthly_income_expense_integers :
  monthly_income_expense (sample_externals (fun _ _ => http_500)) month_100_40 "amount_eur"
  = Ok (mk_pivot ["2026-02"]
                 [("Income", ColInt I64 [100%Z]); ("Expense", ColInt I64 [40%Z])]).
Proof. vm_compute. reflexivity. Qed.

(** From the raw rows to the chart: the row without a valid date falls
    under the empty month, and its unparseable amount counts as 0.0. *)
Example monthly_income_expense_of_raw_rows :
  (df <~ normalize_transactions_df sample_pandas raw_two_rows ;;
   df <~ add_month df ;;
   monthly_income_expense (sample_externals (fun _ _ => http_500)) df "amount_eur")
  = Ok (mk_pivot [""; "2026-02"]
                 [("Income", ColFloat [0; 100]%float); ("Expense", ColFloat [0; 0]%float)]).
Proof. vm_compute. reflexivity. Qed.

(** *** Facts about masks, groups and the sort *)

Lemma assoc_get_fmap_snd {A B : Type} (f : A -> B) (k : string) (l : list (string * A)) :
  assoc_get k ((fun kc : string * A => (kc.1, f kc.2)) <$> l) = f <$> assoc_get k l.
Proof.
  induction l as [|[k0 v0] l IH]; [reflexivity |]. cbn.
  destruct (String.eqb k k0); [reflexivity | exact IH].
Qed.

Lemma assoc_get_tabulate {A : Type} (f : string -> A) (k : string) (labels : list string) :
  assoc_get k ((fun t => (t, f t)) <$> labels) =
  if bool_decide (k ∈ labels) then Some (f k) else None.
Proof.
  induction labels as [|t labels IH]; [reflexivity |]. cbn.
  destruct (String.eqb_spec k t) as [->|Hk].
  - now rewrite bool_decide_eq_true_2 by apply list_elem_of_here.
  - rewrite IH. apply (f_equal (fun b : bool => if b then Some (f k) else None)).
    apply bool_decide_ext. rewrite elem_of_cons. tauto.
Qed.

Lemma col_of_filter df mask k :
  col_of (df_filter df mask) k = col_mask mask <$> col_of df k.
Proof. apply assoc_get_fmap_snd. Qed.

Lemma sort_by_elem_of {A : Type} (before : A -> A -> bool) (l : list A) (x : A) :
  x ∈ sort_by before l <-> x ∈ l.
Proof. now rewrite <- (sort_by_perm before l). Qed.

Lemma sort_by_NoDup {A : Type} (before : A -> A -> bool) (l : list A) :
  NoDup l -> NoDup (sort_by before l).
Proof. intros H. now rewrite <- (sort_by_perm before l). Qed.

Lemma elem_of_List_filter {A : Type} (f : A -> bool) (l : list A) (x : A) :
  x ∈ List.filter f l <-> x ∈ l /\ f x = true.
Proof. rewrite !list_elem_of_In. apply List.filter_In. Qed.

Lemma NoDup_List_filter {A : Type} (f : A -> bool) (l : list A) :
  NoDup l -> NoDup (List.filter f l).
Proof. rewrite !NoDup_ListNoDup. apply List.NoDup_filter. Qed.

Lemma Sorted_weaken {A : Type} (R R' : A -> A -> Prop) (l : list A) :
  (forall a b, R a b -> R' a b) -> Sorted R l -> Sorted R' l.
Proof.
  intros HR. induction 1 as [|x l Hs IH Hhd]; constructor; [exact IH |].
  destruct Hhd; constructor. now apply HR.
Qed.

Lemma value_before_total (x y : float) :
  value_before x y = true \/ value_before y x = true.
Proof.
  unfold value_before. destruct (is_nan y) eqn:Ey; [now left |].
  destruct (is_nan x) eqn:Ex; [now right |]. cbn.
  destruct (leb_total x y Ex Ey); auto.
Qed.

Lemma value_before_desc (x y : float) :
  value_before x y = true -> (y <=? x)%float = true \/ is_nan y = true.
Proof.
  unfold value_before. destruct (is_nan y); [now right |].
  cbn. rewrite andb_true_iff. intros [_ H]. now left.
Qed.

Lemma Z_leb_total (x y : Z) : (y <=? x)%Z = true \/ (x <=? y)%Z = true.
Proof. rewrite !Z.leb_le. lia. Qed.

Lemma mask_rows_insights {A : Type} sel mo ty cats (vals : list A) :
  length ty = length mo -> length cats = length mo -> length vals = length mo ->
  let mask := zip_with andb ((fun s => String.eqb s sel) <$> mo)
                            ((fun s => String.eqb s "Expense") <$> ty) in
  mask_list mask cats = i_category <$> month_expenses sel (itx_rows mo ty cats vals)
  /\ mask_list mask vals = i_value <$> month_expenses sel (itx_rows mo ty cats vals).
Proof.
  unfold month_expenses. revert ty cats vals.
  induction mo as [|m mo IH]; intros [|t ty] [|c cats] [|v vals]; try discriminate;
    [split; reflexivity |].
  intros [= Ht] [= Hc] [= Hv]. destruct (IH ty cats vals Ht Hc Hv) as [IHc IHv].
  cbn. destruct (String.eqb m sel && String.eqb t "Expense"); cbn; split; congruence.
Qed.

Lemma mask_category {A : Type} c (rows : list (itx A)) :
  mask_list ((fun s => String.eqb s c) <$> (i_category <$> rows)) (i_value <$> rows)
  = category_values c rows.
Proof.
  unfold category_values. induction rows as [|r rows IH]; [reflexivity |]. cbn.
  destruct (String.eqb (i_category r) c); cbn; now rewrite IH.
Qed.

(** A sorted groupby: one entry per key that occurs, valued by the total
    of the rows of that key. *)
Lemma groupby_sum_spec {A B : Type} (total : list A -> B) (before : B -> B -> bool)
    (rows : list (itx A)) :
  let by_cat := sort_by (fun a b : string * B => before a.2 b.2)
                  (groupby_sum total (i_category <$> rows) (i_value <$> rows)) in
  NoDup (fst <$> by_cat)
  /\ (forall c, c ∈ fst <$> by_cat <-> c ∈ i_category <$> rows)
  /\ (forall c v, (c, v) ∈ by_cat -> v = total (category_values c rows)).
Proof.
  intros by_cat. set (by0 := groupby_sum _ _ _) in by_cat.
  set (keys := sort_by String.leb (remove_dups (i_category <$> rows))).
  assert (Hfst : fst <$> by0 = keys).
  { unfold by0, groupby_sum. rewrite <- list_fmap_compose. apply list_fmap_id. }
  assert (Hperm : Permutation by0 by_cat) by apply sort_by_perm.
  split; [|split].
  - rewrite <- Hperm, Hfst. unfold keys. rewrite <- sort_by_perm. apply NoDup_remove_dups.
  - intros c. rewrite <- Hperm, Hfst. unfold keys.
    rewrite sort_by_elem_of. apply elem_of_remove_dups.
  - intros c v. rewrite <- Hperm. unfold by0, groupby_sum. rewrite list_elem_of_fmap.
    intros (k & [= -> ->] & _). now rewrite mask_category.
Qed.

Section CategoryBreakdown.

Variable X : externals.

(** C9. For a frame with month, type and category columns of strings and
    a value column of numbers, the breakdown of a month returns one entry
    per category that has an expense in that month; the value of an entry
    is the sum of the amounts of the month's expenses of that category,
    in the dtype of the value column (for floats the sum as the groupby
    of pandas adds them, for integers the exact sum, up to wrap-around);
    the entries are in descending order of value (a NaN sum goes
    last). *)
Theorem expense_by_category_spec tx_df sel_month value_col mo ty cats :
  col_of tx_df "month" = Some (ColObj mo) ->
  col_of tx_df "type" = Some (ColObj ty) ->
  col_of tx_df "category" = Some (ColObj cats) ->
  length ty = length mo -> length cats = length mo ->
  (forall vals,
      col_of tx_df value_col = Some (ColFloat vals) -> length vals = length mo ->
      let expenses := month_expenses sel_month (itx_rows mo ty cats vals) in
      exists by_cat,
        expense_by_category X tx_df sel_month value_col = Ok (FloatSums by_cat)
        /\ NoDup (fst <$> by_cat)
        /\ (forall c, c ∈ fst <$> by_cat <-> c ∈ i_category <$> expenses)
        /\ (forall c v, (c, v) ∈ by_cat ->
              v = group_float_sum X (category_values c expenses))
        /\ Sorted (fun a b => (b.2 <=? a.2)%float = true \/ is_nan b.2 = true) by_cat)
  /\ (forall k vals,
        col_of tx_df value_col = Some (ColInt k vals) -> length vals = length mo ->
        let expenses := month_expenses sel_month (itx_rows mo ty cats vals) in
        exists by_cat,
          expense_by_category X tx_df sel_month value_col = Ok (IntSums k by_cat)
          /\ NoDup (fst <$> by_cat)
          /\ (forall c, c ∈ fst <$> by_cat <-> c ∈ i_category <$> expenses)
          /\ (forall c v, (c, v) ∈ by_cat -> v = int_sum k (category_values c expenses))
          /\ Sorted (fun a b => (b.2 <= a.2)%Z) by_cat).
Proof.
  intros Hmo Hty Hcat Ht Hc.
  assert (Hrun : forall v,
    col_of tx_df value_col = Some v ->
    expense_by_category X tx_df sel_month value_col =
    let mask := zip_with andb ((fun s => String.eqb s sel_month) <$> mo)
                              ((fun s => String.eqb s "Expense") <$> ty) in
    match col_mask mask v with
    | ColFloat vals =>
        Ok (FloatSums (sort_by (fun a b => value_before a.2 b.2)
                         (groupby_sum (group_float_sum X) (mask_list mask cats) vals)))
    | ColInt k vals =>
        Ok (IntSums k (sort_by (fun a b => (b.2 <=? a.2)%Z)
                         (groupby_sum (int_sum k) (mask_list mask cats) vals)))
    | _ => Raise "dtype not modelled"
    end).
  { intros v Hv. unfold expense_by_category, df_get.
    fold (col_of tx_df "month") (col_of tx_df "type"). rewrite Hmo, Hty.
    cbn [and_then col_eq_str]. cbv zeta.
    set (mask := zip_with andb _ _).
    fold (col_of (df_filter tx_df mask) "category") (col_of (df_filter tx_df mask) value_col).
    rewrite !col_of_filter, Hcat, Hv. reflexivity. }
  split.
  - intros vals Hval Hv expenses. rewrite (Hrun _ Hval). cbv zeta. cbn [col_mask].
    destruct (mask_rows_insights sel_month mo ty cats vals Ht Hc Hv) as [Hcats Hvals].
    fold expenses in Hcats, Hvals. rewrite Hcats, Hvals.
    destruct (groupby_sum_spec (group_float_sum X) value_before expenses)
      as (Hnd & Hmem & Hsum).
    eexists. split; [reflexivity |]. split; [exact Hnd |]. split; [exact Hmem |].
    split; [exact Hsum |].
    eapply Sorted_weaken; [|apply sort_by_sorted].
    + intros a b. apply value_before_desc.
    + intros a b. apply value_before_total.
  - intros k vals Hval Hv expenses. rewrite (Hrun _ Hval). cbv zeta. cbn [col_mask].
    destruct (mask_rows_insights sel_month mo ty cats vals Ht Hc Hv) as [Hcats Hvals].
    fold expenses in Hcats, Hvals. rewrite Hcats, Hvals.
    destruct (groupby_sum_spec (int_sum k) (fun x y => (y <=? x)%Z) expenses)
      as (Hnd & Hmem & Hsum).
    eexists. split; [reflexivity |]. split; [exact Hnd |]. split; [exact Hmem |].
    split; [exact Hsum |].
    eapply Sorted_weaken; [|apply sort_by_sorted].
    + intros a b. cbn. apply Z.leb_le.
    + intros a b. apply Z_leb_total.
Qed.

End CategoryBreakdown.

(** February: Rent with 55 before Food with 40 + 2.5; in BDT, which are
    integers, Rent with 6600 before Food with 4800 + 300. *)
Lemma expense_by_category_spec_witness :
  let X := sample_externals (fun _ _ => http_500) in
  expense_by_category X insights_sample "2026-02" "amount_eur"
    = Ok (FloatSums [("Rent", 55%float); ("Food", 42.5%float)])
  /\ expense_by_category X insights_sample "2026-02" "amount_bdt"
     = Ok (IntSums I64 [("Rent", 6600%Z); ("Food", 5100%Z)]).
Proof.
  cbv zeta.
  pose (mo := ["2026-02"; "2026-02"; "2026-02"; "2026-02"; "2026-03"; ""]).
  pose (ty := ["Income"; "Expense"; "Expense"; "Expense"; "Expense"; "Debt"]).
  pose (cats := ["Salary"; "Food"; "Rent"; "Food"; "Food"; "Loan Taken"]).
  split.
  - destruct (expense_by_category_spec (sample_externals (fun _ _ => http_500))
                insights_sample "2026-02" "amount_eur" mo ty cats
                eq_refl eq_refl eq_refl eq_refl eq_refl) as [Hfloat _].
    destruct (Hfloat [100; 40; 55; 2.5; 9; 500]%float eq_refl eq_refl)
      as (by_cat & Hrun & _).
    pose proof Hrun as Hc. vm_compute in Hc. injection Hc as <-. exact Hrun.
  - destruct (expense_by_category_spec (sample_externals (fun _ _ => http_500))
                insights_sample "2026-02" "amount_bdt" mo ty cats
                eq_refl eq_refl eq_refl eq_refl eq_refl) as [_ Hint].
    destruct (Hint I64 [12000; 4800; 6600; 300; 1080; 60000]%Z eq_refl eq_refl)
      as (by_cat & Hrun & _).
    pose proof Hrun as Hc. vm_compute in Hc. injection Hc as <-. exact Hrun.
Defined.

(** *** Groups and the axes of a table *)

Lemma fmap_pointwise {A B : Type} (f g : A -> B) (l : list A) :
  (forall x, f x = g x) -> f <$> l = g <$> l.
Proof. intros H. induction l as [|x l IH]; [reflexivity |]. cbn. now rewrite H, IH. Qed.

Lemma fmap_const_replicate {A B : Type} (f : A -> B) (c : B) (l : list A) :
  (forall x, x ∈ l -> f x = c) -> f <$> l = replicate (length l) c.
Proof.
  induction l as [|x l IH]; intros H; [reflexivity |]. cbn.
  rewrite (H x) by apply list_elem_of_here. f_equal. apply IH.
  intros y Hy. apply H. now apply list_elem_of_further.
Qed.

Lemma float_of_int64_0 : float_of_int64 0 = 0%float.
Proof. vm_compute. reflexivity. Qed.

(** The values of a group are the amounts of its rows. *)
Lemma group_vals_amounts {A : Type} mo ty (vals : list A) m t :
  group_vals mo ty vals m t = amounts_of mo ty vals m t.
Proof.
  unfold group_vals, group_mask, amounts_of. revert ty vals.
  induction mo as [|m0 mo IH]; intros [|t0 ty] [|v vals]; try reflexivity.
  cbn. destruct (String.eqb m0 m && String.eqb t0 t); cbn; now rewrite IH.
Qed.

Lemma amounts_of_elem {A : Type} mo ty (vals : list A) m t :
  amounts_of mo ty vals m t <> [] -> (m, t) ∈ zip mo ty.
Proof.
  unfold amounts_of. revert ty vals.
  induction mo as [|m0 mo IH]; intros [|t0 ty] [|v vals] H; try (now destruct H).
  cbn in *. destruct (String.eqb_spec m0 m) as [->|]; cbn in H.
  - destruct (String.eqb_spec t0 t) as [->|]; [apply list_elem_of_here |].
    apply list_elem_of_further. now apply (IH ty vals).
  - apply list_elem_of_further. now apply (IH ty vals).
Qed.

Section GroupValues.

Variable X : externals.

Lemma group_agg_has_value mo ty vals m t :
  is_Some (group_agg X mo ty vals m t) <-> has_value X mo ty (ColFloat vals) m t.
Proof.
  unfold group_agg, has_value. rewrite group_vals_amounts.
  destruct (amounts_of mo ty vals m t) as [|v vs] eqn:E.
  - split; [intros [? [=]] | intros [H _]; now destruct H].
  - destruct (is_nan (group_float_sum X (v :: vs))).
    + split; [intros [? [=]] | intros [_ [=]]].
    + split; [intros _; split; [discriminate | reflexivity] | intros _; now eexists].
Qed.

Lemma group_agg_int_has_value k mo ty vals m t :
  is_Some (group_agg_int k mo ty vals m t) <-> has_value X mo ty (ColInt k vals) m t.
Proof.
  unfold group_agg_int, has_value. rewrite group_vals_amounts.
  destruct (amounts_of mo ty vals m t) as [|v vs].
  - split; [intros [? [=]] | intros H; now destruct H].
  - split; [discriminate | intros _; now eexists].
Qed.

Lemma group_agg_cell mo ty vals m t :
  default 0%float (group_agg X mo ty vals m t) = table_cell X mo ty (ColFloat vals) m t.
Proof.
  unfold group_agg, table_cell, cell_value. rewrite group_vals_amounts.
  destruct (amounts_of mo ty vals m t) as [|v vs]; [reflexivity |].
  now destruct (is_nan (group_float_sum X (v :: vs))).
Qed.

Lemma group_agg_int_cell k mo ty vals m t :
  match group_agg_int k mo ty vals m t with
  | Some z => float_of_int64 z
  | None => 0%float
  end = table_cell X mo ty (ColInt k vals) m t.
Proof.
  unfold group_agg_int, table_cell, cell_value_int. rewrite group_vals_amounts.
  now destruct (amounts_of mo ty vals m t).
Qed.

(** A group without rows has no value, and its cell is 0.0. *)
Lemma has_value_elem mo ty v m t : has_value X mo ty v m t -> (m, t) ∈ zip mo ty.
Proof.
  destruct v as [l|k l|l|l]; cbn; try tauto.
  - apply amounts_of_elem.
  - intros [H _]. revert H. apply amounts_of_elem.
Qed.

Lemma amounts_of_absent {A : Type} mo ty (vals : list A) m t :
  (m, t) ∉ zip mo ty -> amounts_of mo ty vals m t = [].
Proof.
  intros H. destruct (amounts_of mo ty vals m t) as [|v vs] eqn:E; [reflexivity |].
  exfalso. apply H, (amounts_of_elem mo ty vals). now rewrite E.
Qed.

Lemma table_cell_absent mo ty v m t :
  (m, t) ∉ zip mo ty -> table_cell X mo ty v m t = 0%float.
Proof.
  intros H. destruct v as [l|k l|l|l]; cbn; try reflexivity;
    now rewrite amounts_of_absent.
Qed.

Lemma table_cell_no_value mo ty v m t :
  is_numeric v = true -> ~ has_value X mo ty v m t -> table_cell X mo ty v m t = 0%float.
Proof.
  destruct v as [l|k l|l|l]; try discriminate; intros _; cbn.
  - destruct (amounts_of mo ty l m t); [reflexivity |]. intros H. destruct H. discriminate.
  - unfold cell_value. destruct (amounts_of mo ty l m t) as [|x xs]; [reflexivity |].
    destruct (is_nan (group_float_sum X (x :: xs))) eqn:E; [reflexivity |].
    intros H. destruct H. split; [discriminate | reflexivity].
Qed.

End GroupValues.

Section PivotAxes.

Context {A : Type} (agg : string -> string -> option A) (keys1 keys2 : list string).

Hypothesis agg_absent : forall m t, is_Some (agg m t) -> (m, t) ∈ zip keys1 keys2.

Lemma pivot_axes_live m t :
  (m, t) ∈ List.filter (fun g : string * string => is_some (agg g.1 g.2))
             (remove_dups (zip keys1 keys2))
  <-> is_Some (agg m t).
Proof using agg_absent.
  rewrite elem_of_List_filter, elem_of_remove_dups. cbn. split.
  - intros [_ H]. destruct (agg m t); [now eexists | discriminate].
  - intros H. split; [now apply agg_absent |]. now destruct H as [x ->].
Qed.

Lemma pivot_axes_rows m :
  m ∈ (pivot_axes agg keys1 keys2).1 <-> exists t, is_Some (agg m t).
Proof using agg_absent.
  unfold pivot_axes. cbn. rewrite sort_by_elem_of, elem_of_remove_dups, list_elem_of_fmap.
  split.
  - intros ([m' t] & -> & H). exists t. now apply pivot_axes_live.
  - intros [t H]. exists (m, t). split; [reflexivity | now apply pivot_axes_live].
Qed.

Lemma pivot_axes_labels t :
  t ∈ (pivot_axes agg keys1 keys2).2 <-> exists m, is_Some (agg m t).
Proof using agg_absent.
  unfold pivot_axes. cbn. rewrite sort_by_elem_of, elem_of_remove_dups, list_elem_of_fmap.
  split.
  - intros ([m t'] & -> & H). exists m. now apply pivot_axes_live.
  - intros [m H]. exists (m, t). split; [reflexivity | now apply pivot_axes_live].
Qed.

Lemma pivot_axes_NoDup : NoDup (pivot_axes agg keys1 keys2).1.
Proof. unfold pivot_axes. cbn. apply sort_by_NoDup, NoDup_remove_dups. Qed.

Lemma pivot_axes_sorted :
  Sorted (fun x y => String.leb x y = true) (pivot_axes agg keys1 keys2).1.
Proof. unfold pivot_axes. cbn. apply sort_by_sorted. apply String.leb_total. Qed.

End PivotAxes.

(** *** Filling and reading the chart columns *)

Lemma pv_fill_has (p : pivot) (col : string) :
  let p' := if pv_has p col then p else pv_set_scalar p col 0 in
  pv_index p' = pv_index p
  /\ (forall k, k <> col -> assoc_get k (pv_columns p') = assoc_get k (pv_columns p))
  /\ assoc_get col (pv_columns p') =
       Some (default (ColFloat (replicate (length (pv_index p)) 0%float))
                     (assoc_get col (pv_columns p))).
Proof.
  unfold pv_has. destruct (assoc_get col (pv_columns p)) as [c|] eqn:E; cbn.
  - auto.
  - split; [reflexivity |]. split.
    + intros k Hk. rewrite assoc_get_set.
      destruct (String.eqb_spec k col); [contradiction | reflexivity].
    + rewrite assoc_get_set, String.eqb_refl. reflexivity.
Qed.

(** A table whose cells, read as floats, are [cellf], with 0.0 throughout
    for a label it does not have: after the fill its columns [a] and [b]
    hold [cellf] for every row. *)
Lemma table_fill_get (rows labels : list string) (mkcol : string -> column)
    (cellf : string -> string -> float) (a b : string) :
  a <> b ->
  (forall t, col_floats (mkcol t) = (fun m => cellf m t) <$> rows) ->
  (forall t m, t ∉ labels -> cellf m t = 0%float) ->
  let p0 := mk_pivot rows ((fun t => (t, mkcol t)) <$> labels) in
  let p2 := foldl (fun p col => if pv_has p col then p else pv_set_scalar p col 0)
                  p0 [a; b] in
  exists ca cb,
    pv_get p2 a = Ok ca /\ pv_get p2 b = Ok cb /\ pv_index p2 = rows
    /\ col_floats ca = (fun m => cellf m a) <$> rows
    /\ col_floats cb = (fun m => cellf m b) <$> rows.
Proof.
  intros Hab Hcells Hdead p0. cbn [foldl].
  assert (Hcol : forall t, assoc_get t (pv_columns p0) =
                           if bool_decide (t ∈ labels) then Some (mkcol t) else None).
  { intros t. apply (assoc_get_tabulate mkcol). }
  assert (Hfull : forall t,
    col_floats (default (ColFloat (replicate (length rows) 0%float))
                        (assoc_get t (pv_columns p0)))
    = (fun m => cellf m t) <$> rows).
  { intros t. rewrite Hcol. case_bool_decide; cbn; [apply Hcells |].
    symmetry. apply fmap_const_replicate. intros m _. now apply Hdead. }
  destruct (pv_fill_has p0 a) as (Hi1 & Ho1 & Hc1).
  set (p1 := if pv_has p0 a then p0 else pv_set_scalar p0 a 0) in *.
  destruct (pv_fill_has p1 b) as (Hi2 & Ho2 & Hc2).
  set (p2 := if pv_has p1 b then p1 else pv_set_scalar p1 b 0) in *.
  unfold pv_get. rewrite (Ho2 a) by exact Hab. rewrite Hc1, Hc2.
  rewrite (Ho1 b) by congruence. rewrite Hi2, Hi1. change (pv_index p0) with rows.
  do 2 eexists. split; [reflexivity |]. split; [reflexivity |]. split; [reflexivity |].
  split; apply Hfull.
Qed.

Section MonthTypeTableFacts.

Variable X : externals.

(** The table of [monthly_income_expense] is the month-by-type table of
    Income and Expense. *)
Lemma monthly_income_expense_table df value_col :
  monthly_income_expense X df value_col = month_type_table X df value_col "Income" "Expense".
Proof. reflexivity. Qed.

(** The month-by-type table of a numeric value column: its rows are the
    months that have a group with a value, each once and in ascending
    order; the cell of a row in a chart column, read as a float, is the
    sum of the group, or 0.0 where the group has no value. *)
Lemma month_type_table_cells df value_col a b mo ty v :
  a <> b ->
  col_of df "month" = Some (ColObj mo) ->
  col_of df "type" = Some (ColObj ty) ->
  col_of df value_col = Some v ->
  is_numeric v = true ->
  exists rows ca cb,
    month_type_table X df value_col a b = Ok (mk_pivot rows [(a, ca); (b, cb)])
    /\ NoDup rows
    /\ Sorted (fun x y => String.leb x y = true) rows
    /\ (forall m, m ∈ rows <-> exists t, has_value X mo ty v m t)
    /\ col_floats ca = (fun m => table_cell X mo ty v m a) <$> rows
    /\ col_floats cb = (fun m => table_cell X mo ty v m b) <$> rows.
Proof.
  intros Hab Hmo Hty Hval Hnum.
  assert (Hgen : forall (A : Type) (agg : string -> string -> option A)
                        (mkcol : list string -> string -> column),
    (forall m t, is_Some (agg m t) <-> has_value X mo ty v m t) ->
    (forall rows t, col_floats (mkcol rows t) = (fun m => table_cell X mo ty v m t) <$> rows) ->
    pivot_table_sum X df "month" "type" value_col 0
      = Ok (mk_pivot (pivot_axes agg mo ty).1
              ((fun t => (t, mkcol (pivot_axes agg mo ty).1 t)) <$> (pivot_axes agg mo ty).2)) ->
    exists rows ca cb,
      month_type_table X df value_col a b = Ok (mk_pivot rows [(a, ca); (b, cb)])
      /\ NoDup rows
      /\ Sorted (fun x y => String.leb x y = true) rows
      /\ (forall m, m ∈ rows <-> exists t, has_value X mo ty v m t)
      /\ col_floats ca = (fun m => table_cell X mo ty v m a) <$> rows
      /\ col_floats cb = (fun m => table_cell X mo ty v m b) <$> rows).
  { intros A agg mkcol Hagg Hcells Hrun.
    assert (Habs : forall m t, is_Some (agg m t) -> (m, t) ∈ zip mo ty).
    { intros m t H. apply Hagg in H. revert H. apply has_value_elem. }
    set (rows := (pivot_axes agg mo ty).1) in *.
    set (labels := (pivot_axes agg mo ty).2) in *.
    destruct (table_fill_get rows labels (mkcol rows) (table_cell X mo ty v) a b Hab
                (Hcells rows)) as (ca & cb & Ha & Hb & Hidx & Hca & Hcb).
    { intros t m Ht. apply table_cell_no_value; [exact Hnum |]. intros Hv. apply Ht.
      unfold labels. apply (pivot_axes_labels agg mo ty Habs). exists m. now apply Hagg. }
    exists rows, ca, cb. split.
    - unfold month_type_table. rewrite Hrun. cbn [and_then]. rewrite Ha, Hb. cbn [and_then].
      now rewrite Hidx.
    - split; [apply pivot_axes_NoDup |]. split; [apply pivot_axes_sorted |].
      split; [|split; assumption].
      intros m. unfold rows. rewrite (pivot_axes_rows agg mo ty Habs).
      split; intros [t H]; exists t; now apply Hagg. }
  assert (Hget : pivot_table_sum X df "month" "type" value_col 0 =
    match v with
    | ColFloat vals =>
        let agg := group_agg X mo ty vals in
        let '(rows, labels) := pivot_axes agg mo ty in
        Ok (mk_pivot rows
              ((fun t => (t, ColFloat ((fun m => default 0%float (agg m t)) <$> rows)))
                 <$> labels))
    | ColInt k vals =>
        let agg := group_agg_int k mo ty vals in
        let '(rows, labels) := pivot_axes agg mo ty in
        if forallb (fun t => forallb (fun m => is_some (agg m t)) rows) labels then
          Ok (mk_pivot rows
                ((fun t => (t, ColInt k ((fun m => default 0%Z (agg m t)) <$> rows)))
                   <$> labels))
        else
          Ok (mk_pivot rows
                ((fun t => (t, ColFloat ((fun m => match agg m t with
                                                   | Some z => float_of_int64 z
                                                   | None => 0%float
                                                   end) <$> rows)))
                   <$> labels))
    | _ => Raise "dtype not modelled"
    end).
  { unfold pivot_table_sum, df_get.
    fold (col_of df "month") (col_of df "type") (col_of df value_col).
    rewrite Hmo, Hty, Hval. reflexivity. }
  destruct v as [l|k vals|vals|l]; try discriminate.
  - (* integers *)
    cbv zeta in Hget.
    destruct (pivot_axes (group_agg_int k mo ty vals) mo ty) as [rows labels] eqn:Eax.
    destruct (forallb _ labels) eqn:Efull.
    + apply (Hgen Z (group_agg_int k mo ty vals)
               (fun rows t =>
                  ColInt k ((fun m => default 0%Z (group_agg_int k mo ty vals m t)) <$> rows))).
      * intros m t. apply group_agg_int_has_value.
      * intros rows' t. cbn [col_floats]. rewrite <- list_fmap_compose.
        apply fmap_pointwise. intros m. rewrite <- group_agg_int_cell. cbn.
        destruct (group_agg_int k mo ty vals m t); [reflexivity | apply float_of_int64_0].
      * rewrite Eax. exact Hget.
    + apply (Hgen Z (group_agg_int k mo ty vals)
               (fun rows t =>
                  ColFloat ((fun m => match group_agg_int k mo ty vals m t with
                                      | Some z => float_of_int64 z
                                      | None => 0%float
                                      end) <$> rows))).
      * intros m t. apply group_agg_int_has_value.
      * intros rows' t. cbn [col_floats]. apply fmap_pointwise. intros m.
        apply group_agg_int_cell.
      * rewrite Eax. exact Hget.
  - (* floats *)
    cbv zeta in Hget.
    destruct (pivot_axes (group_agg X mo ty vals) mo ty) as [rows labels] eqn:Eax.
    apply (Hgen float (group_agg X mo ty vals)
             (fun rows t =>
                ColFloat ((fun m => default 0%float (group_agg X mo ty vals m t)) <$> rows))).
    + intros m t. apply group_agg_has_value.
    + intros rows' t. cbn [col_floats]. apply fmap_pointwise. intros m.
      apply group_agg_cell.
    + rewrite Eax. exact Hget.
Qed.

End MonthTypeTableFacts.

(** *** Absent groups *)

Section AbsentGroups.

Variable X : externals.

(** C7. Absent groups in the sums by type and in the month-by-type
    tables. The summary of the Entry page for an empty frame is all zeros.
    On a typed frame the sum of a numeric column for a type that no
    transaction has is 0.0 (the sum of an empty float column being 0.0).
    The month-by-type table of two chart types has exactly one row for
    every month that has a group with a value, and no other row; in every
    row each chart column holds the sum of the month's amounts of its
    type, and 0.0 when the month has no transaction of that type, also
    when no month has one. The table of Income and Expense by month is
    that table. None of these raises. *)
Theorem absent_groups_are_zero :
  (forall tx_df,
      df_empty tx_df = true ->
      entry_top_status X tx_df = Ok (mk_top_status 0 0 0 0 0 0 0 0))
  /\ (forall df t col ty c,
        col_of df "type" = Some (ColObj ty) ->
        col_of df col = Some c ->
        is_numeric c = true ->
        float_sum X [] = 0%float ->
        t ∉ ty ->
        sum_where X df t col = Ok 0%float)
  /\ (forall tx_df value_col a b mo ty v,
        a <> b ->
        col_of tx_df "month" = Some (ColObj mo) ->
        col_of tx_df "type" = Some (ColObj ty) ->
        col_of tx_df value_col = Some v ->
        is_numeric v = true ->
        exists rows ca cb,
          month_type_table X tx_df value_col a b = Ok (mk_pivot rows [(a, ca); (b, cb)])
          /\ NoDup rows
          /\ (forall m, m ∈ rows <-> exists t, has_value X mo ty v m t)
          /\ length (col_floats ca) = length rows
          /\ length (col_floats cb) = length rows
          /\ forall i m, rows !! i = Some m ->
               col_floats ca !! i = Some (table_cell X mo ty v m a)
               /\ col_floats cb !! i = Some (table_cell X mo ty v m b)
               /\ ((m, a) ∉ zip mo ty -> col_floats ca !! i = Some 0%float)
               /\ ((m, b) ∉ zip mo ty -> col_floats cb !! i = Some 0%float))
  /\ (forall tx_df value_col,
        monthly_income_expense X tx_df value_col
        = month_type_table X tx_df value_col "Income" "Expense").
Proof.
  split; [|split; [|split]].
  - intros tx_df He. unfold entry_top_status. rewrite He. reflexivity.
  - intros df t col ty c Hty Hcol Hnum H0 Ht.
    rewrite (sum_where_total X df t col ty c Hty Hcol Hnum). f_equal.
    destruct c as [l|k l|l|l]; try discriminate; cbn;
      rewrite <- mask_amounts_of_type, mask_list_none by exact Ht.
    + destruct k; vm_compute; reflexivity.
    + exact H0.
  - intros tx_df value_col a b mo ty v Hab Hmo Hty Hval Hnum.
    destruct (month_type_table_cells X tx_df value_col a b mo ty v Hab Hmo Hty Hval Hnum)
      as (rows & ca & cb & Hrun & Hnd & _ & Hrows & Hca & Hcb).
    exists rows, ca, cb. split; [exact Hrun |]. split; [exact Hnd |].
    split; [exact Hrows |]. rewrite Hca, Hcb, !length_fmap.
    split; [reflexivity |]. split; [reflexivity |].
    intros i m Hi. rewrite !list_lookup_fmap, Hi. cbn.
    split; [reflexivity |]. split; [reflexivity |].
    split; intros Habs; now rewrite table_cell_absent.
  - intros tx_df value_col. apply monthly_income_expense_table.
Qed.

End AbsentGroups.

(** Not every aggregation has a zero for an absent group. Rent has
    expenses in February and none in March: the category breakdown of
    March has no entry for Rent. And no transaction is of January: the
    table of Income and Expense by month has no row for it. *)
Lemma absent_groups_can_be_missing :
  let X := sample_externals (fun _ _ => http_500) in
  expense_by_category X insights_sample "2026-02" "amount_eur"
    = Ok (FloatSums [("Rent", 55%float); ("Food", 42.5%float)])
  /\ expense_by_category X insights_sample "2026-03" "amount_eur"
     = Ok (FloatSums [("Food", 9%float)])
  /\ exists income expense,
       monthly_income_expense X insights_sample "amount_eur"
         = Ok (mk_pivot [""; "2026-02"; "2026-03"]
                        [("Income", income); ("Expense", expense)])
       /\ "2026-01" ∉ [""; "2026-02"; "2026-03"].
Proof.
  cbv zeta. split; [vm_compute; reflexivity |]. split; [vm_compute; reflexivity |].
  do 2 eexists. split; [vm_compute; reflexivity |].
  rewrite !elem_of_cons, elem_of_nil. intros [H|[H|[H|[]]]]; discriminate.
Qed.

(** The empty frame; a month without a transaction of type Other; and
    the table by month, where March has no Income and the undated row is
    neither Income nor Expense. *)
Lemma absent_groups_are_zero_witness :
  let X := sample_externals (fun _ _ => http_500) in
  entry_top_status X empty_frame = Ok (mk_top_status 0 0 0 0 0 0 0 0)
  /\ sum_where X month_mixed "Other" "amount_eur" = Ok 0%float
  /\ sum_where X month_mixed "Other" "amount_bdt" = Ok 0%float
  /\ monthly_income_expense X insights_sample "amount_eur"
     = Ok (mk_pivot [""; "2026-02"; "2026-03"]
                    [("Income", ColFloat [0; 100; 0]%float);
                     ("Expense", ColFloat [0; 97.5; 9]%float)]).
Proof.
  cbv zeta.
  destruct (absent_groups_are_zero (sample_externals (fun _ _ => http_500)))
    as (Hempty & Hsum & Htable & Hsame).
  split; [apply Hempty; reflexivity |]. split; [|split].
  - apply (Hsum month_mixed "Other" "amount_eur"
             ["Income"; "Expense"; "Income"; "Expense"; "Debt"; "Debt Payment"]
             (ColFloat [100; 40; 50.5; 2.25; 500; 200]%float));
      [reflexivity | reflexivity | reflexivity | reflexivity | compute_done].
  - apply (Hsum month_mixed "Other" "amount_bdt"
             ["Income"; "Expense"; "Income"; "Expense"; "Debt"; "Debt Payment"]
             (ColInt I64 [12000; 4800; 6060; 270; 60000; 24000]%Z));
      [reflexivity | reflexivity | reflexivity | reflexivity | compute_done].
  - rewrite Hsame.
    destruct (Htable insights_sample "amount_eur" "Income" "Expense"
                ["2026-02"; "2026-02"; "2026-02"; "2026-02"; "2026-03"; ""]
                ["Income"; "Expense"; "Expense"; "Expense"; "Expense"; "Debt"]
                (ColFloat [100; 40; 55; 2.5; 9; 500]%float)
                ltac:(discriminate) eq_refl eq_refl eq_refl eq_refl)
      as (rows & ca & cb & Hrun & _).
    pose proof Hrun as Hc. vm_compute in Hc. injection Hc as <- <- <-. exact Hrun.
Defined.
(** * Further properties of the code *)

Section ReadFacts.

Variable X : externals.

Lemma read_df_cases title w :
  read_df X title w =
  match df_cache w !! title with
  | Some hit => (Ok hit, w)
  | None =>
      match book w !! title with
      | Some sheet =>
          (Ok (sheet_frame X sheet),
           set_df_cache (<[title := sheet_frame X sheet]> (df_cache w)) w)
      | None => (Raise title, w)
      end
  end.
Proof.
  unfold read_df, read_df_cached, sheet_frame. run_py.
  destruct (df_cache w !! title); [reflexivity|].
  destruct (book w !! title); reflexivity.
Qed.

End ReadFacts.

Section SheetFrameFacts.

Variable X : externals.

Lemma get_all_values_pad (sheet : worksheet) :
  get_all_values X sheet = pad_row X (foldr Nat.max 0 (length <$> sheet)) <$> sheet.
Proof. reflexivity. Qed.

Lemma foldr_max_le (l : list nat) (n : nat) : n ∈ l -> (n <= foldr Nat.max 0 l)%nat.
Proof.
  induction l as [|m l IH]; [by intros ?%elem_of_nil|].
  intros [->|Hin]%elem_of_cons; cbn; [lia|]. specialize (IH Hin). lia.
Qed.

Lemma pad_row_length width r : (length r <= width)%nat -> length (pad_row X width r) = width.
Proof. intros H. unfold pad_row. rewrite length_app, length_fmap, length_replicate. lia. Qed.

Lemma pad_row_lookup width (r : list pyval) j :
  default "" (pad_row X width r !! j) = value_text X (row_cell r (S j)).
Proof.
  unfold pad_row, row_cell. replace (S j - 1)%nat with j by lia.
  destruct (decide (j < length r)%nat) as [Hj|Hj].
  - rewrite lookup_app_l by (now rewrite length_fmap).
    rewrite list_lookup_fmap. destruct (r !! j) eqn:E; [reflexivity|].
    apply lookup_ge_None in E. lia.
  - rewrite lookup_app_r by (rewrite length_fmap; lia).
    rewrite (proj2 (lookup_ge_None r j)) by lia. cbn.
    destruct (replicate _ _ !! _) eqn:E; [|reflexivity].
    apply lookup_replicate in E as [-> _]. reflexivity.
Qed.

Lemma assoc_get_imap {A : Type} (g : nat -> string -> A) (headers : list string) j h :
  NoDup headers -> headers !! j = Some h ->
  assoc_get h (imap (fun j h => (h, g j h)) headers) = Some (g j h).
Proof.
  revert g j. induction headers as [|x l IH]; intros g j Hnd Hj; [done|].
  apply NoDup_cons in Hnd as [Hx Hnd]. cbn.
  destruct j as [|j]; cbn in Hj.
  - injection Hj as ->. now rewrite String.eqb_refl.
  - destruct (String.eqb_spec h x) as [->|_].
    + exfalso. apply Hx. eapply list_elem_of_lookup_2, Hj.
    + apply (IH (fun j h => g (S j) h) j Hnd Hj).
Qed.

Lemma assoc_get_imap_Some {A : Type} (g : nat -> string -> A) (headers : list string) k c :
  assoc_get k (imap (fun j h => (h, g j h)) headers) = Some c ->
  exists j, headers !! j = Some k /\ c = g j k.
Proof.
  revert g. induction headers as [|x l IH]; intros g; [done|]. cbn.
  destruct (String.eqb_spec k x) as [->|_].
  - intros [= <-]. exists 0%nat. done.
  - intros H. apply (IH (fun j h => g (S j) h)) in H as (j & Hj & ->). exists (S j). done.
Qed.

Lemma fst_imap {A : Type} (g : nat -> string -> A) (headers : list string) :
  fst <$> imap (fun j h => (h, g j h)) headers = headers.
Proof.
  revert g. induction headers as [|x l IH]; intros g; [done|]. cbn. f_equal.
  apply (IH (fun j h => g (S j) h)).
Qed.

Lemma sheet_frame_short (sheet : worksheet) :
  (length sheet < 2)%nat -> sheet_frame X sheet = empty_frame.
Proof.
  unfold sheet_frame. rewrite get_all_values_pad.
  destruct sheet as [|h [|r rest]]; cbn; try reflexivity. lia.
Qed.

End SheetFrameFacts.

Section ReadFrame.

Variable X : externals.

Lemma sheet_frame_long (hdr : list pyval) (data : worksheet) :
  data <> [] ->
  let width := foldr Nat.max 0 (length <$> hdr :: data) in
  sheet_frame X (hdr :: data)
  = frame_of_rows (pad_row X width <$> data) (pad_row X width hdr).
Proof.
  intros Hd. unfold sheet_frame. rewrite get_all_values_pad.
  destruct data as [|r rest]; [done|]. reflexivity.
Qed.

(** The frame of a sheet with data rows, column by column. *)
Lemma sheet_frame_columns (hdr : list pyval) (data : worksheet) :
  data <> [] ->
  let labels := default [] (head (get_all_values X (hdr :: data))) in
  let df := sheet_frame X (hdr :: data) in
  index df = length data
  /\ fst <$> columns df = labels
  /\ length labels = foldr Nat.max 0 (length <$> hdr :: data)
  /\ (forall k c, col_of df k = Some c ->
        exists j, labels !! j = Some k
          /\ c = ColObj ((fun r => value_text X (row_cell r (S j))) <$> data))
  /\ (NoDup labels -> forall j h, labels !! j = Some h ->
        col_of df h = Some (ColObj ((fun r => value_text X (row_cell r (S j))) <$> data))).
Proof.
  intros Hd labels.
  assert (Hl : labels = pad_row X (foldr Nat.max 0 (length <$> hdr :: data)) hdr).
  { unfold labels. rewrite get_all_values_pad. reflexivity. }
  rewrite sheet_frame_long by exact Hd. cbv zeta. rewrite <- Hl.
  unfold frame_of_rows. cbn [index columns].
  rewrite length_fmap. split; [reflexivity|].
  split; [apply (fst_imap (fun j _ => ColObj _))|].
  split. { rewrite Hl. apply pad_row_length, foldr_max_le. cbn. left. }
  split.
  - intros k c H. unfold col_of in H. cbn [columns] in H.
    apply (assoc_get_imap_Some (fun j _ => ColObj _)) in H as (j & Hj & ->).
    exists j. split; [exact Hj|]. f_equal. rewrite <- list_fmap_compose.
    apply list_fmap_ext. intros i r _. cbn. apply pad_row_lookup.
  - intros Hnd j h Hj. unfold col_of. cbn [columns].
    rewrite (assoc_get_imap (fun j _ => ColObj _) labels j h Hnd Hj).
    f_equal. f_equal. rewrite <- list_fmap_compose.
    apply list_fmap_ext. intros i r _. cbn. apply pad_row_lookup.
Qed.

(** Every column that [read_df] makes is a column of strings, one per
    data row. *)
Lemma sheet_frame_object (sheet : worksheet) k c :
  col_of (sheet_frame X sheet) k = Some c ->
  exists l, c = ColObj l /\ length l = index (sheet_frame X sheet).
Proof.
  destruct sheet as [|hdr [|r rest]]; try (cbn; discriminate).
  destruct (sheet_frame_columns hdr (r :: rest)) as (Hi & _ & _ & Hc & _); [done|].
  intros H. apply Hc in H as (j & _ & ->). eexists. split; [reflexivity|].
  now rewrite Hi, length_fmap.
Qed.

(** X1. What [read_df] makes of a sheet that is not in the frame cache.
    The frame is returned and cached under the title. A sheet with fewer
    than two rows gives [pd.DataFrame()]. Otherwise the first row gives
    the labels and every further row one row of the frame: every column
    is a column of strings as long as the data rows, and, when the labels
    are distinct, the column under the j-th label holds for each data row
    the text of its j-th cell (the empty string where the row is
    shorter). *)
Theorem read_df_frame_of_sheet title w sheet :
  df_cache w !! title = None ->
  book w !! title = Some sheet ->
  exists df,
    read_df X title w = (Ok df, set_df_cache (<[title := df]> (df_cache w)) w)
    /\ ((length sheet < 2)%nat -> df = empty_frame)
    /\ forall hdr data, sheet = hdr :: data -> data <> [] ->
         let labels := default [] (head (get_all_values X sheet)) in
         index df = length data
         /\ fst <$> columns df = labels
         /\ length labels = foldr Nat.max 0 (length <$> sheet)
         /\ (forall k c, col_of df k = Some c ->
               exists l, c = ColObj l /\ length l = length data)
         /\ (NoDup labels ->
               wf_frame df
               /\ forall j h, labels !! j = Some h ->
                    col_of df h
                    = Some (ColObj ((fun r => value_text X (row_cell r (S j))) <$> data))).
Proof.
  intros Hc Hb. exists (sheet_frame X sheet).
  rewrite read_df_cases, Hc, Hb. split; [reflexivity|].
  split; [apply sheet_frame_short|].
  intros hdr data -> Hd labels.
  destruct (sheet_frame_columns hdr data Hd) as (Hi & Hl & Hlen & Hcol & Hget).
  fold labels in Hl, Hlen, Hcol, Hget.
  split; [exact Hi|]. split; [exact Hl|]. split; [exact Hlen|]. split.
  { intros k c H. apply Hcol in H as (j & _ & ->). eexists. split; [reflexivity|].
    now rewrite length_fmap. }
  intros Hnd. split; [|now apply Hget]. split.
  - now rewrite Hl.
  - intros k c H. apply Hcol in H as (j & _ & ->). cbn [col_len].
    now rewrite length_fmap, Hi.
Qed.

End ReadFrame.


(** The Rates sheet of the sample book is read as a frame of one row. *)
Lemma read_df_frame_of_sheet_witness :
  let X := sample_externals (fun _ _ => http_500) in
  exists df,
    fst (read_df X "Rates" sample_world) = Ok df
    /\ index df = 1%nat
    /\ wf_frame df
    /\ col_of df "date" = Some (ColObj ["2026-02-07"]).
Proof.
  cbv zeta.
  destruct (read_df_frame_of_sheet (sample_externals (fun _ _ => http_500)) "Rates"
              sample_world [rates_header; [PyStr "2026-02-07"; PyFloat 120]]
              eq_refl eq_refl)
    as (df & Hread & _ & Hdata).
  destruct (Hdata rates_header [[PyStr "2026-02-07"; PyFloat 120]] eq_refl)
    as (Hi & _ & _ & _ & Hnd); [discriminate|].
  destruct Hnd as [Hwf Hcol]; [vm_compute; compute_done|].
  exists df. split; [now rewrite Hread|]. split; [exact Hi|]. split; [exact Hwf|].
  apply (Hcol 0%nat "date"). reflexivity.
Defined.


(** ** The provider chain, case by case *)

Section ProviderChain.

Variable X : externals.

Lemma erapi_world d w r w' :
  _fetch_eur_to_bdt_rate_erapi X d w = (Ok r, w') ->
  d = today w /\ w' = log_request erapi_url w.
Proof.
  unfold _fetch_eur_to_bdt_rate_erapi, erapi_url. run_py.
  intros H. split_py; split; try reflexivity;
    match goal with H : negb (bool_decide _) = false |- _ =>
      apply negb_false_iff, bool_decide_eq_true in H; exact H end.
Qed.

(** A fetch changes nothing but the request log. *)
Lemma fetch_only_logs d w res w' :
  _fetch_eur_to_bdt_rate X d w = (res, w') ->
  w' = mk_world (book w) (rate_cache w) (header_cache w) (df_cache w) (today w)
                (requests_log w').
Proof.
  unfold _fetch_eur_to_bdt_rate, _fetch_eur_to_bdt_rate_frankfurter,
    _fetch_eur_to_bdt_rate_erapi. intros Hf. run_py. split_py; destruct w; reflexivity.
Qed.

(** X2. The fetch returns a rate in exactly two ways. Either the primary
    provider returned it, and then its request is the only one made: the
    secondary provider is not contacted. Or the primary provider raised,
    the date is today and the secondary provider returned the rate, and
    then the two requests were made in that order. *)
Theorem fetch_primary_then_secondary d w r w' :
  _fetch_eur_to_bdt_rate X d w = (Ok r, w') <->
    (_fetch_eur_to_bdt_rate_frankfurter X d w = (Ok r, w')
     /\ requests_log w' = requests_log w ++ [frankfurter_url d])
    \/ (exists e1 w1,
          _fetch_eur_to_bdt_rate_frankfurter X d w = (Raise e1, w1)
          /\ d = today w
          /\ _fetch_eur_to_bdt_rate_erapi X d w1 = (Ok r, w')
          /\ requests_log w' = requests_log w ++ [frankfurter_url d; erapi_url]).
Proof.
  unfold _fetch_eur_to_bdt_rate, try_except.
  destruct (_fetch_eur_to_bdt_rate_frankfurter X d w) as [[r1|e1] w1] eqn:H1.
  - pose proof (frankfurter_world _ _ _ _ _ H1) as ->. split.
    + intros [= <- <-]. left. split; reflexivity.
    + intros [[[= <- <-] _] | (e & w1 & [=] & _)]. reflexivity.
  - pose proof (frankfurter_world _ _ _ _ _ H1) as ->.
    destruct (_fetch_eur_to_bdt_rate_erapi X d _) as [[r2|e2] w2] eqn:H2.
    + destruct (erapi_world _ _ _ _ H2) as [Hd ->]. split.
      * intros [= <- ?]. subst w'. right. eexists _, _. split; [reflexivity|].
        split; [exact Hd|]. split; [exact H2|]. cbn. now rewrite <- app_assoc.
      * intros [[[=] _] | (e & w1 & [= <- <-] & _ & H3 & _)].
        rewrite H2 in H3. exact H3.
    + unfold raise. split; [discriminate|].
      intros [[[=] _] | (e & w1 & [= <- <-] & _ & H3 & _)]. rewrite H2 in H3. discriminate.
Qed.

Lemma frankfurter_url_eq d :
  ("https://api.frankfurter.app/" +:+ isoformat d) +:+ "?from=EUR&to=BDT"
  = frankfurter_url d.
Proof. reflexivity. Qed.

(** X3. What counts as success for a provider. The primary provider
    returns a rate exactly when its one request comes back with status
    200 and a JSON object whose "rates" entry is an object with a "BDT"
    entry, and the float read from that entry is not [<= 0]; the rate is
    that float. The same holds for the secondary provider when the date
    is today. In every other case the provider raises. *)
Theorem provider_success_criteria d w r w' :
  (_fetch_eur_to_bdt_rate_frankfurter X d w = (Ok r, w') <->
     exists resp data rs v,
       http_get X (length (requests_log w)) (frankfurter_url d) = GetReturns resp
       /\ status_code resp = 200%Z
       /\ json resp = inr (PyDict data)
       /\ assoc_get "rates" data = Some (PyDict rs)
       /\ assoc_get "BDT" rs = Some v
       /\ r = safe_float X v 0 /\ (r <=? 0)%float = false
       /\ w' = log_request (frankfurter_url d) w)
  /\ (_fetch_eur_to_bdt_rate_erapi X d w = (Ok r, w') <->
        d = today w
        /\ exists resp data rs v,
             http_get X (length (requests_log w)) erapi_url = GetReturns resp
             /\ status_code resp = 200%Z
             /\ json resp = inr (PyDict data)
             /\ assoc_get "rates" data = Some (PyDict rs)
             /\ assoc_get "BDT" rs = Some v
             /\ r = safe_float X v 0 /\ (r <=? 0)%float = false
             /\ w' = log_request erapi_url w).
Proof.
  split.
  - unfold _fetch_eur_to_bdt_rate_frankfurter. run_py. rewrite frankfurter_url_eq. split.
    + intros H.
      destruct (http_get X _ _) as [msg|resp] eqn:Hg; [discriminate|].
      destruct (status_code resp =? 200)%Z eqn:Hs; cbn [negb] in H; [|discriminate].
      apply Z.eqb_eq in Hs.
      destruct (json resp) as [msg|data] eqn:Hj; cbv beta iota zeta in H; [discriminate|].
      destruct data as [| | | | |items|kvs]; cbv beta iota zeta in H; try discriminate.
      unfold rates_bdt in H.
      destruct (assoc_get "rates" kvs) as [rates|] eqn:Hr; cbn [default id] in H;
        cbv beta iota zeta in H; [|discriminate].
      destruct rates as [| | | | |items|rs]; cbv beta iota zeta in H; try discriminate.
      destruct (assoc_get "BDT" rs) as [v|] eqn:Hv; cbv beta iota zeta in H; [|discriminate].
      destruct (safe_float X v 0 <=? 0)%float eqn:Hle; cbv beta iota zeta in H; [discriminate|].
      injection H as <- <-. exists resp, kvs, rs, v. repeat split; auto.
    + intros (resp & data & rs & v & Hg & Hs & Hj & Hr & Hv & -> & Hle & ->).
      rewrite Hg, Hs, Hj. cbn. rewrite Hr. cbn. rewrite Hv, Hle. reflexivity.
  - unfold _fetch_eur_to_bdt_rate_erapi, erapi_url. run_py. split.
    + intros H.
      destruct (bool_decide (d = today w)) eqn:Hd; cbn [negb] in H; [|discriminate].
      apply bool_decide_eq_true in Hd. split; [exact Hd|].
      destruct (http_get X _ _) as [msg|resp] eqn:Hg; [discriminate|].
      destruct (status_code resp =? 200)%Z eqn:Hs; cbn [negb] in H; [|discriminate].
      apply Z.eqb_eq in Hs.
      destruct (json resp) as [msg|data] eqn:Hj; cbv beta iota zeta in H; [discriminate|].
      destruct data as [| | | | |items|kvs]; cbv beta iota zeta in H; try discriminate.
      unfold rates_bdt in H.
      destruct (assoc_get "rates" kvs) as [rates|] eqn:Hr; cbn [default id] in H;
        cbv beta iota zeta in H; [|discriminate].
      destruct rates as [| | | | |items|rs]; cbv beta iota zeta in H; try discriminate.
      destruct (assoc_get "BDT" rs) as [v|] eqn:Hv; cbv beta iota zeta in H; [|discriminate].
      destruct (safe_float X v 0 <=? 0)%float eqn:Hle; cbv beta iota zeta in H; [discriminate|].
      injection H as <- <-. exists resp, kvs, rs, v. repeat split; auto.
    + intros (Hd & resp & data & rs & v & Hg & Hs & Hj & Hr & Hv & -> & Hle & ->).
      rewrite bool_decide_eq_true_2 by exact Hd. cbn [negb].
      rewrite Hg, Hs, Hj. cbn. rewrite Hr. cbn. rewrite Hv, Hle. reflexivity.
Qed.

End ProviderChain.


(** Today's rate with the primary provider down: the secondary provider's
    119.5 is returned after the two requests. *)
Lemma fetch_primary_then_secondary_witness :
  let X := sample_externals net_fallback in
  let w := fresh_world [rates_header] feb7 in
  _fetch_eur_to_bdt_rate X feb7 w
  = (Ok 119.5%float, log_request erapi_url (log_request (frankfurter_url feb7) w)).
Proof.
  cbv zeta.
  apply (proj2 (fetch_primary_then_secondary (sample_externals net_fallback) feb7
                  (fresh_world [rates_header] feb7) 119.5%float _)).
  right. exists "Frankfurter HTTP 500: Internal Server Error",
    (log_request (frankfurter_url feb7) (fresh_world [rates_header] feb7)).
  repeat split; vm_compute; reflexivity.
Defined.

(** A 200 response with [{"rates": {"BDT": 119.5}}] is a success of the
    primary provider. *)
Lemma provider_success_criteria_witness :
  let X := sample_externals (fun _ _ => rates_response (PyFloat 119.5)) in
  let w := fresh_world [rates_header] feb7 in
  _fetch_eur_to_bdt_rate_frankfurter X feb7 w
  = (Ok 119.5%float, log_request (frankfurter_url feb7) w).
Proof.
  cbv zeta.
  apply (proj2 (proj1 (provider_success_criteria
                         (sample_externals (fun _ _ => rates_response (PyFloat 119.5)))
                         feb7 (fresh_world [rates_header] feb7) 119.5%float _))).
  eexists _, _, _, _. repeat split; vm_compute; reflexivity.
Defined.


(** ** Effects of rate resolution *)

Section RateEffects.

Variable X : externals.

(** A fetch makes at least one request. *)
Lemma fetch_requests d w res w' :
  _fetch_eur_to_bdt_rate X d w = (res, w') ->
  exists urls, urls <> [] /\ requests_log w' = requests_log w ++ urls.
Proof.
  unfold _fetch_eur_to_bdt_rate, try_except.
  destruct (_fetch_eur_to_bdt_rate_frankfurter X d w) as [[r1|e1] w1] eqn:H1;
    pose proof (frankfurter_world _ _ _ _ _ H1) as ->.
  - intros [= <- <-]. exists [frankfurter_url d]. done.
  - destruct (_fetch_eur_to_bdt_rate_erapi X d _) as [[r2|e2] w2] eqn:H2.
    + destruct (erapi_world _ _ _ _ _ H2) as [_ ->]. intros [= <- <-].
      exists [frankfurter_url d; erapi_url]. split; [done|]. cbn. now rewrite <- app_assoc.
    + unfold raise. intros [= <- <-].
      revert H2. unfold _fetch_eur_to_bdt_rate_erapi. run_py. intros H2.
      exists (drop (length (requests_log w)) (requests_log w2)).
      assert (exists more, requests_log w2 = (requests_log w ++ [frankfurter_url d]) ++ more)
        as [more Hm].
      { split_py; cbn; try (by exists []; rewrite app_nil_r);
          by eexists [_]. }
      rewrite Hm, <- app_assoc, drop_app_length. split; [done|reflexivity].
Qed.

(** The lookup changes nothing but the rate cache. *)
Lemma cached_lookup_only_caches d_str w res w' :
  _get_rate_from_sheet_cached X d_str w = (res, w') ->
  w' = set_rate_cache (rate_cache w') w.
Proof.
  intros H. apply cached_lookup_cases in H.
  destruct H as [(v & _ & _ & ->) | [(_ & _ & _ & ->) | (rows & v & _ & _ & _ & _ & ->)]];
    destruct w; reflexivity.
Qed.

(** X4. What a call of [get_rate_for_date] does to the process. When it
    returns a rate, either the rate was stored (in the rate cache or in
    the Rates sheet) and then nothing is requested and nothing written,
    or the rate was fetched with at least one request and then it is a
    finite number, the row [date, rate] is the new last row of the Rates
    sheet, no other row has changed and every cache is empty. When it
    raises, the book is as it was: no row is written. *)
Theorem get_rate_for_date_effect d w res w' :
  get_rate_for_date X d w = (res, w') ->
  today w' = today w
  /\ match res with
     | Ok r =>
         (book w' = book w /\ requests_log w' = requests_log w
          /\ (rate_cache w !! isoformat d = Some (Some r)
              \/ exists rows, book w !! "Rates" = Some rows
                   /\ rate_in_sheet X rows (isoformat d) = Some r))
         \/ (exists rows urls,
               book w !! "Rates" = Some rows
               /\ book w' = <["Rates" := rows ++ [[PyStr (isoformat d); PyFloat r]]]> (book w)
               /\ rate_cache w' = ∅ /\ header_cache w' = ∅ /\ df_cache w' = ∅
               /\ is_finite r = true
               /\ urls <> [] /\ requests_log w' = requests_log w ++ urls)
     | Raise e =>
         book w' = book w /\ header_cache w' = header_cache w /\ df_cache w' = df_cache w
     end.
Proof.
  rewrite get_rate_for_date_eq.
  destruct (_get_rate_from_sheet_cached X (isoformat d) w) as [[existing|e] wc] eqn:Hc.
  - pose proof (cached_lookup_only_caches _ _ _ _ Hc) as Hwc.
    assert (Hfr : book wc = book w /\ today wc = today w /\ requests_log wc = requests_log w
                  /\ header_cache wc = header_cache w /\ df_cache wc = df_cache w).
    { rewrite Hwc. auto. }
    destruct Hfr as (Hb & Ht & Hl & Hh & Hd).
    destruct existing as [r|].
    + intros [= <- <-]. split; [exact Ht|]. left. split; [exact Hb|]. split; [exact Hl|].
      apply cached_lookup_cases in Hc.
      destruct Hc as [(v & Hv & [= <-] & _)
                     | [(_ & _ & [=] & _) | (rows & v & _ & Hr & Hlk & [= <-] & _)]];
        [left; exact Hv |].
      right. exists rows. split; [exact Hr |]. revert Hlk.
      destruct (lookup_raises X _ _); [discriminate | now intros <-].
    + destruct (_fetch_eur_to_bdt_rate X d wc) as [[rate|e] wf] eqn:Hf;
        pose proof (fetch_only_logs _ _ _ _ _ Hf) as Hwf;
        destruct (fetch_requests _ _ _ _ Hf) as (urls & Hne & Hurls).
      * destruct (book wf !! "Rates") as [rows|] eqn:Hr.
        -- destruct (is_finite rate) eqn:Hfin; intros [= <- <-].
           ++ split; [rewrite Hwf; exact Ht|]. right. exists rows, urls.
              rewrite Hwf in Hr. cbn in Hr. rewrite Hb in Hr.
              split; [exact Hr|]. cbn. rewrite Hwf. cbn. rewrite Hb, <- Hl.
              repeat split; auto.
           ++ rewrite Hwf. cbn. auto.
        -- intros [= <- <-]. rewrite Hwf. cbn. auto.
      * intros [= <- <-]. rewrite Hwf. cbn. auto.
  - pose proof (cached_lookup_only_caches _ _ _ _ Hc) as Hwc.
    intros [= <- <-]. rewrite Hwc. cbn. auto.
Qed.

End RateEffects.


(** The fetched 119.5 becomes the last row of the Rates sheet. *)
Lemma get_rate_for_date_effect_witness :
  let X := sample_externals net_fallback in
  let w := fresh_world [rates_header] feb7 in
  let w' := snd (get_rate_for_date X feb7 w) in
  fst (get_rate_for_date X feb7 w) = Ok 119.5%float
  /\ book w' !! "Rates" = Some [rates_header; [PyStr "2026-02-07"; PyFloat 119.5]]
  /\ today w' = today w.
Proof.
  cbv zeta.
  destruct (get_rate_for_date_effect (sample_externals net_fallback) feb7
              (fresh_world [rates_header] feb7) (Ok 119.5%float)
              (snd (get_rate_for_date (sample_externals net_fallback) feb7
                      (fresh_world [rates_header] feb7))))
    as [Ht _].
  - apply pair_eta_fst. vm_compute. reflexivity.
  - split; [vm_compute; reflexivity|]. split; [vm_compute; reflexivity | exact Ht].
Defined.


(** ** The caches agree with the sheets *)

Section CachesConsistent.

Variable X : externals.

(** Empty caches agree with any book. *)
Lemma caches_consistent_cleared bk clock log :
  caches_consistent X (mk_world bk ∅ ∅ ∅ clock log).
Proof.
  split; [apply rate_cache_consistent_init|]. split.
  - intros t h H. cbn in H. now rewrite lookup_empty in H.
  - intros t df H. cbn in H. now rewrite lookup_empty in H.
Qed.

Lemma caches_consistent_same w w' :
  caches_consistent X w ->
  book w' = book w -> rate_cache w' = rate_cache w ->
  header_cache w' = header_cache w -> df_cache w' = df_cache w ->
  caches_consistent X w'.
Proof.
  intros (Hr & Hh & Hd) Hb Hrc Hhc Hdc. split; [|split].
  - intros k v. rewrite Hrc, Hb. apply Hr.
  - intros t h. rewrite Hhc, Hb. apply Hh.
  - intros t df. rewrite Hdc, Hb. apply Hd.
Qed.

(** A read through the frame cache returns the frame of the sheet as it
    is now, and keeps the caches in agreement. *)
Lemma read_df_consistent title w res w' :
  df_cache_consistent X w ->
  read_df X title w = (res, w') ->
  book w' = book w /\ rate_cache w' = rate_cache w /\ header_cache w' = header_cache w
  /\ today w' = today w /\ requests_log w' = requests_log w
  /\ df_cache_consistent X w'
  /\ match book w !! title with
     | Some sheet => res = Ok (sheet_frame X sheet)
                     /\ df_cache w' = <[title := sheet_frame X sheet]> (df_cache w)
     | None => res = Raise title /\ w' = w
     end.
Proof.
  intros Hcons. rewrite read_df_cases.
  destruct (df_cache w !! title) as [hit|] eqn:Hc.
  - intros [= <- <-]. destruct (Hcons _ _ Hc) as (sheet & -> & ->).
    rewrite insert_id by exact Hc. auto 10.
  - destruct (book w !! title) as [sheet|] eqn:Hb; intros [= <- <-]; cbn; [|auto 10].
    repeat split; auto. intros t df. cbn. rewrite lookup_insert. case_decide.
    + intros [= <-]. subst t. eauto.
    + apply Hcons.
Qed.

End CachesConsistent.

Section KeepCaches.

Variable X : externals.

(** An invariant of the rate cache that looks at the book and at the rate
    cache only, and that the empty cache meets. *)
Variable R : world -> Prop.

Hypothesis R_frame :
  forall w w', book w' = book w -> rate_cache w' = rate_cache w -> R w -> R w'.

Hypothesis R_init : forall bk clock log, R (mk_world bk ∅ ∅ ∅ clock log).

Lemma caches_cleared bk clock log :
  let w := mk_world bk ∅ ∅ ∅ clock log in
  R w /\ header_cache_consistent w /\ df_cache_consistent X w.
Proof using R_init.
  cbv zeta. split; [apply R_init |]. split.
  - intros t h H. cbn in H. now rewrite lookup_empty in H.
  - intros t df H. cbn in H. now rewrite lookup_empty in H.
Qed.

Lemma header_cache_insert_keeps w title sheet :
  R w /\ header_cache_consistent w /\ df_cache_consistent X w ->
  book w !! title = Some sheet ->
  let w' := set_header_cache (<[title := ws_row_values1 sheet]> (header_cache w)) w in
  R w' /\ header_cache_consistent w' /\ df_cache_consistent X w'.
Proof using R_frame.
  intros (Hr & Hh & Hd) Hb. cbv zeta. split; [|split; [|exact Hd]].
  - revert Hr. now apply R_frame.
  - intros t h. cbn. rewrite lookup_insert. case_decide.
    + intros [= <-]. subst t. now rewrite Hb.
    + apply Hh.
Qed.

(** [ensure_headers] on a sheet that does not exist raises and changes
    nothing. *)
Lemma ensure_headers_no_sheet title headers w res w' :
  header_cache_consistent w ->
  book w !! title = None ->
  ensure_headers title headers w = (res, w') -> res = Raise title /\ w' = w.
Proof.
  intros Hh Hb. unfold ensure_headers, _read_header_row, try_except. run_py.
  destruct (header_cache w !! title) as [hit|] eqn:Hc.
  { apply Hh in Hc. rewrite Hb in Hc. discriminate. }
  rewrite Hb. cbv beta iota zeta. rewrite Hb. intros [= <- <-]. done.
Qed.

Lemma ensure_headers_keeps title headers w res w' :
  R w /\ header_cache_consistent w /\ df_cache_consistent X w ->
  ensure_headers title headers w = (res, w') ->
  R w' /\ header_cache_consistent w' /\ df_cache_consistent X w'.
Proof using R_frame R_init.
  intros Hcons H. destruct (book w !! title) as [sheet|] eqn:Hb.
  - pose proof (header_seen_actual w title sheet (proj1 (proj2 Hcons)) Hb) as Hseen.
    destruct (row_eqb (ws_row_values1 sheet) headers) eqn:E.
    + pose proof (proj1 (row_eqb_eq _ _) E) as Heq.
      rewrite (ensure_headers_match title headers w sheet _ Hb Hseen Heq) in H.
      injection H as <- <-. now apply header_cache_insert_keeps.
    + assert (Hne : ws_row_values1 sheet <> headers_row headers).
      { intros Heq. apply row_eqb_eq in Heq. congruence. }
      rewrite (ensure_headers_mismatch title headers w sheet _ Hb Hseen Hne) in H.
      injection H as <- <-. apply caches_cleared.
  - destruct (ensure_headers_no_sheet title headers w res w' (proj1 (proj2 Hcons)) Hb H)
      as [_ ->]. exact Hcons.
Qed.

(** [get_rate_for_date] keeps the caches as the lookup left them, or
    empties them after the write. *)
Lemma get_rate_for_date_keeps d w res w' :
  (forall r wc, _get_rate_from_sheet_cached X (isoformat d) w = (r, wc) -> R wc) ->
  R w /\ header_cache_consistent w /\ df_cache_consistent X w ->
  get_rate_for_date X d w = (res, w') ->
  R w' /\ header_cache_consistent w' /\ df_cache_consistent X w'.
Proof using R_frame R_init.
  intros Hlookup (Hr & Hh & Hd). rewrite get_rate_for_date_eq.
  destruct (_get_rate_from_sheet_cached X (isoformat d) w) as [r0 wc] eqn:Hc.
  pose proof (cached_lookup_only_caches _ _ _ _ _ Hc) as Hwc.
  assert (Hc1 : R wc /\ header_cache_consistent wc /\ df_cache_consistent X wc).
  { split; [eapply Hlookup; reflexivity |]. rewrite Hwc. split.
    - intros t h. cbn. apply Hh.
    - intros t df. cbn. apply Hd. }
  destruct r0 as [[r|]|e]; [now intros [= <- <-] | | now intros [= <- <-]].
  destruct (_fetch_eur_to_bdt_rate X d wc) as [rf wf] eqn:Hf.
  pose proof (fetch_only_logs _ _ _ _ _ Hf) as Hwf.
  assert (Hc2 : R wf /\ header_cache_consistent wf /\ df_cache_consistent X wf).
  { destruct Hc1 as (Hr1 & Hh1 & Hd1). split; [|rewrite Hwf; split].
    - revert Hr1. apply R_frame; rewrite Hwf; reflexivity.
    - intros t h. cbn. apply Hh1.
    - intros t df. cbn. apply Hd1. }
  destruct rf as [rate|e]; [|now intros [= <- <-]].
  destruct (book wf !! "Rates"); [destruct (is_finite rate) |]; intros [= <- <-];
    try exact Hc2. apply caches_cleared.
Qed.

(** Appending a list of rows, one call each. *)
Lemma for_each_append_row {A : Type} (items : list A) (mk : A -> list pyval)
    title sheet w :
  book w !! title = Some sheet ->
  (forall x, x ∈ items -> forallb json_ok (mk x) = true) ->
  for_each items (fun x => append_row title (mk x)) w
  = (Ok tt, if items is [] then w
            else set_book (<[title := sheet ++ (mk <$> items)]>) w).
Proof.
  revert sheet w. induction items as [|x rest IH]; intros sheet w Hb Hok; [reflexivity|].
  cbn [for_each]. unfold bind at 1, append_row at 1. run_py. rewrite Hb.
  rewrite Hok by left. cbv beta iota zeta.
  rewrite (IH (sheet ++ [mk x])).
  - destruct rest as [|y rest']; [reflexivity|]. f_equal. unfold set_book. cbn.
    rewrite insert_insert_eq, <- app_assoc. reflexivity.
  - cbn. now rewrite lookup_insert_eq.
  - intros y Hy. apply Hok. now right.
Qed.

(** The control flow of the seeding, with the monad unfolded. *)
Lemma seed_defaults_eq w :
  get_or_create_category_sheet_defaults X w =
  match book w !! "Categories" with
  | None => (Raise "Categories", w)
  | Some _ =>
      match read_df X "Categories" w with
      | (Ok df, w1) =>
          if df_empty df then
            match for_each category_defaults
                    (fun nt => append_row "Categories" [PyStr nt.1; PyStr nt.2]) w1 with
            | (Ok _, w2) => (Ok tt, mk_world (book w2) ∅ ∅ ∅ (today w2) (requests_log w2))
            | (Raise e, w2) => (Raise e, w2)
            end
          else (Ok tt, w1)
      | (Raise e, w1) => (Raise e, w1)
      end
  end.
Proof.
  unfold get_or_create_category_sheet_defaults, invalidate_all_data_caches.
  unfold bind at 1, book_worksheet at 1, bind at 1, get_world, ret, raise.
  destruct (book w !! "Categories"); [|reflexivity].
  unfold bind at 1. destruct (read_df X "Categories" w) as [[df|e] w1]; [|reflexivity].
  destruct (df_empty df); [|reflexivity].
  unfold bind at 1, modify. destruct (for_each _ _ w1) as [[[]|e] w2]; reflexivity.
Qed.

Lemma seed_defaults_keeps w res w' :
  R w /\ header_cache_consistent w /\ df_cache_consistent X w ->
  get_or_create_category_sheet_defaults X w = (res, w') ->
  R w' /\ header_cache_consistent w' /\ df_cache_consistent X w'.
Proof using R_frame R_init.
  intros Hcons. rewrite seed_defaults_eq.
  destruct (book w !! "Categories") as [sheet|] eqn:Hb; [|now intros [= <- <-]].
  destruct (read_df X "Categories" w) as [r1 w1] eqn:Hread.
  destruct (read_df_consistent X _ _ _ _ (proj2 (proj2 Hcons)) Hread)
    as (Hb1 & Hr1 & Hh1 & _ & _ & Hd1 & _).
  assert (Hc1 : R w1 /\ header_cache_consistent w1 /\ df_cache_consistent X w1).
  { destruct Hcons as (Hr & Hh & Hd). split; [|split; [|exact Hd1]].
    + revert Hr. now apply R_frame.
    + intros t h. rewrite Hh1, Hb1. apply Hh. }
  destruct r1 as [df|e]; [|now intros [= <- <-]].
  destruct (df_empty df); [|now intros [= <- <-]].
  rewrite (for_each_append_row category_defaults
             (fun nt => [PyStr nt.1; PyStr nt.2]) "Categories" sheet w1)
    by (rewrite ?Hb1; auto).
  cbn [category_defaults].
  intros [= <- <-]. apply caches_cleared.
Qed.

Lemma save_entry_keeps tx_id now f w res w' :
  (forall r wc, _get_rate_from_sheet_cached X (isoformat (entry_date f)) w = (r, wc) -> R wc) ->
  R w /\ header_cache_consistent w /\ df_cache_consistent X w ->
  save_entry X tx_id now f w = (res, w') ->
  R w' /\ header_cache_consistent w' /\ df_cache_consistent X w'.
Proof using R_frame R_init.
  intros Hlookup Hcons. unfold save_entry, rate_and_conversion, invalidate_all_data_caches.
  unfold bind at 1, try_except, bind at 1.
  destruct (get_rate_for_date X (entry_date f) w) as [[r|e] w1] eqn:Hrate;
    pose proof (get_rate_for_date_keeps _ _ _ _ Hlookup Hcons Hrate) as Hc1.
  - unfold ret at 1. cbn [fst snd orb].
    destruct (save_clicked f && negb (entry_amount_eur f <=? 0)%float);
      [|now intros [= <- <-]].
    run_py. destruct (book w1 !! "Transactions") as [sheet|]; [|now intros [= <- <-]].
    destruct (forallb json_ok _); intros [= <- <-]; [|exact Hc1].
    apply caches_cleared.
  - unfold ret at 1. cbn [fst snd orb]. rewrite andb_false_r. now intros [= <- <-].
Qed.

End KeepCaches.

Section WritersKeepCaches.

Variable X : externals.

Lemma rate_cache_sound_frame w w' :
  book w' = book w -> rate_cache w' = rate_cache w ->
  rate_cache_sound X w -> rate_cache_sound X w'.
Proof. intros Hb Hc H k r. rewrite Hc, Hb. apply H. Qed.

Lemma rate_cache_consistent_frame w w' :
  book w' = book w -> rate_cache w' = rate_cache w ->
  rate_cache_consistent X w -> rate_cache_consistent X w'.
Proof. intros Hb Hc H k r. rewrite Hc, Hb. apply H. Qed.

Lemma rate_cache_sound_init bk clock log :
  rate_cache_sound X (mk_world bk ∅ ∅ ∅ clock log).
Proof. intros k v Hk. cbn in Hk. now rewrite lookup_empty in Hk. Qed.

Lemma caches_consistent_sound w : caches_consistent X w -> caches_sound X w.
Proof. intros (Hr & Hh & Hd). split; [|now split]. intros k r. apply Hr. Qed.

(** The cached lookup adds to the cache a rate that the sheet holds, or
    [None]. *)
Lemma cached_lookup_sound d_str w res w' :
  rate_cache_sound X w ->
  _get_rate_from_sheet_cached X d_str w = (res, w') ->
  rate_cache_sound X w'.
Proof.
  intros Hs Hc. apply cached_lookup_cases in Hc.
  destruct Hc as [(v & _ & _ & ->) | [(_ & _ & _ & ->) | (rows & v & _ & Hb & Hv & _ & ->)]];
    [assumption | assumption |].
  intros k r. cbn. rewrite lookup_insert. case_decide; [|apply Hs].
  intros [= Hr]. subst k v. exists rows. split; [exact Hb |]. revert Hr.
  destruct (lookup_raises X _ _); [discriminate | now intros <-].
Qed.

(** When the spreadsheet API does not fail, the [None] that the lookup
    caches says that the sheet holds no rate. *)
Lemma cached_lookup_consistent d_str w res w' :
  lookup_raises X (length (requests_log w)) d_str = false ->
  rate_cache_consistent X w ->
  _get_rate_from_sheet_cached X d_str w = (res, w') ->
  rate_cache_consistent X w'.
Proof.
  intros Hok Hs Hc. apply cached_lookup_cases in Hc.
  destruct Hc as [(v & _ & _ & ->) | [(_ & _ & _ & ->) | (rows & v & _ & Hb & Hv & _ & ->)]];
    [assumption | assumption |].
  rewrite Hok in Hv. intros k r. cbn. rewrite lookup_insert. case_decide; [|apply Hs].
  intros [= <-]. subst k v. eauto.
Qed.

Lemma header_cache_insert_consistent w title sheet :
  caches_consistent X w ->
  book w !! title = Some sheet ->
  caches_consistent X
    (set_header_cache (<[title := ws_row_values1 sheet]> (header_cache w)) w).
Proof.
  apply (header_cache_insert_keeps X (rate_cache_consistent X) rate_cache_consistent_frame).
Qed.

(** X5. When the caches agree with the sheets, [read_df] returns the frame
    of the sheet as it is now, whether the frame comes from the cache or
    from the sheet, and leaves the book alone and the caches in
    agreement. *)
Theorem read_df_is_fresh title w sheet :
  caches_consistent X w ->
  book w !! title = Some sheet ->
  exists w',
    read_df X title w = (Ok (sheet_frame X sheet), w')
    /\ book w' = book w /\ caches_consistent X w'.
Proof.
  intros Hcons Hb.
  destruct (read_df X title w) as [res w'] eqn:Hread.
  destruct (read_df_consistent X _ _ _ _ (proj2 (proj2 Hcons)) Hread)
    as (Hb1 & Hr1 & Hh1 & _ & _ & Hd1 & Hres).
  rewrite Hb in Hres. destruct Hres as [-> _]. exists w'.
  split; [reflexivity|]. split; [exact Hb1|].
  destruct Hcons as (Hr & Hh & Hd). split; [|split; [|exact Hd1]].
  - intros k v. rewrite Hr1, Hb1. apply Hr.
  - intros t h. rewrite Hh1, Hb1. apply Hh.
Qed.

(** X6. The functions that write to the book keep the caches sound,
    whether they return or raise: after [ensure_headers],
    [get_rate_for_date], the seeding of the categories and the rate
    lookup and save of the Entry page, every rate, header row and frame
    in a cache is what the sheets hold, since each ends a write by
    emptying the caches. [ensure_headers] and the seeding also keep the
    caches in full agreement with the sheets, where a cached [None] for a
    date means that the Rates sheet holds no rate for it; the other two
    do so when the lookup in the Rates sheet does not fail (a failed
    lookup is cached as [None], whatever the sheet holds). *)
Theorem writers_keep_caches_consistent w :
  caches_sound X w ->
  (forall title headers res w',
      ensure_headers title headers w = (res, w') ->
      caches_sound X w' /\ (caches_consistent X w -> caches_consistent X w'))
  /\ (forall d res w',
        get_rate_for_date X d w = (res, w') ->
        caches_sound X w'
        /\ (caches_consistent X w ->
            lookup_raises X (length (requests_log w)) (isoformat d) = false ->
            caches_consistent X w'))
  /\ (forall res w',
        get_or_create_category_sheet_defaults X w = (res, w') ->
        caches_sound X w' /\ (caches_consistent X w -> caches_consistent X w'))
  /\ (forall tx_id now f res w',
        save_entry X tx_id now f w = (res, w') ->
        caches_sound X w'
        /\ (caches_consistent X w ->
            lookup_raises X (length (requests_log w)) (isoformat (entry_date f)) = false ->
            caches_consistent X w')).
Proof.
  intros Hsound. split; [|split; [|split]].
  - intros title headers res w' H. split.
    + exact (ensure_headers_keeps X (rate_cache_sound X) rate_cache_sound_frame
               rate_cache_sound_init _ _ _ _ _ Hsound H).
    + intros Hcons.
      exact (ensure_headers_keeps X (rate_cache_consistent X) rate_cache_consistent_frame
               (rate_cache_consistent_init X) _ _ _ _ _ Hcons H).
  - intros d res w' H. split.
    + refine (get_rate_for_date_keeps X (rate_cache_sound X) rate_cache_sound_frame
                rate_cache_sound_init _ _ _ _ _ Hsound H).
      intros r wc. apply cached_lookup_sound, Hsound.
    + intros Hcons Hok.
      refine (get_rate_for_date_keeps X (rate_cache_consistent X)
                rate_cache_consistent_frame (rate_cache_consistent_init X) _ _ _ _ _ Hcons H).
      intros r wc. apply (cached_lookup_consistent _ _ _ _ Hok), Hcons.
  - intros res w' H. split.
    + exact (seed_defaults_keeps X (rate_cache_sound X) rate_cache_sound_frame
               rate_cache_sound_init _ _ _ Hsound H).
    + intros Hcons.
      exact (seed_defaults_keeps X (rate_cache_consistent X) rate_cache_consistent_frame
               (rate_cache_consistent_init X) _ _ _ Hcons H).
  - intros tx_id now f res w' H. split.
    + refine (save_entry_keeps X (rate_cache_sound X) rate_cache_sound_frame
                rate_cache_sound_init _ _ _ _ _ _ _ Hsound H).
      intros r wc. apply cached_lookup_sound, Hsound.
    + intros Hcons Hok.
      refine (save_entry_keeps X (rate_cache_consistent X)
                rate_cache_consistent_frame (rate_cache_consistent_init X)
                _ _ _ _ _ _ _ Hcons H).
      intros r wc. apply (cached_lookup_consistent _ _ _ _ Hok), Hcons.
Qed.

End WritersKeepCaches.


Lemma read_df_is_fresh_witness :
  let X := sample_externals (fun _ _ => http_500) in
  exists w',
    read_df X "Rates" sample_world
    = (Ok (sheet_frame X [rates_header; [PyStr "2026-02-07"; PyFloat 120]]), w')
    /\ book w' = book sample_world /\ caches_consistent X w'.
Proof.
  cbv zeta.
  apply (read_df_is_fresh (sample_externals (fun _ _ => http_500)) "Rates" sample_world).
  - apply caches_consistent_cleared.
  - reflexivity.
Defined.

(** The lookup of 2026-02-07 fails and no provider has its rate on the
    8th: the call raises and leaves a [None] in the cache, although the
    sheet holds 120.0; the caches are sound, and not in full agreement. *)
Lemma writers_keep_caches_consistent_witness :
  let X := flaky_externals net_fallback in
  let w' := snd (get_rate_for_date X feb7 sample_world) in
  caches_sound X w'
  /\ rate_cache w' !! "2026-02-07" = Some None
  /\ exists rows,
       book w' !! "Rates" = Some rows
       /\ rate_in_sheet X rows "2026-02-07" = Some 120%float.
Proof.
  cbv zeta. split; [|split; [vm_compute; reflexivity |]].
  2: { eexists. split; vm_compute; reflexivity. }
  destruct (writers_keep_caches_consistent (flaky_externals net_fallback) sample_world)
    as (_ & Hrate & _).
  - apply caches_consistent_sound, caches_consistent_cleared.
  - eapply Hrate. apply surjective_pairing.
Defined.

(** ** Seeding the categories *)

Section SeedFacts.

Variable X : externals.

(** A sheet with two rows or more, one of which has a cell, is read as a
    frame that is not empty. *)
Lemma sheet_frame_nonempty (sheet : worksheet) (r : list pyval) :
  (2 <= length sheet)%nat -> r ∈ sheet -> r <> [] ->
  df_empty (sheet_frame X sheet) = false.
Proof.
  intros Hlen Hr Hne. destruct sheet as [|hdr [|r1 rest]]; cbn in Hlen; try lia.
  rewrite sheet_frame_long by done. unfold frame_of_rows, df_empty. cbn [index columns].
  rewrite length_fmap, length_imap.
  assert (Hw : (length r <= foldr Nat.max 0 (length <$> hdr :: r1 :: rest))%nat).
  { apply foldr_max_le, list_elem_of_fmap. eauto. }
  rewrite pad_row_length by (apply foldr_max_le; cbn; left).
  destruct (foldr Nat.max 0 (length <$> hdr :: r1 :: rest)); [|reflexivity].
  destruct r; [done|]. cbn in Hw. lia.
Qed.

(** X7. The seeding of the categories, from caches that agree with the
    sheets. It returns. When the Categories sheet reads as an empty frame
    (as it does with fewer than two rows) the ten default rows are
    appended below what the sheet holds, in their order, and every cache
    is emptied; otherwise the book is left alone. A second call changes
    nothing in the book: the defaults are written once. *)
Theorem category_defaults_seeded_once w sheet :
  caches_consistent X w ->
  book w !! "Categories" = Some sheet ->
  let rows := (fun nt : string * string => [PyStr nt.1; PyStr nt.2]) <$> category_defaults in
  exists w1,
    get_or_create_category_sheet_defaults X w = (Ok tt, w1)
    /\ ((length sheet < 2)%nat -> df_empty (sheet_frame X sheet) = true)
    /\ (df_empty (sheet_frame X sheet) = true ->
          book w1 = <["Categories" := sheet ++ rows]> (book w)
          /\ rate_cache w1 = ∅ /\ header_cache w1 = ∅ /\ df_cache w1 = ∅)
    /\ (df_empty (sheet_frame X sheet) = false -> book w1 = book w)
    /\ exists w2,
         get_or_create_category_sheet_defaults X w1 = (Ok tt, w2) /\ book w2 = book w1.
Proof.
  intros Hcons Hb rows.
  assert (Hsecond : forall w1 sheet1,
    caches_consistent X w1 -> book w1 !! "Categories" = Some sheet1 ->
    df_empty (sheet_frame X sheet1) = false ->
    exists w2, get_or_create_category_sheet_defaults X w1 = (Ok tt, w2)
               /\ book w2 = book w1).
  { intros w1 sheet1 Hc1 Hb1 Hne. rewrite seed_defaults_eq, Hb1.
    destruct (read_df X "Categories" w1) as [res w2] eqn:Hread.
    destruct (read_df_consistent X _ _ _ _ (proj2 (proj2 Hc1)) Hread)
      as (Hb2 & _ & _ & _ & _ & _ & Hres).
    rewrite Hb1 in Hres. destruct Hres as [-> _]. rewrite Hne. eauto. }
  rewrite seed_defaults_eq, Hb.
  destruct (read_df X "Categories" w) as [res w1] eqn:Hread.
  destruct (read_df_consistent X _ _ _ _ (proj2 (proj2 Hcons)) Hread)
    as (Hb1 & Hr1 & Hh1 & _ & _ & Hd1 & Hres).
  rewrite Hb in Hres. destruct Hres as [-> _].
  assert (Hc1 : caches_consistent X w1).
  { destruct Hcons as (Hr & Hh & Hd). split; [|split; [|exact Hd1]].
    - intros k v. rewrite Hr1, Hb1. apply Hr.
    - intros t h. rewrite Hh1, Hb1. apply Hh. }
  destruct (df_empty (sheet_frame X sheet)) eqn:He.
  - rewrite (for_each_append_row category_defaults
               (fun nt => [PyStr nt.1; PyStr nt.2]) "Categories" sheet w1)
      by (rewrite ?Hb1; auto).
    cbn [category_defaults]. eexists. split; [reflexivity|].
    split; [auto|]. split; [cbn; rewrite Hb1; auto|]. split; [discriminate|].
    apply (Hsecond _ (sheet ++ rows)).
    + apply caches_consistent_cleared.
    + cbn. now rewrite lookup_insert_eq.
    + apply (sheet_frame_nonempty _ [PyStr "Salary"; PyStr "Income"]); [| |done].
      * rewrite length_app. cbn. lia.
      * apply elem_of_app. right. left.
  - exists w1. split; [reflexivity|].
    split. { intros Hlen. rewrite sheet_frame_short in He by exact Hlen. discriminate. }
    split; [discriminate|]. split; [auto|].
    apply (Hsecond _ sheet); [exact Hc1 | now rewrite Hb1 | exact He].
Qed.

End SeedFacts.


(** A Categories sheet with only its header row gets the ten defaults,
    once. *)
Lemma category_defaults_seeded_once_witness :
  let X := sample_externals (fun _ _ => http_500) in
  let w := mk_world {["Categories" := [headers_row CAT_HEADERS]]} ∅ ∅ ∅ feb7 [] in
  exists w1,
    get_or_create_category_sheet_defaults X w = (Ok tt, w1)
    /\ (length <$> book w1 !! "Categories") = Some 11%nat
    /\ exists w2,
         get_or_create_category_sheet_defaults X w1 = (Ok tt, w2) /\ book w2 = book w1.
Proof.
  cbv zeta.
  destruct (category_defaults_seeded_once (sample_externals (fun _ _ => http_500))
              (mk_world {["Categories" := [headers_row CAT_HEADERS]]} ∅ ∅ ∅ feb7 [])
              [headers_row CAT_HEADERS])
    as (w1 & Hrun & Hshort & Hseed & _ & Hagain).
  - apply caches_consistent_cleared.
  - reflexivity.
  - exists w1. split; [exact Hrun|]. split; [|exact Hagain].
    destruct Hseed as (-> & _); [apply Hshort; cbn; lia|].
    rewrite lookup_insert_eq. reflexivity.
Defined.


(** ** Start-up of the Entry page *)

Section StartupFacts.

Variable X : externals.

(** What [ensure_headers] leaves behind on an existing sheet. *)
Lemma ensure_headers_post title headers w sheet :
  caches_consistent X w ->
  book w !! title = Some sheet ->
  exists w' sheet',
    ensure_headers title headers w = (Ok tt, w')
    /\ caches_consistent X w'
    /\ book w' = <[title := sheet']> (book w)
    /\ ws_row_values1 sheet' = headers_row headers
    /\ (ws_row_values1 sheet = headers_row headers -> sheet' = sheet)
    /\ (sheet' = sheet \/ sheet' = [headers_row headers]).
Proof.
  intros Hcons Hb.
  pose proof (header_seen_actual w title sheet (proj1 (proj2 Hcons)) Hb) as Hseen.
  destruct (row_eqb (ws_row_values1 sheet) headers) eqn:E.
  - pose proof (proj1 (row_eqb_eq _ _) E) as Heq.
    rewrite (ensure_headers_match title headers w sheet _ Hb Hseen Heq).
    eexists _, sheet. split; [reflexivity|].
    split; [now apply header_cache_insert_consistent|].
    split; [cbn; now rewrite insert_id|]. auto.
  - assert (Hne : ws_row_values1 sheet <> headers_row headers).
    { intros Heq. apply row_eqb_eq in Heq. congruence. }
    rewrite (ensure_headers_mismatch title headers w sheet _ Hb Hseen Hne).
    eexists _, [headers_row headers]. split; [reflexivity|].
    split; [apply caches_consistent_cleared|]. split; [reflexivity|].
    split; [reflexivity|]. split; [done | auto].
Qed.

(** X8. After [ensure_headers] on an existing sheet, from caches that agree
    with the sheets, the first row of the sheet is the expected header
    row, and a second call leaves the book as the first one left it. *)
Theorem ensure_headers_idempotent title headers w sheet :
  caches_consistent X w ->
  book w !! title = Some sheet ->
  exists w1 w2,
    ensure_headers title headers w = (Ok tt, w1)
    /\ ws_row_values1 <$> book w1 !! title = Some (headers_row headers)
    /\ ensure_headers title headers w1 = (Ok tt, w2)
    /\ book w2 = book w1.
Proof.
  intros Hcons Hb.
  destruct (ensure_headers_post title headers w sheet Hcons Hb)
    as (w1 & sheet1 & H1 & Hc1 & Hb1 & Hrow1 & _).
  assert (Hs1 : book w1 !! title = Some sheet1) by (now rewrite Hb1, lookup_insert_eq).
  destruct (ensure_headers_post title headers w1 sheet1 Hc1 Hs1)
    as (w2 & sheet2 & H2 & _ & Hb2 & _ & Hsame & _).
  exists w1, w2. split; [exact H1|]. split; [now rewrite Hs1; cbn; rewrite Hrow1|].
  split; [exact H2|]. rewrite Hb2, (Hsame Hrow1). now apply insert_id.
Qed.

(** What the seeding leaves behind. *)
Lemma seed_defaults_post w sheet :
  caches_consistent X w ->
  book w !! "Categories" = Some sheet ->
  let rows := (fun nt : string * string => [PyStr nt.1; PyStr nt.2]) <$> category_defaults in
  exists w' sheet',
    get_or_create_category_sheet_defaults X w = (Ok tt, w')
    /\ caches_consistent X w'
    /\ book w' = <["Categories" := sheet']> (book w)
    /\ df_empty (sheet_frame X sheet') = false
    /\ (if df_empty (sheet_frame X sheet) then sheet' = sheet ++ rows else sheet' = sheet).
Proof.
  intros Hcons Hb rows. rewrite seed_defaults_eq, Hb.
  destruct (read_df X "Categories" w) as [res w1] eqn:Hread.
  destruct (read_df_consistent X _ _ _ _ (proj2 (proj2 Hcons)) Hread)
    as (Hb1 & Hr1 & Hh1 & _ & _ & Hd1 & Hres).
  rewrite Hb in Hres. destruct Hres as [-> _].
  assert (Hc1 : caches_consistent X w1).
  { destruct Hcons as (Hr & Hh & Hd). split; [|split; [|exact Hd1]].
    - intros k v. rewrite Hr1, Hb1. apply Hr.
    - intros t h. rewrite Hh1, Hb1. apply Hh. }
  destruct (df_empty (sheet_frame X sheet)) eqn:He.
  - rewrite (for_each_append_row category_defaults
               (fun nt => [PyStr nt.1; PyStr nt.2]) "Categories" sheet w1)
      by (rewrite ?Hb1; auto).
    cbn [category_defaults]. eexists _, (sheet ++ rows). split; [reflexivity|].
    split; [apply caches_consistent_cleared|]. split; [cbn; now rewrite Hb1|].
    split; [|reflexivity].
    apply (sheet_frame_nonempty _ _ [PyStr "Salary"; PyStr "Income"]); [| |done].
    + rewrite length_app. cbn. lia.
    + apply elem_of_app. right. left.
  - exists w1, sheet. split; [reflexivity|]. split; [exact Hc1|].
    split; [now rewrite Hb1, insert_id|]. auto.
Qed.

Lemma entry_startup_eq w :
  entry_startup X w =
  match ensure_headers "Transactions" TX_HEADERS w with
  | (Ok _, w1) =>
      match ensure_headers "Categories" CAT_HEADERS w1 with
      | (Ok _, w2) =>
          match ensure_headers "Rates" RATE_HEADERS w2 with
          | (Ok _, w3) => get_or_create_category_sheet_defaults X w3
          | (Raise e, w3) => (Raise e, w3)
          end
      | (Raise e, w2) => (Raise e, w2)
      end
  | (Raise e, w1) => (Raise e, w1)
  end.
Proof.
  unfold entry_startup, bind.
  destruct (ensure_headers "Transactions" TX_HEADERS w) as [[[]|e] w1]; [|reflexivity].
  destruct (ensure_headers "Categories" CAT_HEADERS w1) as [[[]|e] w2]; [|reflexivity].
  destruct (ensure_headers "Rates" RATE_HEADERS w2) as [[[]|e] w3]; reflexivity.
Qed.

(** One start-up, sheet by sheet. *)
Lemma entry_startup_run w tx cats rates :
  caches_consistent X w ->
  book w !! "Transactions" = Some tx ->
  book w !! "Categories" = Some cats ->
  book w !! "Rates" = Some rates ->
  exists w' tx' cats' rates',
    entry_startup X w = (Ok tt, w')
    /\ caches_consistent X w'
    /\ book w' !! "Transactions" = Some tx'
    /\ book w' !! "Categories" = Some cats'
    /\ book w' !! "Rates" = Some rates'
    /\ (forall t, t <> "Transactions" -> t <> "Categories" -> t <> "Rates" ->
          book w' !! t = book w !! t)
    /\ ws_row_values1 tx' = headers_row TX_HEADERS
    /\ ws_row_values1 cats' = headers_row CAT_HEADERS
    /\ ws_row_values1 rates' = headers_row RATE_HEADERS
    /\ df_empty (sheet_frame X cats') = false
    /\ (ws_row_values1 tx = headers_row TX_HEADERS -> tx' = tx)
    /\ (ws_row_values1 rates = headers_row RATE_HEADERS -> rates' = rates)
    /\ (ws_row_values1 cats = headers_row CAT_HEADERS ->
          df_empty (sheet_frame X cats) = false -> cats' = cats).
Proof.
  intros Hc0 Ht Hcat Hr. rewrite entry_startup_eq.
  destruct (ensure_headers_post "Transactions" TX_HEADERS w tx Hc0 Ht)
    as (w1 & tx1 & -> & Hc1 & Hb1 & Hrow1 & Hsame1 & _).
  assert (Hcat1 : book w1 !! "Categories" = Some cats)
    by (rewrite Hb1, lookup_insert_ne by done; exact Hcat).
  destruct (ensure_headers_post "Categories" CAT_HEADERS w1 cats Hc1 Hcat1)
    as (w2 & cats2 & -> & Hc2 & Hb2 & Hrow2 & Hsame2 & _).
  assert (Hr2 : book w2 !! "Rates" = Some rates).
  { rewrite Hb2, lookup_insert_ne by done. rewrite Hb1, lookup_insert_ne by done.
    exact Hr. }
  destruct (ensure_headers_post "Rates" RATE_HEADERS w2 rates Hc2 Hr2)
    as (w3 & rates3 & -> & Hc3 & Hb3 & Hrow3 & Hsame3 & _).
  assert (Hcat3 : book w3 !! "Categories" = Some cats2).
  { rewrite Hb3, lookup_insert_ne by done. now rewrite Hb2, lookup_insert_eq. }
  destruct (seed_defaults_post w3 cats2 Hc3 Hcat3)
    as (w4 & cats4 & -> & Hc4 & Hb4 & Hne4 & Hseed).
  exists w4, tx1, cats4, rates3. split; [reflexivity|]. split; [exact Hc4|].
  split. { rewrite Hb4, lookup_insert_ne by done. rewrite Hb3, lookup_insert_ne by done.
           rewrite Hb2, lookup_insert_ne by done. now rewrite Hb1, lookup_insert_eq. }
  split. { now rewrite Hb4, lookup_insert_eq. }
  split. { rewrite Hb4, lookup_insert_ne by done. now rewrite Hb3, lookup_insert_eq. }
  split. { intros t H1 H2 H3. rewrite Hb4, lookup_insert_ne by done.
           rewrite Hb3, lookup_insert_ne by done. rewrite Hb2, lookup_insert_ne by done.
           now rewrite Hb1, lookup_insert_ne. }
  split; [exact Hrow1|]. split.
  { destruct (df_empty (sheet_frame X cats2)); subst cats4; [|exact Hrow2].
    destruct cats2 as [|h rest]; [discriminate Hrow2 | exact Hrow2]. }
  split; [exact Hrow3|]. split; [exact Hne4|]. split; [exact Hsame1|].
  split; [exact Hsame3|].
  intros Hh He. rewrite (Hsame2 Hh) in Hseed. now rewrite He in Hseed.
Qed.

(** X9. The start-up of the Entry page on a book that has the three
    sheets, from caches that agree with them. It returns; afterwards each
    sheet begins with its header row and the Categories sheet reads as a
    frame that is not empty; a Transactions or Rates sheet that already
    began with its header row is kept as it was; and a second start-up
    changes nothing in the book. *)
Theorem entry_startup_idempotent w tx cats rates :
  caches_consistent X w ->
  book w !! "Transactions" = Some tx ->
  book w !! "Categories" = Some cats ->
  book w !! "Rates" = Some rates ->
  exists w1 w2,
    entry_startup X w = (Ok tt, w1)
    /\ ws_row_values1 <$> book w1 !! "Transactions" = Some (headers_row TX_HEADERS)
    /\ ws_row_values1 <$> book w1 !! "Categories" = Some (headers_row CAT_HEADERS)
    /\ ws_row_values1 <$> book w1 !! "Rates" = Some (headers_row RATE_HEADERS)
    /\ (exists cats1, book w1 !! "Categories" = Some cats1
                      /\ df_empty (sheet_frame X cats1) = false)
    /\ (ws_row_values1 tx = headers_row TX_HEADERS -> book w1 !! "Transactions" = Some tx)
    /\ (ws_row_values1 rates = headers_row RATE_HEADERS -> book w1 !! "Rates" = Some rates)
    /\ entry_startup X w1 = (Ok tt, w2)
    /\ book w2 = book w1.
Proof.
  intros Hc Ht Hcat Hr.
  destruct (entry_startup_run w tx cats rates Hc Ht Hcat Hr)
    as (w1 & tx1 & cats1 & rates1 & H1 & Hc1 & Ht1 & Hcat1 & Hr1 & Hoth1
        & Hrt & Hrc & Hrr & Hne & Hkt & Hkr & _).
  destruct (entry_startup_run w1 tx1 cats1 rates1 Hc1 Ht1 Hcat1 Hr1)
    as (w2 & tx2 & cats2 & rates2 & H2 & _ & Ht2 & Hcat2 & Hr2 & Hoth2
        & _ & _ & _ & _ & Hkt2 & Hkr2 & Hkc2).
  exists w1, w2. split; [exact H1|].
  split; [now rewrite Ht1; cbn; rewrite Hrt|].
  split; [now rewrite Hcat1; cbn; rewrite Hrc|].
  split; [now rewrite Hr1; cbn; rewrite Hrr|].
  split; [eauto|].
  split; [intros H; now rewrite Ht1, (Hkt H)|].
  split; [intros H; now rewrite Hr1, (Hkr H)|].
  split; [exact H2|].
  apply map_eq. intros t.
  destruct (decide (t = "Transactions")) as [->|Hn1];
    [now rewrite Ht2, Ht1, (Hkt2 Hrt)|].
  destruct (decide (t = "Categories")) as [->|Hn2];
    [now rewrite Hcat2, Hcat1, (Hkc2 Hrc Hne)|].
  destruct (decide (t = "Rates")) as [->|Hn3];
    [now rewrite Hr2, Hr1, (Hkr2 Hrr)|].
  now apply Hoth2.
Qed.

End StartupFacts.


(** A Rates sheet whose header row lacks a column is rewritten once. *)
Lemma ensure_headers_idempotent_witness :
  let X := sample_externals (fun _ _ => http_500) in
  let w := fresh_world [[PyStr "date"]; [PyStr "2026-02-07"; PyFloat 130]] feb7 in
  exists w1 w2,
    ensure_headers "Rates" RATE_HEADERS w = (Ok tt, w1)
    /\ ws_row_values1 <$> book w1 !! "Rates" = Some (headers_row RATE_HEADERS)
    /\ ensure_headers "Rates" RATE_HEADERS w1 = (Ok tt, w2)
    /\ book w2 = book w1.
Proof.
  cbv zeta.
  apply (ensure_headers_idempotent (sample_externals (fun _ _ => http_500)) "Rates"
           RATE_HEADERS _ [[PyStr "date"]; [PyStr "2026-02-07"; PyFloat 130]]).
  - apply caches_consistent_cleared.
  - reflexivity.
Defined.

(** The sample book passes the start-up unchanged, twice. *)
Lemma entry_startup_idempotent_witness :
  let X := sample_externals (fun _ _ => http_500) in
  exists w1 w2,
    entry_startup X sample_world = (Ok tt, w1)
    /\ book w1 !! "Transactions" = Some [tx_header]
    /\ book w1 !! "Rates" = Some [rates_header; [PyStr "2026-02-07"; PyFloat 120]]
    /\ entry_startup X w1 = (Ok tt, w2)
    /\ book w2 = book w1.
Proof.
  cbv zeta.
  destruct (entry_startup_idempotent (sample_externals (fun _ _ => http_500)) sample_world
              [tx_header]
              [headers_row CAT_HEADERS; [PyStr "Rent"; PyStr "Expense"]]
              [rates_header; [PyStr "2026-02-07"; PyFloat 120]])
    as (w1 & w2 & H1 & _ & _ & _ & _ & Ht & Hr & H2 & Hb).
  - apply caches_consistent_cleared.
  - reflexivity.
  - reflexivity.
  - reflexivity.
  - exists w1, w2. split; [exact H1|]. split; [now apply Ht|]. split; [now apply Hr|].
    split; [exact H2 | exact Hb].
Defined.


(** ** Entry page: what the rate lookup and the save button write *)

Section EntryEffects.

Variable X : externals.

(** Rate resolution touches no sheet but Rates. *)
Lemma get_rate_for_date_other_sheets d w res w' t :
  get_rate_for_date X d w = (res, w') -> t <> "Rates" -> book w' !! t = book w !! t.
Proof.
  intros H Ht. revert H. rewrite get_rate_for_date_eq.
  destruct (_get_rate_from_sheet_cached X (isoformat d) w) as [[existing|e] wc] eqn:Hc;
    pose proof (cached_lookup_only_caches _ _ _ _ _ Hc) as Hwc.
  - destruct existing as [r|]; [intros [= <- <-]; now rewrite Hwc|].
    destruct (_fetch_eur_to_bdt_rate X d wc) as [[rate|e] wf] eqn:Hf;
      pose proof (fetch_only_logs _ _ _ _ _ Hf) as Hwf.
    + destruct (book wf !! "Rates"); [destruct (is_finite rate)|]; intros [= <- <-];
        rewrite Hwf, Hwc; cbn; [|reflexivity..].
      now rewrite lookup_insert_ne.
    + intros [= <- <-]. now rewrite Hwf, Hwc.
  - intros [= <- <-]. now rewrite Hwc.
Qed.

(** The control flow of the save button, with the monad unfolded. *)
Lemma save_entry_eq tx_id now f w :
  save_entry X tx_id now f w =
  match get_rate_for_date X (entry_date f) w with
  | (Ok r, w1) =>
      if save_clicked f && negb (entry_amount_eur f <=? 0)%float then
        let new_row :=
          [PyStr tx_id; PyStr (isoformat (entry_date f)); PyStr (entry_type f);
           PyStr (entry_category f); PyStr (entry_remarks f);
           PyFloat (entry_amount_eur f); PyFloat r;
           PyFloat (entry_amount_eur f * r)%float; PyStr now] in
        match book w1 !! "Transactions" with
        | Some sheet =>
            if forallb json_ok new_row then
              (Ok (Some new_row),
               mk_world (<["Transactions" := sheet ++ [new_row]]> (book w1)) ∅ ∅ ∅
                        (today w1) (requests_log w1))
            else (Raise "Out of range float values are not JSON compliant", w1)
        | None => (Raise "Transactions", w1)
        end
      else (Ok None, w1)
  | (Raise e, w1) => (Ok None, w1)
  end.
Proof.
  unfold save_entry, rate_and_conversion, invalidate_all_data_caches.
  unfold bind at 1, try_except, bind at 1.
  destruct (get_rate_for_date X (entry_date f) w) as [[r|e] w1].
  - unfold ret at 1. cbn [fst snd orb].
    destruct (save_clicked f && negb (entry_amount_eur f <=? 0)%float); [|reflexivity].
    run_py. cbv zeta. destruct (book w1 !! "Transactions") as [sheet|]; [|reflexivity].
    destruct (forallb json_ok _); reflexivity.
  - unfold ret at 1. cbn [fst snd orb]. rewrite andb_false_r. reflexivity.
Qed.

(** X10. The save is blocked at the boundary. In the part of the Entry
    page that looks up the rate and handles the save button (what the
    page runs after its start-up and its inputs), when rate resolution
    raises, when the amount is not positive or when the button was not
    pressed, that part returns without a row and without raising; the
    state it ends in is the one rate resolution left, and the
    Transactions sheet is as it was when the part began. *)
Theorem save_entry_blocked tx_id now f w res w' :
  save_entry X tx_id now f w = (res, w') ->
  (exists e, fst (get_rate_for_date X (entry_date f) w) = Raise e)
  \/ (entry_amount_eur f <=? 0)%float = true
  \/ save_clicked f = false ->
  res = Ok None
  /\ w' = snd (get_rate_for_date X (entry_date f) w)
  /\ book w' !! "Transactions" = book w !! "Transactions".
Proof.
  rewrite save_entry_eq.
  destruct (get_rate_for_date X (entry_date f) w) as [[r|e] w1] eqn:Hrate; cbn [fst snd].
  - intros H [[e [=]] | Hoff].
    assert (Hc : save_clicked f && negb (entry_amount_eur f <=? 0)%float = false).
    { destruct Hoff as [-> | ->]; [apply andb_false_r | reflexivity]. }
    rewrite Hc in H. injection H as <- <-. repeat split.
    eapply get_rate_for_date_other_sheets; [exact Hrate | done].
  - intros [= <- <-] _. repeat split.
    eapply get_rate_for_date_other_sheets; [exact Hrate | done].
Qed.

(** X11. What the part of the Entry page that looks up the rate and
    handles the save button does to the book, from the state in which it
    begins. Sheets other than Transactions and Rates are not touched by
    it. When it saves, the Transactions sheet gains exactly the returned
    row below its former rows; the row has nine cells, which begin with
    the id, the ISO date, the type, the category and the remarks and end
    with the time of the click; and every cache is emptied. In every
    other outcome, a raise included, it leaves the Transactions sheet as
    it was. *)
Theorem save_entry_appends_one_row tx_id now f w res w' :
  save_entry X tx_id now f w = (res, w') ->
  (forall t, t <> "Transactions" -> t <> "Rates" -> book w' !! t = book w !! t)
  /\ match res with
     | Ok (Some new_row) =>
         exists sheet,
           book w !! "Transactions" = Some sheet
           /\ book w' !! "Transactions" = Some (sheet ++ [new_row])
           /\ length new_row = 9%nat
           /\ row_cell new_row 1 = PyStr tx_id
           /\ row_cell new_row 2 = PyStr (isoformat (entry_date f))
           /\ row_cell new_row 3 = PyStr (entry_type f)
           /\ row_cell new_row 4 = PyStr (entry_category f)
           /\ row_cell new_row 5 = PyStr (entry_remarks f)
           /\ row_cell new_row 9 = PyStr now
           /\ save_clicked f = true
           /\ rate_cache w' = ∅ /\ header_cache w' = ∅ /\ df_cache w' = ∅
     | _ => book w' !! "Transactions" = book w !! "Transactions"
     end.
Proof.
  rewrite save_entry_eq.
  destruct (get_rate_for_date X (entry_date f) w) as [[r|e] w1] eqn:Hrate.
  - pose proof (fun t => get_rate_for_date_other_sheets _ _ _ _ t Hrate) as Hoth.
    destruct (save_clicked f) eqn:Hclick; cbn [andb];
      [destruct (negb (entry_amount_eur f <=? 0)%float)|];
      try (intros [= <- <-]; split; [intros t _ Ht; now apply Hoth | now apply Hoth]).
    cbv zeta. destruct (book w1 !! "Transactions") as [sheet|] eqn:Hb;
      [destruct (forallb json_ok _)|];
      try (intros [= <- <-]; split; [intros t _ Ht; now apply Hoth | now apply Hoth]).
    intros [= <- <-]. split.
    + intros t Ht1 Ht2. cbn. rewrite lookup_insert_ne by done. now apply Hoth.
    + exists sheet. rewrite <- Hoth by done. split; [exact Hb|]. cbn.
      rewrite lookup_insert_eq. repeat split; reflexivity.
  - pose proof (fun t => get_rate_for_date_other_sheets _ _ _ _ t Hrate) as Hoth.
    intros [= <- <-]. split; [intros t _ Ht; now apply Hoth | now apply Hoth].
Qed.

(** X12. On a frame that is not empty the status line of the Entry page
    and the summary of the monthly report are the same computation:
    income, expense and the debt balance of the one are income, expense
    and debt-net of the other, savings are net, and when one raises so
    does the other, with the same error. *)
Theorem entry_top_status_matches_monthly_summary tx_df :
  df_empty tx_df = false ->
  entry_top_status X tx_df =
  match monthly_summary X tx_df with
  | Ok s =>
      Ok (mk_top_status (income_eur s) (expense_eur s) (debt_net_eur s)
                        (income_bdt s) (expense_bdt s) (debt_net_bdt s)
                        (net_eur s) (net_bdt s))
  | Raise e => Raise e
  end.
Proof.
  intros He. unfold entry_top_status, monthly_summary. rewrite He.
  repeat (match goal with
          | |- context [sum_where X tx_df ?t ?c] =>
              destruct (sum_where X tx_df t c); cbn [and_then]; [|reflexivity]
          end).
  reflexivity.
Qed.

End EntryEffects.


(** On 2026-02-08 no provider has the rate of 2026-02-09: the click on
    the save button writes nothing. *)
Lemma save_entry_blocked_witness :
  let X := sample_externals (fun _ _ => http_500) in
  let f := mk_entry_form "Income" "Salary" (mk_date 2026 2 9) "" 100 true in
  let out := save_entry X "TX-20260208-101500-9F3A" "2026-02-08T10:15:00" f sample_world in
  fst out = Ok None
  /\ book (snd out) !! "Transactions" = Some [tx_header].
Proof.
  cbv zeta.
  destruct (save_entry_blocked (sample_externals (fun _ _ => http_500))
              "TX-20260208-101500-9F3A" "2026-02-08T10:15:00"
              (mk_entry_form "Income" "Salary" (mk_date 2026 2 9) "" 100 true) sample_world
              _ _ (surjective_pairing _))
    as (Hres & _ & Hbook).
  - left. eexists. vm_compute. reflexivity.
  - split; [exact Hres|]. rewrite Hbook. reflexivity.
Defined.

(** 100.0 EUR on 2026-02-07, for which the sample book has the rate
    120.0: the row is the new last row of Transactions. *)
Lemma save_entry_appends_one_row_witness :
  let X := sample_externals (fun _ _ => http_500) in
  let f := mk_entry_form "Income" "Salary" feb7 "" 100 true in
  let out := save_entry X "TX-20260208-101500-9F3A" "2026-02-08T10:15:00" f sample_world in
  exists new_row,
    fst out = Ok (Some new_row)
    /\ book (snd out) !! "Transactions" = Some [tx_header; new_row]
    /\ book (snd out) !! "Categories" = book sample_world !! "Categories".
Proof.
  cbv zeta.
  set (X := sample_externals (fun _ _ => http_500)).
  set (f := mk_entry_form _ _ _ _ _ _).
  set (new_row := [PyStr "TX-20260208-101500-9F3A"; PyStr "2026-02-07"; PyStr "Income";
                   PyStr "Salary"; PyStr ""; PyFloat 100; PyFloat 120; PyFloat 12000;
                   PyStr "2026-02-08T10:15:00"]).
  destruct (save_entry_appends_one_row X "TX-20260208-101500-9F3A" "2026-02-08T10:15:00"
              f sample_world (Ok (Some new_row))
              (snd (save_entry X "TX-20260208-101500-9F3A" "2026-02-08T10:15:00"
                      f sample_world)))
    as (Hoth & sheet & Hb & Hb' & _).
  - apply pair_eta_fst. vm_compute. reflexivity.
  - exists new_row. split; [vm_compute; reflexivity|]. split.
    + rewrite Hb'. injection Hb as <-. reflexivity.
    + apply Hoth; discriminate.
Defined.

Lemma entry_top_status_matches_monthly_summary_witness :
  entry_top_status (sample_externals (fun _ _ => http_500)) month_100_40
  = Ok (mk_top_status 100 40 0 12000 4800 0 60 7200).
Proof.
  rewrite (entry_top_status_matches_monthly_summary
             (sample_externals (fun _ _ => http_500)) month_100_40 eq_refl).
  vm_compute. reflexivity.
Defined.


(** ** The normaliser: labels and a second pass *)

Lemma assoc_get_None {A : Type} (k : string) (l : list (string * A)) :
  assoc_get k l = None <-> k ∉ fst <$> l.
Proof.
  induction l as [|[k0 v0] l IH]; cbn.
  - split; [intros _ H; by apply elem_of_nil in H | done].
  - rewrite not_elem_of_cons. destruct (String.eqb_spec k k0) as [->|Hk].
    + split; [discriminate | intros [? _]; done].
    + rewrite IH. tauto.
Qed.

Lemma assoc_set_id {A : Type} (k : string) (v : A) (l : list (string * A)) :
  assoc_get k l = Some v -> assoc_set k v l = l.
Proof.
  induction l as [|[k0 v0] l IH]; cbn; [discriminate|].
  destruct (String.eqb_spec k k0) as [->|Hk].
  - now intros [= ->].
  - intros H. now rewrite IH.
Qed.

Lemma assoc_set_labels {A : Type} (k : string) (v : A) (l : list (string * A)) :
  fst <$> assoc_set k v l
  = if assoc_get k l is Some _ then fst <$> l else (fst <$> l) ++ [k].
Proof.
  induction l as [|[k0 v0] l IH]; cbn; [reflexivity|].
  destruct (String.eqb_spec k k0) as [->|Hk]; cbn; [reflexivity|].
  rewrite IH. now destruct (assoc_get k l).
Qed.

Section NormalizeLabels.

Variable P : pandas.



Lemma df_set_present df k c :
  is_Some (col_of df k) -> df_labels (df_set df k c) = df_labels df.
Proof.
  intros [c0 H]. unfold df_labels, df_set. cbn [columns]. rewrite assoc_set_labels.
  unfold col_of in H. now rewrite H.
Qed.

Lemma add_missing_labels cols df :
  NoDup cols ->
  df_labels (add_missing cols df)
  = df_labels df ++ List.filter (fun c => negb (df_has df c)) cols.
Proof.
  revert df. induction cols as [|c cs IH]; intros df Hnd.
  - cbn. now rewrite app_nil_r.
  - apply NoDup_cons in Hnd as [Hc Hnd].
    change (add_missing (c :: cs) df)
      with (add_missing cs (if df_has df c then df else df_set_scalar df c "")).
    rewrite IH by exact Hnd. cbn [List.filter].
    destruct (df_has df c) eqn:Ec; cbn [negb]; [reflexivity|].
    unfold df_set_scalar, df_labels at 1, df_set. cbn [columns].
    rewrite assoc_set_labels. unfold df_has in Ec.
    destruct (assoc_get c (columns df)) eqn:Eg; [discriminate|].
    rewrite <- app_assoc. cbn. f_equal. f_equal.
    apply List.filter_ext_in. intros x Hx%list_elem_of_In.
    unfold df_has. cbn [columns]. rewrite assoc_get_set.
    destruct (String.eqb_spec x c) as [->|_]; [done | reflexivity].
Qed.

Lemma convert_cols_labels (f : column -> column) cols df out :
  convert_cols f cols df = Ok out -> df_labels out = df_labels df.
Proof.
  revert df. induction cols as [|c cs IH]; intros df; cbn [convert_cols].
  - now intros [= ->].
  - unfold df_get. destruct (assoc_get c (columns df)) as [cc|] eqn:Ec; [|discriminate].
    cbn [and_then]. intros H. rewrite (IH _ H). apply df_set_present.
    unfold col_of. rewrite Ec. eauto.
Qed.

Lemma convert_cols_fix (f : column -> column) cols df :
  (forall c, c ∈ cols -> exists v, col_of df c = Some v /\ f v = v) ->
  convert_cols f cols df = Ok df.
Proof.
  induction cols as [|c cs IH]; intros H; [reflexivity|]. cbn [convert_cols].
  destruct (H c) as (v & Hv & Hf); [left|]. unfold df_get. unfold col_of in Hv.
  rewrite Hv. cbn [and_then]. rewrite Hf.
  replace (df_set df c v) with df.
  - apply IH. intros c' Hc'. apply H. now right.
  - unfold df_set. rewrite assoc_set_id by exact Hv. now destruct df.
Qed.

Lemma add_missing_present cols df :
  (forall c, c ∈ cols -> is_Some (col_of df c)) -> add_missing cols df = df.
Proof.
  induction cols as [|c cs IH]; intros H; [reflexivity|].
  change (add_missing (c :: cs) df)
    with (add_missing cs (if df_has df c then df else df_set_scalar df c "")).
  destruct (H c) as [v Hv]; [left|]. unfold df_has. unfold col_of in Hv. rewrite Hv.
  apply IH. intros c' Hc'. apply H. now right.
Qed.

Lemma fillna0_to_numeric_fix (c : column) :
  let v := fillna0 (to_numeric P c) in fillna0 (to_numeric P v) = v.
Proof.
  assert (H : forall l : list float,
    (fun x => if is_nan x then 0%float else x) <$>
      ((fun x => if is_nan x then 0%float else x) <$> l)
    = (fun x => if is_nan x then 0%float else x) <$> l).
  { intros l. rewrite <- list_fmap_compose. apply list_fmap_ext. intros i x _. cbn.
    destruct (is_nan x) eqn:E; [reflexivity | now rewrite E]. }
  destruct c as [l|k l|l|l]; cbn; try (now rewrite H); try reflexivity.
  destruct (int_dtype P l); cbn; [reflexivity | now rewrite H].
Qed.

(** X13. When the conversion of the date column returns, the normaliser
    returns for a frame that is not empty; it keeps the columns of the
    frame where they are and puts the required columns that the frame
    lacks after them, in the order of the required list; the labels stay
    distinct and the rows are as many as before. When the conversion of
    the date column raises, so does the normaliser. *)
Theorem normalize_keeps_labels_in_place df :
  df_empty df = false ->
  NoDup (df_labels df) ->
  (datetime_error P (input_col df "date") = None ->
   exists out,
     normalize_transactions_df P df = Ok out
     /\ df_labels out
        = df_labels df ++ List.filter (fun c => negb (df_has df c)) required_cols
     /\ NoDup (df_labels out)
     /\ index out = index df)
  /\ (forall e, datetime_error P (input_col df "date") = Some e ->
        normalize_transactions_df P df = Raise e).
Proof.
  intros Hne Hnd. split.
  2:{ intros e He. pose proof (normalize_columns P df Hne) as H. now rewrite He in H. }
  intros Hdate.
  destruct (normalize_returns P df Hne Hdate) as (out & Hout & Hidx & _).
  exists out. split; [exact Hout|].
  assert (Hl : df_labels out
               = df_labels df ++ List.filter (fun c => negb (df_has df c)) required_cols).
  { revert Hout. unfold normalize_transactions_df. rewrite Hne.
    unfold df_get at 1.
    destruct (assoc_get "date" (columns (add_missing required_cols df))) as [dc|] eqn:Ed;
      [|discriminate].
    cbn [and_then].
    destruct (to_datetime P dc) as [dc'|e] eqn:Edc; [|discriminate].
    cbn [and_then].
    destruct (convert_cols _ amount_cols _) as [df2|e] eqn:H2; [|discriminate].
    cbn [and_then]. intros H3.
    rewrite (convert_cols_labels _ _ _ _ H3), (convert_cols_labels _ _ _ _ H2).
    rewrite df_set_present by (unfold col_of; rewrite Ed; eauto).
    apply add_missing_labels. compute_done. }
  split; [exact Hl|]. split; [|exact Hidx].
  rewrite Hl. apply NoDup_app. split; [exact Hnd|]. split.
  - intros x Hx Hf%list_elem_of_In. apply List.filter_In in Hf as [_ Hf].
    apply negb_true_iff in Hf. unfold df_has in Hf.
    destruct (assoc_get x (columns df)) eqn:Eg; [discriminate|].
    apply assoc_get_None in Eg. done.
  - apply NoDup_ListNoDup, List.NoDup_filter, NoDup_ListNoDup. compute_done.
Qed.

(** X14. Normalising twice is normalising once: the result of the
    normaliser is returned unchanged when it is normalised again. *)
Theorem normalize_idempotent df out :
  normalize_transactions_df P df = Ok out ->
  normalize_transactions_df P out = Ok out.
Proof.
  intros Hout. destruct (df_empty df) eqn:Hne.
  { unfold normalize_transactions_df in Hout. rewrite Hne in Hout.
    injection Hout as <-. unfold normalize_transactions_df. now rewrite Hne. }
  destruct (normalize_columns_ok P df out Hne Hout) as (_ & Hidx & Hcols).
  assert (Hreq : forall k, k ∈ required_cols -> is_Some (col_of out k)).
  { intros k Hk. rewrite Hcols. unfold normalized_col.
    repeat case_bool_decide; eauto.
    exfalso. revert Hk. unfold required_cols. revert H H0 H1.
    unfold amount_cols, text_cols. rewrite !elem_of_cons. tauto. }
  assert (Hne' : df_empty out = false).
  { unfold df_empty in *. rewrite Hidx.
    apply orb_false_iff in Hne as [Hi _]. rewrite Hi. cbn.
    destruct (Hreq "date") as [c Hc]; [compute_done|]. unfold col_of in Hc.
    destruct (columns out); [discriminate | reflexivity]. }
  unfold normalize_transactions_df. rewrite Hne'.
  rewrite add_missing_present by exact Hreq.
  unfold df_get at 1. fold (col_of out "date").
  rewrite Hcols, normalized_col_date. cbn [and_then].
  assert (Hd : to_datetime P (datetime_values P (input_col df "date"))
               = Ok (datetime_values P (input_col df "date"))).
  { now destruct (input_col df "date"). }
  rewrite Hd. cbn [and_then].
  replace (df_set out "date" (datetime_values P (input_col df "date"))) with out.
  2:{ unfold df_set. rewrite assoc_set_id; [now destruct out|].
      fold (col_of out "date"). now rewrite Hcols, normalized_col_date. }
  rewrite convert_cols_fix.
  2:{ intros c Hc. rewrite Hcols, normalized_col_amount by exact Hc.
      eexists. split; [reflexivity|]. apply fillna0_to_numeric_fix. }
  cbn [and_then]. apply convert_cols_fix.
  intros c Hc. rewrite Hcols, normalized_col_text by exact Hc.
  eexists. split; [reflexivity|]. now destruct (input_col df c).
Qed.

End NormalizeLabels.


(** The remarks column, which the raw rows lack, goes last. *)
Lemma normalize_keeps_labels_in_place_witness :
  exists out,
    normalize_transactions_df sample_pandas raw_two_rows = Ok out
    /\ df_labels out = ["id"; "date"; "type"; "category"; "amount_eur"; "rate_eur_bdt";
                        "amount_bdt"; "created_at"; "remarks"].
Proof.
  destruct (normalize_keeps_labels_in_place sample_pandas raw_two_rows eq_refl
              (proj1 wf_raw_two_rows)) as [Hret _].
  destruct (Hret eq_refl) as (out & Hout & Hl & _).
  exists out. split; [exact Hout|]. rewrite Hl. reflexivity.
Defined.

Lemma normalize_idempotent_witness :
  exists out,
    normalize_transactions_df sample_pandas raw_two_rows = Ok out
    /\ normalize_transactions_df sample_pandas out = Ok out.
Proof.
  eexists. split; [vm_compute; reflexivity|].
  apply (normalize_idempotent sample_pandas raw_two_rows).
  vm_compute. reflexivity.
Defined.


(** ** Option lists *)

Lemma unique_elem_of (l : list string) (x : string) : x ∈ unique l <-> x ∈ l.
Proof.
  induction l as [|y l IH]; [reflexivity|]. cbn [unique].
  rewrite !elem_of_cons, elem_of_List_filter, IH.
  destruct (String.eqb_spec x y) as [->|Hxy]; cbn; [tauto|].
  split; [intros [?|[? _]]; auto | intros [?|?]; auto].
Qed.

Lemma unique_NoDup (l : list string) : NoDup (unique l).
Proof.
  induction l as [|y l IH]; [constructor|]. cbn [unique]. apply NoDup_cons. split.
  - rewrite elem_of_List_filter, String.eqb_refl. intros [_ [=]].
  - now apply NoDup_List_filter.
Qed.

Lemma sort_by_nil {A : Type} (before : A -> A -> bool) (l : list A) :
  sort_by before l = [] <-> l = [].
Proof.
  split; [|now intros ->]. intros H.
  pose proof (sort_by_perm before l) as Hp. rewrite H in Hp.
  now apply Permutation_nil_r in Hp.
Qed.

Section CategoryOptions.

Variable P : pandas.

(** X15. The category selectbox of the Entry page always has an option.
    For a Categories frame as [read_df] gives it (the name column, when
    present, a column of strings as long as the index) the options are
    returned without raising; they are distinct and in ascending order;
    they are the names of the column when the frame is not empty and has
    one, and the single option General otherwise; and the default
    category is the first of them. *)
Theorem category_options_never_empty cat_df :
  (forall c, col_of cat_df "category_name" = Some c ->
     exists l, c = ColObj l /\ length l = index cat_df) ->
  exists cats,
    category_options P cat_df = Ok cats
    /\ cats <> []
    /\ NoDup cats
    /\ Sorted (fun a b => String.leb a b = true) cats
    /\ default_category cats ∈ cats
    /\ head cats = Some (default_category cats)
    /\ (forall l, df_empty cat_df = false ->
          col_of cat_df "category_name" = Some (ColObj l) ->
          forall c, c ∈ cats <-> c ∈ l)
    /\ (df_empty cat_df = true \/ col_of cat_df "category_name" = None ->
          cats = ["General"]).
Proof.
  intros Hcol.
  assert (Hfin : forall cats, cats <> [] ->
    default_category cats ∈ cats /\ head cats = Some (default_category cats)).
  { intros [|c cs] H; [done|]. split; [left | reflexivity]. }
  unfold category_options, df_has, df_get. fold (col_of cat_df "category_name").
  destruct (df_empty cat_df) eqn:He; cbn [negb andb].
  { exists ["General"]. split; [reflexivity|]. split; [done|].
    split; [apply NoDup_singleton|]. split; [repeat constructor|].
    split; [apply Hfin; done|]. split; [reflexivity|]. split; [discriminate | reflexivity]. }
  destruct (col_of cat_df "category_name") as [c|] eqn:Ec.
  2:{ exists ["General"]. split; [reflexivity|]. split; [done|].
      split; [apply NoDup_singleton|]. split; [repeat constructor|].
      split; [apply Hfin; done|]. split; [reflexivity|].
      split; [discriminate | reflexivity]. }
  destruct (Hcol c eq_refl) as (l & -> & Hlen). cbn [and_then dropna_astype_str].
  eexists. split; [reflexivity|].
  assert (Hne : sort_by String.leb (unique l) <> []).
  { rewrite sort_by_nil. destruct l as [|x l]; [|done].
    unfold df_empty in He. rewrite <- Hlen in He. discriminate. }
  split; [exact Hne|].
  split; [apply sort_by_NoDup, unique_NoDup|].
  split; [apply sort_by_sorted, String.leb_total|].
  split; [now apply Hfin|]. split; [now apply Hfin|]. split.
  - intros l' _ [= <-] x. now rewrite sort_by_elem_of, unique_elem_of.
  - intros [[=]|[=]].
Qed.

End CategoryOptions.

(** ** Months to select *)

Lemma string_length_append (a b : string) :
  String.length (a +:+ b) = (String.length a + String.length b)%nat.
Proof.
  induction a as [|c a IH]; [reflexivity|].
  change (String c a +:+ b) with (String c (a +:+ b)). cbn [String.length].
  now rewrite IH.
Qed.

Lemma to_month_str_nonempty (t : timestamp) : to_month_str (Some t) <> "".
Proof.
  unfold to_month_str. intros H. apply (f_equal String.length) in H.
  rewrite !string_length_append in H. cbn in H. lia.
Qed.

(** X16. The months offered for selection, for a frame whose date column
    holds timestamps. They are computed without raising; they are
    distinct and in descending order; a month is among them exactly when
    it is the month of some row with a valid date; and the list is empty
    exactly when no row has a valid date. *)
Theorem months_raw_latest_first tx_df (dates : list (option timestamp)) :
  col_of tx_df "date" = Some (ColTime dates) ->
  exists df months,
    add_month tx_df = Ok df
    /\ months_raw df = Ok months
    /\ NoDup months
    /\ Sorted (fun a b => String.leb b a = true) months
    /\ (forall m, m ∈ months <-> exists t, Some t ∈ dates /\ m = to_month_str (Some t))
    /\ (months = [] <-> forall d, d ∈ dates -> d = None).
Proof.
  intros Hd. unfold add_month, df_get. fold (col_of tx_df "date"). rewrite Hd.
  cbn [and_then]. eexists _, _. split; [reflexivity|].
  unfold months_raw, df_get. fold (col_of (df_set tx_df "month"
    (ColObj (to_month_str <$> dates))) "month").
  rewrite col_of_set, String.eqb_refl. cbn [and_then]. split; [reflexivity|].
  assert (Hmem : forall m,
    m ∈ sort_by (fun a b => String.leb b a)
          (List.filter (fun m => negb (String.eqb m "")) (unique (to_month_str <$> dates)))
    <-> exists t, Some t ∈ dates /\ m = to_month_str (Some t)).
  { intros m. rewrite sort_by_elem_of, elem_of_List_filter, unique_elem_of,
      list_elem_of_fmap. split.
    - intros [(d & -> & Hin) Hne]. destruct d as [t|]; [eauto | discriminate].
    - intros (t & Hin & ->). split; [eauto|].
      apply negb_true_iff, String.eqb_neq, to_month_str_nonempty. }
  split; [apply sort_by_NoDup, NoDup_List_filter, unique_NoDup|].
  split. { apply sort_by_sorted. intros x y. apply String.leb_total. }
  split; [exact Hmem|]. split.
  - intros Hnil d Hin. destruct d as [t|]; [|reflexivity].
    assert (Hm : to_month_str (Some t) ∈ @nil string).
    { rewrite <- Hnil. apply Hmem. eauto. }
    by apply elem_of_nil in Hm.
  - intros Hall.
    destruct (sort_by _ _) as [|m ms] eqn:E; [reflexivity|].
    assert (Hm : m ∈ m :: ms) by left.
    apply Hmem in Hm as (t & Hin & _). apply Hall in Hin. discriminate.
Qed.


Lemma category_options_never_empty_witness :
  exists cats,
    category_options sample_pandas sample_categories = Ok cats
    /\ cats <> [] /\ default_category cats ∈ cats.
Proof.
  destruct (category_options_never_empty sample_pandas sample_categories)
    as (cats & Hrun & Hne & _ & _ & Hdef & _).
  - intros c [= <-]. exists ["Rent"]. split; reflexivity.
  - exists cats. auto.
Defined.

(** The months of the sample: March before February, the row without a
    date left out. *)
Lemma months_raw_latest_first_witness :
  exists df months,
    add_month insights_sample = Ok df
    /\ months_raw df = Ok months
    /\ months = ["2026-03"; "2026-02"]
    /\ NoDup months.
Proof.
  destruct (months_raw_latest_first insights_sample
              [Some (mk_ts feb7 0); Some (mk_ts feb7 0); Some (mk_ts feb8 0);
               Some (mk_ts feb8 0); Some (mk_ts (mk_date 2026 3 1) 0); None] eq_refl)
    as (df & months & Hadd & Hraw & Hnd & _).
  exists df, months. split; [exact Hadd|]. split; [exact Hraw|]. split; [|exact Hnd].
  injection Hadd as <-. vm_compute in Hraw. now injection Hraw as <-.
Defined.


(** ** Month labels *)

Section MonthLabelFacts.

Variable strftime_month_year : string -> option string.

Local Abbreviation label_of := (month_label strftime_month_year).

Lemma assoc_get_mem {A : Type} (k : string) (v : A) (l : list (string * A)) :
  assoc_get k l = Some v -> (k, v) ∈ l.
Proof.
  induction l as [|[k0 v0] l IH]; cbn; [discriminate|].
  destruct (String.eqb_spec k k0) as [->|_].
  - intros [= ->]. left.
  - intros H. right. now apply IH.
Qed.

(** Every entry of the dictionary maps the label of a month to that
    month. *)
Lemma month_map_entries (months : list string) (acc : list (string * string)) k m :
  (forall k m, assoc_get k acc = Some m -> label_of m = k) ->
  assoc_get k (foldl (fun d m => assoc_set (label_of m) m d) acc months) = Some m ->
  label_of m = k /\ (m ∈ months \/ assoc_get k acc = Some m).
Proof.
  revert acc. induction months as [|x months IH]; intros acc Hacc; cbn [foldl].
  - intros H. split; [now apply Hacc | now right].
  - intros H. apply IH in H as [Hl Hin].
    + split; [exact Hl|]. destruct Hin as [Hin|Hin]; [left; now right|].
      rewrite assoc_get_set in Hin. destruct (String.eqb_spec k (label_of x)) as [->|_].
      * injection Hin as ->. left. left.
      * now right.
    + intros k' m'. rewrite assoc_get_set.
      destruct (String.eqb_spec k' (label_of x)) as [->|_]; [now intros [= ->]|].
      apply Hacc.
Qed.

Lemma month_map_keys (months : list string) (acc : list (string * string)) :
  fst <$> foldl (fun d m => assoc_set (label_of m) m d) acc months
  = foldl (fun ks m => if bool_decide (label_of m ∈ ks) then ks else ks ++ [label_of m])
          (fst <$> acc) months.
Proof.
  revert acc. induction months as [|x months IH]; intros acc; [reflexivity|].
  cbn [foldl]. rewrite IH, assoc_set_labels. f_equal.
  destruct (assoc_get (label_of x) acc) eqn:E.
  - rewrite bool_decide_eq_true_2; [reflexivity|].
    apply list_elem_of_fmap. eexists (_, _). split; [|eapply assoc_get_mem, E]. reflexivity.
  - rewrite bool_decide_eq_false_2; [reflexivity|]. now apply assoc_get_None.
Qed.

Lemma month_map_other (months : list string) (acc : list (string * string)) k :
  k ∉ label_of <$> months ->
  assoc_get k (foldl (fun d m => assoc_set (label_of m) m d) acc months) = assoc_get k acc.
Proof.
  revert acc. induction months as [|x months IH]; intros acc Hk; [reflexivity|].
  cbn in Hk. apply not_elem_of_cons in Hk as [Hx Hk]. cbn [foldl].
  rewrite IH by exact Hk. rewrite assoc_get_set.
  destruct (String.eqb_spec k (label_of x)); [done | reflexivity].
Qed.

Lemma month_map_last (months : list string) (acc : list (string * string)) m :
  NoDup (label_of <$> months) ->
  m ∈ months ->
  assoc_get (label_of m) (foldl (fun d m => assoc_set (label_of m) m d) acc months) = Some m.
Proof.
  revert acc. induction months as [|x months IH]; intros acc Hnd Hm;
    [by apply elem_of_nil in Hm|].
  cbn in Hnd. apply NoDup_cons in Hnd as [Hx Hnd]. cbn [foldl].
  apply elem_of_cons in Hm as [->|Hm]; [|now apply IH].
  rewrite month_map_other by exact Hx. now rewrite assoc_get_set, String.eqb_refl.
Qed.

Lemma month_map_keys_distinct (months : list string) (ks : list string) :
  NoDup (ks ++ (label_of <$> months)) ->
  foldl (fun ks m => if bool_decide (label_of m ∈ ks) then ks else ks ++ [label_of m])
        ks months
  = ks ++ (label_of <$> months).
Proof.
  revert ks. induction months as [|x months IH]; intros ks Hnd; cbn [foldl].
  - cbn. now rewrite app_nil_r.
  - cbn in Hnd. rewrite bool_decide_eq_false_2.
    + rewrite IH; [now rewrite <- app_assoc|]. now rewrite <- app_assoc.
    + apply NoDup_app in Hnd as (_ & Hdis & _). intros Hin.
      apply (Hdis _ Hin). left.
Qed.

(** X17. Selecting a month by its label. Every label offered maps to a
    month of the list whose label it is, so the lookup of a selected
    label never raises. When the months have distinct labels, the labels
    are offered in the order of the months and the label of each month
    selects that month. *)
Theorem month_map_selects_its_label (months : list string) :
  (forall label, label ∈ month_labels strftime_month_year months ->
     exists m, selected_month strftime_month_year months label = Ok m
               /\ m ∈ months /\ label_of m = label)
  /\ (NoDup (label_of <$> months) ->
        month_labels strftime_month_year months = label_of <$> months
        /\ forall m, m ∈ months ->
             selected_month strftime_month_year months (label_of m) = Ok m).
Proof.
  split.
  - intros label Hin. unfold month_labels in Hin.
    apply list_elem_of_fmap in Hin as ([k m] & -> & Hin). cbn [fst].
    unfold selected_month.
    destruct (assoc_get k (month_map strftime_month_year months)) as [m'|] eqn:E.
    + exists m'. split; [reflexivity|]. unfold month_map in E.
      apply month_map_entries in E as [Hl [Hm|Hm]]; [auto | discriminate | discriminate].
    + apply assoc_get_None in E. exfalso. apply E.
      apply list_elem_of_fmap. exists (k, m). auto.
  - intros Hnd. split.
    + unfold month_labels, month_map. rewrite month_map_keys.
      change (fst <$> []) with (@nil string).
      now rewrite (month_map_keys_distinct months []).
    + intros m Hm. unfold selected_month, month_map.
      now rewrite month_map_last.
Qed.

End MonthLabelFacts.

Lemma month_map_selects_its_label_witness :
  month_labels sample_month_label ["2026-03"; "2026-02"] = ["March 2026"; "February 2026"]
  /\ selected_month sample_month_label ["2026-03"; "2026-02"] "February 2026"
     = Ok "2026-02".
Proof.
  destruct (month_map_selects_its_label sample_month_label ["2026-03"; "2026-02"])
    as [_ Hinj].
  destruct Hinj as [Hlabels Hsel]; [vm_compute; compute_done|].
  split; [exact Hlabels|]. apply (Hsel "2026-02"). compute_done.
Defined.


(** ** Insights page: category creation *)

Section CategoryCreationFacts.

Variable X : externals.
Variable P : pandas.
Variable strip : string -> string.

(** The control flow of the form, with the monad unfolded. *)
Lemma create_category_eq cat_df new_cat cat_type w :
  create_category P strip cat_df new_cat cat_type w =
  match existing_categories P strip cat_df with
  | Ok existing =>
      if String.eqb (strip new_cat) "" then (Ok CategoryEmpty, w)
      else if bool_decide (strip new_cat ∈ existing) then (Ok CategoryExists, w)
      else
        match book w !! "Categories" with
        | Some sheet =>
            (Ok CategoryAdded,
             set_book (<["Categories" := sheet ++ [[PyStr (strip new_cat); PyStr cat_type]]]>) w)
        | None => (Raise "Categories", w)
        end
  | Raise e => (Raise e, w)
  end.
Proof.
  unfold create_category, lift. unfold bind at 1.
  destruct (existing_categories P strip cat_df) as [existing|e]; [|reflexivity].
  unfold ret at 1. cbv zeta.
  destruct (String.eqb (strip new_cat) ""); [reflexivity|].
  destruct (bool_decide (strip new_cat ∈ existing)); [reflexivity|].
  run_py. destruct (book w !! "Categories"); reflexivity.
Qed.

Lemma existing_categories_total cat_df :
  exists existing,
    existing_categories P strip cat_df = Ok existing
    /\ forall l, df_empty cat_df = false ->
         col_of cat_df "category_name" = Some (ColObj l) ->
         forall x, x ∈ existing <-> exists s, s ∈ l /\ x = strip s.
Proof.
  unfold existing_categories, df_has, df_get. fold (col_of cat_df "category_name").
  destruct (df_empty cat_df); cbn [negb andb].
  { exists ∅. split; [reflexivity | discriminate]. }
  destruct (col_of cat_df "category_name") as [c|].
  - cbn [and_then]. eexists. split; [reflexivity|].
    intros l _ [= ->] x. cbn [dropna_astype_str].
    rewrite elem_of_list_to_set, list_elem_of_fmap. split.
    + intros (s & -> & Hs). eauto.
    + intros (s & Hs & ->). eauto.
  - exists ∅. split; [reflexivity | discriminate].
Qed.

(** X18. The category form appends a row only for a name that, once
    stripped, is not empty and differs from every stripped name of the
    frame it was given; the row holds the stripped name and the type and
    goes below the rows of the Categories sheet; nothing else changes: in
    particular the caches are not emptied. In every other outcome the
    process state is as it was. *)
Theorem create_category_guard cat_df new_cat cat_type w res w' :
  create_category P strip cat_df new_cat cat_type w = (res, w') ->
  match res with
  | Ok CategoryAdded =>
      strip new_cat <> ""
      /\ (forall l, df_empty cat_df = false ->
            col_of cat_df "category_name" = Some (ColObj l) ->
            forall s, s ∈ l -> strip s <> strip new_cat)
      /\ exists sheet,
           book w !! "Categories" = Some sheet
           /\ w' = set_book
                     (<["Categories" := sheet ++ [[PyStr (strip new_cat); PyStr cat_type]]]>) w
  | _ => w' = w
  end.
Proof.
  rewrite create_category_eq.
  destruct (existing_categories_total cat_df) as (existing & -> & Hex).
  destruct (String.eqb_spec (strip new_cat) "") as [|Hne]; [now intros [= <- <-]|].
  case_bool_decide as Hin; [now intros [= <- <-]|].
  destruct (book w !! "Categories") as [sheet|]; intros [= <- <-]; [|reflexivity].
  split; [exact Hne|]. split; [|eauto].
  intros l He Hc s Hs Heq. apply Hin. apply (Hex l He Hc). eauto.
Qed.

(** X19. The form does not empty the caches after its write. While the
    frame read before the first submission stays cached, a second
    submission of the same new name is accepted again: the sheet ends
    with two rows for that name. *)
Theorem create_category_twice_while_cached w sheet new_cat cat_type :
  df_cache_consistent X w ->
  book w !! "Categories" = Some sheet ->
  strip new_cat <> "" ->
  (forall l, col_of (sheet_frame X sheet) "category_name" = Some (ColObj l) ->
     forall s, s ∈ l -> strip s <> strip new_cat) ->
  let run := (cat_df <- read_df X "Categories" ;;
              create_category P strip cat_df new_cat cat_type) in
  let new_row := [PyStr (strip new_cat); PyStr cat_type] in
  exists w1 w2,
    run w = (Ok CategoryAdded, w1)
    /\ book w1 !! "Categories" = Some (sheet ++ [new_row])
    /\ df_cache w1 !! "Categories" = Some (sheet_frame X sheet)
    /\ run w1 = (Ok CategoryAdded, w2)
    /\ book w2 !! "Categories" = Some (sheet ++ [new_row; new_row]).
Proof.
  intros Hcons Hb Hne Hnew run new_row.
  assert (Hfresh : forall w0 sheet0,
    book w0 !! "Categories" = Some sheet0 ->
    create_category P strip (sheet_frame X sheet) new_cat cat_type w0
    = (Ok CategoryAdded, set_book (<["Categories" := sheet0 ++ [new_row]]>) w0)).
  { intros w0 sheet0 Hb0. rewrite create_category_eq.
    destruct (existing_categories_total (sheet_frame X sheet)) as (existing & Hex & Hmem).
    rewrite Hex.
    destruct (String.eqb_spec (strip new_cat) "") as [|_]; [done|].
    case_bool_decide as Hin; [|now rewrite Hb0].
    exfalso. revert Hex. unfold existing_categories, df_has, df_get.
    fold (col_of (sheet_frame X sheet) "category_name").
    destruct (df_empty (sheet_frame X sheet)) eqn:He; cbn [negb andb].
    { intros [= <-]. set_solver. }
    destruct (col_of (sheet_frame X sheet) "category_name") as [c|] eqn:Ec.
    - intros _. destruct (sheet_frame_object X _ _ _ Ec) as (l & -> & _).
      apply (Hmem l eq_refl eq_refl) in Hin as (s & Hs & Heq).
      apply (Hnew l eq_refl s Hs). congruence.
    - intros [= <-]. set_solver. }
  destruct (read_df X "Categories" w) as [res w0] eqn:Hread.
  destruct (read_df_consistent X _ _ _ _ Hcons Hread) as (Hb0 & _ & _ & _ & _ & _ & Hres).
  rewrite Hb in Hres. destruct Hres as [-> Hdc].
  assert (Hbw0 : book w0 !! "Categories" = Some sheet) by (now rewrite Hb0).
  exists (set_book (<["Categories" := sheet ++ [new_row]]>) w0).
  eexists. unfold run, bind at 1. rewrite Hread, (Hfresh w0 sheet Hbw0).
  split; [reflexivity|].
  split; [cbn; now rewrite lookup_insert_eq|].
  split; [cbn; now rewrite Hdc, lookup_insert_eq|].
  unfold bind at 1. rewrite read_df_cases.
  assert (Hhit : df_cache (set_book (<["Categories" := sheet ++ [new_row]]>) w0)
                   !! "Categories" = Some (sheet_frame X sheet)).
  { cbn. now rewrite Hdc, lookup_insert_eq. }
  rewrite Hhit.
  rewrite (Hfresh _ (sheet ++ [new_row])) by (cbn; now rewrite lookup_insert_eq).
  split; [reflexivity|]. cbn. rewrite lookup_insert_eq, <- app_assoc. reflexivity.
Qed.

(** X20. With no frame in the cache, a name that the Categories sheet
    already holds in its name column, up to stripping, is refused: the
    run answers that the category exists and leaves the book alone. *)
Theorem create_category_refuses_stored_name w hdr data j r new_cat cat_type :
  df_cache w !! "Categories" = None ->
  book w !! "Categories" = Some (hdr :: data) ->
  let labels := default [] (head (get_all_values X (hdr :: data))) in
  NoDup labels ->
  labels !! j = Some "category_name" ->
  r ∈ data ->
  strip (value_text X (row_cell r (S j))) = strip new_cat ->
  strip new_cat <> "" ->
  exists w',
    (cat_df <- read_df X "Categories" ;;
     create_category P strip cat_df new_cat cat_type) w = (Ok CategoryExists, w')
    /\ book w' = book w.
Proof.
  intros Hc Hb labels Hnd Hj Hr Hs Hne.
  assert (Hd : data <> []) by (intros ->; by apply elem_of_nil in Hr).
  destruct (sheet_frame_columns X hdr data Hd) as (Hi & Hl & _ & _ & Hget).
  fold labels in Hl, Hget. specialize (Hget Hnd j _ Hj).
  unfold bind at 1. rewrite read_df_cases, Hc, Hb, create_category_eq.
  destruct (existing_categories_total (sheet_frame X (hdr :: data)))
    as (existing & -> & Hmem).
  assert (He : df_empty (sheet_frame X (hdr :: data)) = false).
  { unfold df_empty. rewrite Hi. apply orb_false_iff. split; apply Nat.eqb_neq.
    - destruct data; [done | cbn [length]; lia].
    - rewrite <- (length_fmap fst), Hl. apply lookup_lt_Some in Hj. lia. }
  destruct (String.eqb_spec (strip new_cat) "") as [|_]; [done|].
  rewrite bool_decide_eq_true_2.
  - eexists. split; reflexivity.
  - apply (Hmem _ He Hget). exists (value_text X (row_cell r (S j))).
    split; [|now rewrite Hs]. apply list_elem_of_fmap. eauto.
Qed.

End CategoryCreationFacts.


(** "Food" is new to the sample book: it is appended, and the caches are
    left as they were. *)
Lemma create_category_guard_witness :
  let out := create_category sample_pandas strip_spaces sample_categories
               " Food " "Expense" sample_world in
  fst out = Ok CategoryAdded
  /\ book (snd out) !! "Categories"
     = Some [headers_row CAT_HEADERS; [PyStr "Rent"; PyStr "Expense"];
             [PyStr "Food"; PyStr "Expense"]]
  /\ df_cache (snd out) = df_cache sample_world.
Proof.
  cbv zeta.
  pose proof (create_category_guard sample_pandas strip_spaces sample_categories
                " Food " "Expense" sample_world (Ok CategoryAdded)
                (snd (create_category sample_pandas strip_spaces sample_categories
                        " Food " "Expense" sample_world))) as H.
  destruct H as (_ & _ & sheet & Hb & Hw).
  - apply pair_eta_fst. vm_compute. reflexivity.
  - split; [vm_compute; reflexivity|]. rewrite Hw. injection Hb as <-.
    split; reflexivity.
Defined.

(** "Food" submitted twice while the frame read before is still cached:
    the sheet ends with two rows for it. *)
Lemma create_category_twice_while_cached_witness :
  let X := sample_externals (fun _ _ => http_500) in
  let run := (cat_df <- read_df X "Categories" ;;
              create_category sample_pandas strip_spaces cat_df " Food " "Expense") in
  exists w1 w2,
    run sample_world = (Ok CategoryAdded, w1)
    /\ run w1 = (Ok CategoryAdded, w2)
    /\ book w2 !! "Categories"
       = Some [headers_row CAT_HEADERS; [PyStr "Rent"; PyStr "Expense"];
               [PyStr "Food"; PyStr "Expense"]; [PyStr "Food"; PyStr "Expense"]].
Proof.
  cbv zeta.
  destruct (create_category_twice_while_cached (sample_externals (fun _ _ => http_500))
              sample_pandas strip_spaces sample_world
              [headers_row CAT_HEADERS; [PyStr "Rent"; PyStr "Expense"]] " Food " "Expense")
    as (w1 & w2 & H1 & _ & _ & H2 & Hb).
  - intros t df H. vm_compute in H. discriminate.
  - reflexivity.
  - vm_compute. discriminate.
  - intros l H s Hs. vm_compute in H. injection H as <-.
    apply list_elem_of_singleton in Hs as ->. vm_compute. discriminate.
  - exists w1, w2. split; [exact H1|]. split; [exact H2 | exact Hb].
Defined.

(** With no cached frame, "Rent " is found in the sheet and refused. *)
Lemma create_category_refuses_stored_name_witness :
  let X := sample_externals (fun _ _ => http_500) in
  exists w',
    (cat_df <- read_df X "Categories" ;;
     create_category sample_pandas strip_spaces cat_df "Rent " "Expense") sample_world
    = (Ok CategoryExists, w')
    /\ book w' = book sample_world.
Proof.
  cbv zeta.
  apply (create_category_refuses_stored_name (sample_externals (fun _ _ => http_500))
           sample_pandas strip_spaces sample_world (headers_row CAT_HEADERS)
           [[PyStr "Rent"; PyStr "Expense"]] 0%nat [PyStr "Rent"; PyStr "Expense"]).
  - reflexivity.
  - reflexivity.
  - vm_compute. compute_done.
  - reflexivity.
  - left.
  - vm_compute. reflexivity.
  - vm_compute. discriminate.
Defined.


(** ** Transaction ids *)

Lemma string_app_inj_length (a a' b b' : string) :
  String.length a = String.length a' ->
  a +:+ b = a' +:+ b' -> a = a' /\ b = b'.
Proof.
  revert a'. induction a as [|c a IH]; intros [|c' a'] Hlen H; try discriminate.
  - auto.
  - change (String c (a +:+ b) = String c' (a' +:+ b')) in H.
    injection H as -> H. injection Hlen as Hlen.
    destruct (IH a' Hlen H) as [-> ->]. auto.
Qed.

Lemma zfill4_check :
  forallb (fun n => (String.length (zfill 4 (pretty n)) =? 4)%nat
                    && (digits_value (zfill 4 (pretty n)) =? n)%nat)
          (seq 0 (100 * 100)) = true.
Proof. vm_compute. reflexivity. Qed.

Lemma zfill2_check :
  forallb (fun n => (String.length (zfill 2 (pretty n)) =? 2)%nat
                    && (digits_value (zfill 2 (pretty n)) =? n)%nat)
          (seq 0 100) = true.
Proof. vm_compute. reflexivity. Qed.

Lemma zfill4_spec (n : nat) :
  (n < 100 * 100)%nat ->
  String.length (zfill 4 (pretty n)) = 4%nat /\ digits_value (zfill 4 (pretty n)) = n.
Proof.
  intros Hn. pose proof zfill4_check as H. rewrite forallb_forall in H.
  specialize (H n). rewrite in_seq in H.
  assert (Hin : (0 <= n < 0 + 100 * 100)%nat) by lia.
  apply H, andb_true_iff in Hin as [H1 H2].
  split; [now apply Nat.eqb_eq | now apply Nat.eqb_eq].
Qed.

Lemma zfill2_spec (n : nat) :
  (n < 100)%nat ->
  String.length (zfill 2 (pretty n)) = 2%nat /\ digits_value (zfill 2 (pretty n)) = n.
Proof.
  intros Hn. pose proof zfill2_check as H. rewrite forallb_forall in H.
  specialize (H n). rewrite in_seq in H.
  assert (Hin : (0 <= n < 0 + 100)%nat) by lia.
  apply H, andb_true_iff in Hin as [H1 H2].
  split; [now apply Nat.eqb_eq | now apply Nat.eqb_eq].
Qed.

Lemma byte_hex_value (b : Byte.byte) :
  hex_value (str_upper (bytes_hex [b])) = Byte.to_N b.
Proof. destruct b; reflexivity. Qed.

Lemma byte_to_N_inj (a b : Byte.byte) : Byte.to_N a = Byte.to_N b -> a = b.
Proof.
  intros H. pose proof (Byte.of_to_N a) as Ha. rewrite H, Byte.of_to_N in Ha. congruence.
Qed.

Lemma strftime_stamp_length now :
  valid_datetime now -> String.length (strftime_stamp now) = 15%nat.
Proof.
  intros (Hy & Hm & Hd & HH & HM & HS). unfold strftime_stamp.
  rewrite !string_length_append.
  rewrite (fun n H => proj1 (zfill4_spec n H)) by lia.
  rewrite !(fun n H => proj1 (zfill2_spec n H)) by lia. reflexivity.
Qed.

(** X21. A transaction id has 23 characters, and two ids are equal
    exactly when they were made in the same second with the same two
    random bytes: ids of different seconds never collide, ids of the same
    second collide only on the same token. *)
Theorem make_tx_id_unique_per_second_and_token now1 now2 a1 a2 b1 b2 :
  valid_datetime now1 -> valid_datetime now2 ->
  String.length (make_tx_id now1 a1 a2) = 23%nat
  /\ (make_tx_id now1 a1 a2 = make_tx_id now2 b1 b2
      <-> now1 = now2 /\ a1 = b1 /\ a2 = b2).
Proof.
  intros V1 V2. split.
  { unfold make_tx_id. cbv zeta. rewrite !string_length_append.
    rewrite strftime_stamp_length by exact V1. reflexivity. }
  split; [|now intros (-> & -> & ->)].
  pose proof (strftime_stamp_length _ V1) as L1.
  pose proof (strftime_stamp_length _ V2) as L2.
  destruct V1 as (Hy1 & Hm1 & Hd1 & HH1 & HM1 & HS1).
  destruct V2 as (Hy2 & Hm2 & Hd2 & HH2 & HM2 & HS2).
  unfold make_tx_id. cbv zeta. intros H.
  apply (inj (String.append "TX-")) in H.
  apply string_app_inj_length in H as [Hst Hr]; [|congruence].
  apply (inj (String.append "-")) in Hr.
  assert (Hbytes : a1 = b1 /\ a2 = b2).
  { cbn [bytes_hex str_upper] in Hr. injection Hr as E1 E2 E3 E4. split.
    - apply byte_to_N_inj. rewrite <- !byte_hex_value. cbn [bytes_hex str_upper].
      now rewrite E1, E2.
    - apply byte_to_N_inj. rewrite <- !byte_hex_value. cbn [bytes_hex str_upper].
      now rewrite E3, E4. }
  split; [|exact Hbytes].
  unfold strftime_stamp in Hst.
  destruct now1 as [[y1 m1 d1] H1 M1 S1], now2 as [[y2 m2 d2] H2 M2 S2]. cbn in *.
  repeat match goal with
  | H : zfill 4 (pretty ?x) +:+ _ = zfill 4 (pretty ?y) +:+ _ |- _ =>
      apply string_app_inj_length in H as [?%(f_equal digits_value) ?];
        [|rewrite !(fun n H => proj1 (zfill4_spec n H)) by lia; reflexivity]
  | H : zfill 2 (pretty ?x) +:+ _ = zfill 2 (pretty ?y) +:+ _ |- _ =>
      apply string_app_inj_length in H as [?%(f_equal digits_value) ?];
        [|rewrite !(fun n H => proj1 (zfill2_spec n H)) by lia; reflexivity]
  | H : "-" +:+ _ = "-" +:+ _ |- _ => apply (inj (String.append "-")) in H
  | H : zfill 2 (pretty ?x) = zfill 2 (pretty ?y) |- _ =>
      apply (f_equal digits_value) in H
  | H : digits_value (zfill 4 (pretty ?x)) = digits_value (zfill 4 (pretty ?y)) |- _ =>
      rewrite !(fun n H => proj2 (zfill4_spec n H)) in H by lia
  | H : digits_value (zfill 2 (pretty ?x)) = digits_value (zfill 2 (pretty ?y)) |- _ =>
      rewrite !(fun n H => proj2 (zfill2_spec n H)) in H by lia
  end.
  congruence.
Qed.


Lemma make_tx_id_unique_per_second_and_token_witness :
  let now := mk_datetime feb8 10 15 0 in
  make_tx_id now Byte.x9f Byte.x3a = "TX-20260208-101500-9F3A"
  /\ String.length (make_tx_id now Byte.x9f Byte.x3a) = 23%nat.
Proof.
  cbv zeta. split; [vm_compute; reflexivity|].
  apply (make_tx_id_unique_per_second_and_token
           (mk_datetime feb8 10 15 0) (mk_datetime feb8 10 15 0)
           Byte.x9f Byte.x3a Byte.x9f Byte.x3a);
    (unfold valid_datetime; cbn; lia).
Defined.


(** ** Insights page: the values of the month by type tables *)

Section MonthTables.

Variable X : externals.

(** X22. The table behind the Income vs Expense chart, for a numeric
    value column. Its rows are distinct months in ascending order, where
    the rows without a valid date count as one month with the empty name;
    a month has a row exactly when some type has transactions in it (for
    float amounts: whose sum is a number); and the Income and Expense
    value of a row, read as a float, is the sum of the month's amounts of
    that type as the pivot of pandas adds them (floats as floats,
    integers exactly), or 0.0 when there is none. *)
Theorem monthly_income_expense_values tx_df value_col mo ty v :
  col_of tx_df "month" = Some (ColObj mo) ->
  col_of tx_df "type" = Some (ColObj ty) ->
  col_of tx_df value_col = Some v ->
  is_numeric v = true ->
  exists rows income expense,
    monthly_income_expense X tx_df value_col
      = Ok (mk_pivot rows [("Income", income); ("Expense", expense)])
    /\ NoDup rows
    /\ Sorted (fun x y => String.leb x y = true) rows
    /\ (forall m, m ∈ rows <-> exists t, has_value X mo ty v m t)
    /\ forall i m, rows !! i = Some m ->
         col_floats income !! i = Some (table_cell X mo ty v m "Income")
         /\ col_floats expense !! i = Some (table_cell X mo ty v m "Expense").
Proof.
  intros Hmo Hty Hval Hnum. rewrite monthly_income_expense_table.
  destruct (month_type_table_cells X tx_df value_col "Income" "Expense" mo ty v)
    as (rows & income & expense & Hrun & Hnd & Hsorted & Hmem & Hin & Hex);
    [discriminate | assumption..|].
  exists rows, income, expense. split; [exact Hrun|]. split; [exact Hnd|].
  split; [exact Hsorted|]. split; [exact Hmem|].
  intros i m Hi. rewrite Hin, Hex, !list_lookup_fmap, Hi. split; reflexivity.
Qed.

End MonthTables.

(** In BDT, which are integers, February has 12000 of income and
    4800 + 6600 + 300 of expenses, March 1080 of expenses and no income;
    the undated debt makes a row of its own. *)
Lemma monthly_income_expense_values_witness :
  let X := sample_externals (fun _ _ => http_500) in
  exists income expense,
    monthly_income_expense X insights_sample "amount_bdt"
      = Ok (mk_pivot [""; "2026-02"; "2026-03"] [("Income", income); ("Expense", expense)])
    /\ col_floats income = [0; 12000; 0]%float
    /\ col_floats expense = [0; 11700; 1080]%float.
Proof.
  cbv zeta.
  destruct (monthly_income_expense_values (sample_externals (fun _ _ => http_500))
              insights_sample "amount_bdt"
              ["2026-02"; "2026-02"; "2026-02"; "2026-02"; "2026-03"; ""]
              ["Income"; "Expense"; "Expense"; "Expense"; "Expense"; "Debt"]
              (ColInt I64 [12000; 4800; 6600; 300; 1080; 60000]%Z)
              eq_refl eq_refl eq_refl eq_refl)
    as (rows & income & expense & Hrun & _ & _ & _ & Hcells).
  assert (Hrows : rows = [""; "2026-02"; "2026-03"]).
  { pose proof Hrun as Hc. vm_compute in Hc. now injection Hc as <- _ _. }
  subst rows. exists income, expense. split; [exact Hrun|].
  pose proof Hrun as Hc. vm_compute in Hc. injection Hc as <- <-.
  split; vm_compute; reflexivity.
Defined.


(** ** Insights page: monthly debt added vs paid *)

Lemma mask_list_fmap {A B : Type} (f : A -> B) (k : list bool) (l : list A) :
  mask_list k (f <$> l) = f <$> mask_list k l.
Proof.
  revert l. induction k as [|b k IH]; intros [|x l]; try reflexivity.
  cbn. destruct b; cbn; now rewrite IH.
Qed.

Lemma mask_list_length {A : Type} (k : list bool) (l : list A) :
  length l = length k -> length (mask_list k l) = length (List.filter id k).
Proof.
  revert l. induction k as [|b k IH]; intros [|x l] H; try done.
  injection H as H. cbn. destruct b; cbn; now rewrite IH.
Qed.

(** Keeping the rows that satisfy [p] keeps the amounts of the groups
    that satisfy it and empties the others. *)
Lemma amounts_of_mask {A : Type} (p : string -> string -> bool) mo ty (vals : list A) m t :
  length ty = length mo -> length vals = length mo ->
  let k := zip_with p mo ty in
  amounts_of (mask_list k mo) (mask_list k ty) (mask_list k vals) m t
  = if p m t then amounts_of mo ty vals m t else [].
Proof.
  unfold amounts_of. revert ty vals.
  induction mo as [|a mo IH]; intros [|b ty] [|v vals] Ht Hv; try done.
  { cbn. now destruct (p m t). }
  injection Ht as Ht. injection Hv as Hv. specialize (IH ty vals Ht Hv).
  cbn [zip_with mask_list]. destruct (p a b) eqn:Ep.
  - cbn [zip zip_with List.filter fst snd]. cbn [zip] in IH.
    destruct (String.eqb_spec a m) as [->|]; destruct (String.eqb_spec b t) as [->|];
      cbn [andb]; try exact IH.
    rewrite Ep in *. cbn. now rewrite IH.
  - rewrite IH. cbn [zip zip_with List.filter fst snd].
    destruct (String.eqb_spec a m) as [->|]; destruct (String.eqb_spec b t) as [->|];
      cbn [andb]; try reflexivity.
    now rewrite Ep.
Qed.

Lemma zip_with_fmap_r {A B C : Type} (f : B -> C) (l : list A) (k : list B) :
  length k = length l -> zip_with (fun _ b => f b) l k = f <$> k.
Proof.
  revert k. induction l as [|x l IH]; intros [|y k] H; try done.
  injection H as H. cbn. now rewrite IH.
Qed.

Lemma zip_with_fmap_l {A B C : Type} (f : A -> C) (l : list A) (k : list B) :
  length k = length l -> zip_with (fun a _ => f a) l k = f <$> l.
Proof.
  revert k. induction l as [|x l IH]; intros [|y k] H; try done.
  injection H as H. cbn. now rewrite IH.
Qed.

Section DebtTable.

Variable X : externals.

(** X23. The table behind the Monthly Debt chart, for a frame whose
    columns are as long as its index and a numeric value column. When no
    Debt or Debt Payment row has a valid date the page shows its note
    instead of a chart. Otherwise the table is computed without raising;
    its rows are distinct months in ascending order, never the empty
    month of rows without a date; a month has a row exactly when it has
    Debt or Debt Payment rows (for float amounts: whose sum is a number);
    and each value, read as a float, is the sum of the month's amounts of
    that type as the pivot of pandas adds them, or 0.0 when there is
    none. *)
Theorem monthly_debt_table tx_df value_col dates ty v :
  col_of tx_df "date" = Some (ColTime dates) ->
  col_of tx_df "type" = Some (ColObj ty) ->
  col_of tx_df value_col = Some v ->
  is_numeric v = true ->
  value_col <> "month" ->
  length dates = index tx_df -> length ty = index tx_df -> col_len v = index tx_df ->
  let mo := to_month_str <$> dates in
  let dated_debts :=
    List.filter (fun r : string * string => negb (String.eqb r.1 "") && is_debt r.2)
                (zip mo ty) in
  match dated_debts with
  | [] => monthly_debt X tx_df value_col = Ok None
  | _ =>
      exists rows debt paid,
        monthly_debt X tx_df value_col
        = Ok (Some (mk_pivot rows [("Debt", debt); ("Debt Payment", paid)]))
        /\ NoDup rows
        /\ Sorted (fun x y => String.leb x y = true) rows
        /\ (forall m, m ∈ rows <->
              m <> "" /\ exists t, is_debt t = true /\ has_value X mo ty v m t)
        /\ col_floats debt = (fun m => table_cell X mo ty v m "Debt") <$> rows
        /\ col_floats paid = (fun m => table_cell X mo ty v m "Debt Payment") <$> rows
  end.
Proof.
  intros Hd Hty Hval Hnum Hvc Hld Hlt Hlv mo dated_debts.
  assert (Hlm : length mo = index tx_df) by (unfold mo; now rewrite length_fmap).
  pose (k1 := is_debt <$> ty).
  pose (md1 := df_set (df_filter tx_df k1) "month" (ColObj (mask_list k1 mo))).
  pose (k2 := (fun s => negb (String.eqb s "")) <$> mask_list k1 mo).
  assert (Hrun : monthly_debt X tx_df value_col =
                 if df_empty (df_filter md1 k2) then Ok None
                 else md_sum <~ month_type_table X (df_filter md1 k2) value_col
                                  "Debt" "Debt Payment" ;;
                      Ok (Some md_sum)).
  { unfold monthly_debt, df_get. fold (col_of tx_df "type"). rewrite Hty.
    cbn [and_then col_isin]. fold is_debt. fold k1.
    unfold add_month, df_get. fold (col_of (df_filter tx_df k1) "date").
    rewrite col_of_filter, Hd. cbn [fmap option_fmap option_map and_then col_mask].
    rewrite <- mask_list_fmap. fold mo. fold md1.
    fold (col_of md1 "month"). unfold md1 at 1. rewrite col_of_set, String.eqb_refl.
    cbn [and_then]. reflexivity. }
  rewrite Hrun. clear Hrun.
  (* the columns of the filtered frame *)
  assert (Hmo2 : col_of (df_filter md1 k2) "month" = Some (ColObj (mask_list k2 (mask_list k1 mo)))).
  { rewrite col_of_filter. unfold md1. now rewrite col_of_set, String.eqb_refl. }
  assert (Hty2 : col_of (df_filter md1 k2) "type" = Some (ColObj (mask_list k2 (mask_list k1 ty)))).
  { rewrite col_of_filter. unfold md1. rewrite col_of_set.
    destruct (String.eqb_spec "type" "month") as [[=]|_].
    now rewrite col_of_filter, Hty. }
  assert (Hv2 : col_of (df_filter md1 k2) value_col = Some (col_mask k2 (col_mask k1 v))).
  { rewrite col_of_filter. unfold md1. rewrite col_of_set.
    destruct (String.eqb_spec value_col "month") as [|_]; [done|].
    now rewrite col_of_filter, Hval. }
  assert (Hnum2 : is_numeric (col_mask k2 (col_mask k1 v)) = true).
  { now destruct v. }
  (* both masks as predicates on month and type *)
  assert (Hk1 : k1 = zip_with (fun _ t => is_debt t) mo ty).
  { unfold k1. symmetry. apply zip_with_fmap_r. congruence. }
  assert (Hl1 : forall {A} (l : list A), length l = index tx_df ->
                  length (mask_list k1 l) = length (List.filter id k1)).
  { intros A l Hl. apply mask_list_length. unfold k1. rewrite length_fmap. congruence. }
  assert (Hk2 : k2 = zip_with (fun m _ => negb (String.eqb m ""))
                       (mask_list k1 mo) (mask_list k1 ty)).
  { unfold k2. symmetry. apply zip_with_fmap_l. rewrite !Hl1; congruence. }
  assert (Ham : forall m t A (vals : list A), length vals = length mo ->
    amounts_of (mask_list k2 (mask_list k1 mo)) (mask_list k2 (mask_list k1 ty))
               (mask_list k2 (mask_list k1 vals)) m t
    = if negb (String.eqb m "") && is_debt t then amounts_of mo ty vals m t else []).
  { intros m t A vals Hlen. rewrite Hk2.
    rewrite (amounts_of_mask (fun m _ => negb (String.eqb m ""))) by (rewrite !Hl1; congruence).
    destruct (negb (String.eqb m "")); [|reflexivity]. cbn [andb]. rewrite Hk1.
    now rewrite (amounts_of_mask (fun _ t => is_debt t)) by congruence. }
  assert (Hsel : forall m t,
    table_cell X (mask_list k2 (mask_list k1 mo)) (mask_list k2 (mask_list k1 ty))
               (col_mask k2 (col_mask k1 v)) m t
    = (if negb (String.eqb m "") && is_debt t then table_cell X mo ty v m t else 0%float)
    /\ (has_value X (mask_list k2 (mask_list k1 mo)) (mask_list k2 (mask_list k1 ty))
                  (col_mask k2 (col_mask k1 v)) m t
        <-> negb (String.eqb m "") && is_debt t = true /\ has_value X mo ty v m t)).
  { intros m t.
    assert (Hmm : col_mask k2 (col_mask k1 v)
                  = match v with
                    | ColObj l => ColObj (mask_list k2 (mask_list k1 l))
                    | ColInt kd l => ColInt kd (mask_list k2 (mask_list k1 l))
                    | ColFloat l => ColFloat (mask_list k2 (mask_list k1 l))
                    | ColTime l => ColTime (mask_list k2 (mask_list k1 l))
                    end) by now destruct v.
    rewrite Hmm. clear Hmm.
    assert (Hlen : col_len v = length mo) by congruence.
    destruct v as [l|kd l|l|l]; cbn in Hlen |- *; try discriminate.
    - rewrite (Ham m t _ l Hlen). destruct (negb (String.eqb m "") && is_debt t);
        split; try reflexivity;
        [tauto | split; [intros H; now destruct H | intros [[=] _]]].
    - rewrite (Ham m t _ l Hlen). destruct (negb (String.eqb m "") && is_debt t);
        split; try reflexivity;
        [tauto | split; [intros [H _]; now destruct H | intros [[=] _]]]. }
  (* emptiness *)
  assert (Hidx : index (df_filter md1 k2) = length (List.filter id k2)).
  { cbn [df_filter index]. f_equal. f_equal. apply firstn_all2.
    unfold k2, md1. cbn [index df_set df_filter]. rewrite length_fmap, Hl1 by exact Hlm.
    apply Nat.eq_le_incl. f_equal. f_equal. symmetry. apply firstn_all2.
    unfold k1. rewrite length_fmap. lia. }
  assert (Hcount : length (List.filter id k2) = length dated_debts).
  { unfold dated_debts, k2. rewrite Hk1. clear. revert ty.
    induction mo as [|a mo IH]; intros [|b ty]; try reflexivity.
    cbn [zip_with zip mask_list fmap list_fmap List.filter fst snd].
    destruct (is_debt b) eqn:Eb.
    - cbn [fmap list_fmap List.filter]. rewrite andb_true_r.
      destruct (negb (String.eqb a "")); cbn [id length]; [f_equal|]; apply IH.
    - rewrite andb_false_r. apply IH. }
  assert (Hcols : length (columns (df_filter md1 k2)) <> 0%nat).
  { intros H. unfold col_of in Hmo2. destruct (columns (df_filter md1 k2)); done. }
  unfold df_empty. rewrite Hidx, Hcount.
  destruct dated_debts as [|r rest] eqn:Edd.
  { reflexivity. }
  cbn [length Nat.eqb orb]. rewrite (proj2 (Nat.eqb_neq _ _) Hcols).
  destruct (month_type_table_cells X (df_filter md1 k2) value_col "Debt" "Debt Payment"
              _ _ _ ltac:(discriminate) Hmo2 Hty2 Hv2 Hnum2)
    as (rows & debt & paid & Hrun & Hnd & Hsorted & Hmem & Hdebt & Hpaid).
  rewrite Hrun. cbn [and_then].
  assert (Hrows : forall m, m ∈ rows -> m <> "").
  { intros m Hm. apply Hmem in Hm as (t & Hv). apply Hsel in Hv as [Hk _].
    destruct (String.eqb_spec m "") as [->|Hm]; [discriminate | exact Hm]. }
  assert (Hcell : forall t, is_debt t = true ->
    (fun m => table_cell X (mask_list k2 (mask_list k1 mo)) (mask_list k2 (mask_list k1 ty))
                         (col_mask k2 (col_mask k1 v)) m t) <$> rows
    = (fun m => table_cell X mo ty v m t) <$> rows).
  { intros t Ht. apply list_fmap_ext. intros i m Hi.
    rewrite (proj1 (Hsel m t)), Ht, andb_true_r.
    destruct (String.eqb_spec m "") as [->|]; [|reflexivity].
    exfalso. apply (Hrows ""); [|reflexivity]. eapply list_elem_of_lookup_2, Hi. }
  exists rows, debt, paid. split; [reflexivity|].
  split; [exact Hnd|]. split; [exact Hsorted|]. split.
  - intros m. rewrite Hmem. split.
    + intros (t & Hv). apply Hsel in Hv as [Hk Hv].
      apply andb_true_iff in Hk as [Hm Ht]. split; [|eauto].
      intros ->. discriminate.
    + intros (Hm & t & Ht & Hv). exists t. apply Hsel. split; [|exact Hv].
      rewrite Ht, andb_true_r. now destruct (String.eqb_spec m "").
  - rewrite Hdebt, Hpaid. split; apply Hcell; reflexivity.
Qed.

End DebtTable.

(** February has 500 + 50.5 of debt taken and 200 paid, March 100 taken
    and nothing paid. *)
Lemma monthly_debt_table_witness :
  monthly_debt (sample_externals (fun _ _ => http_500)) debt_sample "amount_eur"
  = Ok (Some (mk_pivot ["2026-02"; "2026-03"]
                [("Debt", ColFloat [550.5; 100]%float);
                 ("Debt Payment", ColFloat [200; 0]%float)])).
Proof.
  pose proof (monthly_debt_table (sample_externals (fun _ _ => http_500))
                debt_sample "amount_eur"
                [Some (mk_ts feb7 0); Some (mk_ts feb8 0); Some (mk_ts (mk_date 2026 3 1) 0);
                 Some (mk_ts feb8 0)]
                ["Debt"; "Debt Payment"; "Debt"; "Debt"] (ColFloat [500; 200; 100; 50.5]%float)
                eq_refl eq_refl eq_refl eq_refl ltac:(discriminate)
                eq_refl eq_refl eq_refl) as H.
  cbv zeta in H.
  set (dated := List.filter _ _) in H. vm_compute in dated. subst dated.
  cbv beta iota in H. destruct H as (rows & debt & paid & Hrun & _).
  rewrite Hrun. vm_compute in Hrun. injection Hrun as <- <- <-. reflexivity.
Defined.


(** ** Monthly report: the rows of the selected month *)

Lemma ts_compare_antisym (a b : timestamp) :
  ts_compare b a = CompOpp (ts_compare a b).
Proof.
  unfold ts_compare.
  rewrite (Nat.compare_antisym (year (ts_date a))), (Nat.compare_antisym (month (ts_date a))),
    (Nat.compare_antisym (day (ts_date a))), (N.compare_antisym (ts_nanos a)).
  destruct (Nat.compare (year (ts_date a)) (year (ts_date b))); cbn; try reflexivity.
  destruct (Nat.compare (month (ts_date a)) (month (ts_date b))); cbn; try reflexivity.
  destruct (Nat.compare (day (ts_date a)) (day (ts_date b))); cbn; reflexivity.
Qed.

Lemma date_desc_total (x y : option timestamp) :
  date_desc x y = true \/ date_desc y x = true.
Proof.
  destruct x as [a|], y as [b|]; cbn; auto.
  rewrite (ts_compare_antisym a b). destruct (ts_compare a b); cbn; auto.
Qed.

Lemma omap_lookup_perm {A : Type} (l : list A) (order : list nat) :
  order ≡ₚ seq 0 (length l) -> omap (fun i => l !! i) order ≡ₚ l.
Proof.
  intros Hp. rewrite Hp. clear.
  assert (H : forall k, omap (fun i => l !! i) (seq k (length l - k)) = drop k l).
  { intros k. remember (length l - k)%nat as n eqn:Hn. revert k Hn.
    induction n as [|n IH]; intros k Hn.
    - cbn. symmetry. apply drop_ge. lia.
    - cbn [seq omap list_omap]. destruct (l !! k) as [x|] eqn:E.
      + rewrite IH by lia. symmetry. now apply drop_S.
      + apply lookup_ge_None in E. lia. }
  specialize (H 0%nat). rewrite Nat.sub_0_r in H. now rewrite H.
Qed.

Lemma zip_seq_order {A : Type} (before : A * nat -> A * nat -> bool) (l : list A) :
  let sorted := sort_by before (zip l (seq 0 (length l))) in
  snd <$> sorted ≡ₚ seq 0 (length l)
  /\ omap (fun i => l !! i) (snd <$> sorted) = fst <$> sorted.
Proof.
  intros sorted.
  assert (Hp : sorted ≡ₚ zip l (seq 0 (length l))).
  { symmetry. apply sort_by_perm. }
  split.
  - rewrite Hp. rewrite snd_zip; [reflexivity|]. now rewrite length_seq.
  - assert (Hall : Forall (fun p : A * nat => l !! p.2 = Some p.1) sorted).
    { rewrite Hp. apply Forall_forall. intros [x i] Hin.
      apply list_elem_of_lookup_1 in Hin as [j Hj].
      apply lookup_zip_with_Some in Hj as (x' & i' & [= <- <-] & Hx & Hi).
      apply lookup_seq in Hi as [-> _]. exact Hx. }
    clear Hp. induction Hall as [|[x i] rest Hx _ IH]; [reflexivity|].
      cbn in *. now rewrite Hx, IH.
Qed.

(** X24. The rows of the selected month in the monthly report. The frame is
    computed without raising; all its columns are the columns of the
    month's rows rearranged by one and the same permutation, so that rows
    stay whole; its dates are the dates of the month's rows in descending
    order, NaT last. *)
Theorem month_rows_newest_first tx_df sel_month mo dates :
  col_of tx_df "month" = Some (ColObj mo) ->
  col_of tx_df "date" = Some (ColTime dates) ->
  length mo = length dates ->
  let mask := (fun s => String.eqb s sel_month) <$> mo in
  exists m order dates',
    month_rows tx_df sel_month = Ok m
    /\ order ≡ₚ seq 0 (length (mask_list mask dates))
    /\ (forall k c, col_of tx_df k = Some c ->
          col_of m k = Some (col_take order (col_mask mask c)))
    /\ col_of m "date" = Some (ColTime dates')
    /\ dates' ≡ₚ mask_list mask dates
    /\ Sorted (fun x y => date_desc x y = true) dates'
    /\ forall k l, col_of tx_df k = Some (ColObj l) -> length l = length dates ->
         exists l', col_of m k = Some (ColObj l') /\ l' ≡ₚ mask_list mask l.
Proof.
  intros Hmo Hd Hlen mask.
  unfold month_rows, df_get. fold (col_of tx_df "month"). rewrite Hmo.
  cbn [and_then col_eq_str]. fold mask.
  unfold sort_values_date_desc, df_get. fold (col_of (df_filter tx_df mask) "date").
  rewrite col_of_filter, Hd. cbn [fmap option_fmap option_map and_then col_mask].
  set (sel := mask_list mask dates).
  set (sorted := sort_by _ (zip sel (seq 0 (length sel)))).
  destruct (zip_seq_order (fun a b : option timestamp * nat => date_desc a.1 b.1) sel)
    as [Hperm Htake]. fold sorted in Hperm, Htake.
  set (order := snd <$> sorted) in *.
  assert (Hcol : forall k c, col_of tx_df k = Some c ->
            col_of (mk_df (index (df_filter tx_df mask))
                      ((fun kc : string * column => (kc.1, col_take order kc.2))
                         <$> columns (df_filter tx_df mask))) k
            = Some (col_take order (col_mask mask c))).
  { intros k c Hc. unfold col_of. cbn [columns].
    rewrite (assoc_get_fmap_snd (col_take order)). fold (col_of (df_filter tx_df mask) k).
    now rewrite col_of_filter, Hc. }
  eexists _, order, (fst <$> sorted). split; [reflexivity|].
  split; [exact Hperm|]. split; [exact Hcol|].
  split. { rewrite (Hcol _ _ Hd). cbn [col_mask col_take]. fold sel. now rewrite Htake. }
  split. { rewrite <- Htake. now apply omap_lookup_perm. }
  split.
  { assert (Hs : Sorted (fun a b : option timestamp * nat => date_desc a.1 b.1 = true) sorted).
    { apply sort_by_sorted. intros x y. apply date_desc_total. }
    clear -Hs. induction Hs as [|p l _ IH Hhd]; [constructor|].
    cbn. constructor; [exact IH|]. destruct Hhd; constructor. assumption. }
  intros k l Hk Hl. eexists. split; [apply (Hcol _ _ Hk)|].
  cbn [col_mask col_take]. apply omap_lookup_perm.
  rewrite Hperm. f_equal. unfold sel.
  rewrite !mask_list_length; [reflexivity | |]; unfold mask; rewrite length_fmap; congruence.
Qed.


(** The two rows of February 2026 come out with the 8th before the 7th. *)
Lemma month_rows_newest_first_witness :
  exists m,
    month_rows month_100_40 "2026-02" = Ok m
    /\ col_of m "date" = Some (ColTime [Some (mk_ts feb8 0); Some (mk_ts feb7 0)])
    /\ col_of m "type" = Some (ColObj ["Expense"; "Income"]).
Proof.
  destruct (month_rows_newest_first month_100_40 "2026-02" ["2026-02"; "2026-02"]
              [Some (mk_ts feb7 0); Some (mk_ts feb8 0)] eq_refl eq_refl eq_refl)
    as (m & order & dates' & Hrun & _).
  exists m. split; [exact Hrun|].
  vm_compute in Hrun. injection Hrun as <-. split; reflexivity.
Defined.

